(** * js-pkg-go: the [sum] library function and its build / test / publish scripts

    A shallow embedding of the TypeScript sources:
    - [index.ts], [src/sum/sum.ts]: the exported [sum] function;
    - [test.ts] and [scripts/test/{index,utils,types,help}.ts]: the test script;
    - [build.ts] and [scripts/build/{index,utils,types,help}.ts]: the build
      script, its flag parser and its steps over a bundler;
    - [publish.ts]: package validation, the release workflow and the command
      line.

    JavaScript numbers are IEEE-754 binary64 values; they are modelled by
    [spec_float] with the operations of [SpecFloat] at precision 53 and
    maximal exponent 1024. *)

From Stdlib Require Import ZArith QArith Lia List Bool Ascii String SpecFloat.
From Stdlib Require Import Permutation DecimalString.
From stdpp Require Import base option list strings gmap.

Import ListNotations.
Local Open Scope Z_scope.
Set Warnings "-register-all".

(** ** JavaScript numbers *)

Module Number.

Definition prec : Z := 53.
Definition emax : Z := 1024.

(** The type [number]. *)
Definition number : Type := spec_float.

(** [x + y] on numbers. *)
Definition add (x y : number) : number := SFadd prec emax x y.

(** The double nearest to [m * 2^e]; numeric literals are written with it. *)
Definition dyadic (m e : Z) : number := binary_normalize prec emax m e false.

(** The double nearest to the integer [z]. *)
Definition ofZ (z : Z) : number := dyadic z 0.

(** The literal [0]. *)
Definition zero : number := S754_zero false.

(** [Number.MAX_SAFE_INTEGER], 2^53 - 1. *)
Definition MAX_SAFE_INTEGER : Z := 9007199254740991.

Definition safe (z : Z) : Prop := Z.abs z <= MAX_SAFE_INTEGER.

(** The rational number a finite double stands for. *)
Definition toQ (x : number) : option Q :=
  match x with
  | S754_zero _ => Some 0%Q
  | S754_finite s m e =>
      let n := cond_Zopp s (Zpos m) in
      Some (match e with
            | Zneg p => Qmake n (2 ^ p)%positive
            | _ => inject_Z (n * 2 ^ e)
            end)
  | _ => None
  end.

End Number.

(** ** [sum] ([index.ts], [src/sum/sum.ts]) *)

(** [Array.prototype.reduce] with an initial value. *)
Fixpoint reduce {A B : Type} (callback : B -> A -> B) (initialValue : B)
    (arr : list A) : B :=
  match arr with
  | [] => initialValue
  | val :: rest => reduce callback (callback initialValue val) rest
  end.

(** [function sum(...args) { return args.reduce((acc, val) => acc + val, 0); }] *)
Definition sum (args : list Number.number) : Number.number :=
  reduce (fun acc val => Number.add acc val) Number.zero args.

(** The mathematical sum of a sequence of rationals and of integers. *)
Definition Qsum (qs : list Q) : Q := fold_right Qplus 0%Q qs.
Definition Zsum (zs : list Z) : Z := fold_right Z.add 0 zs.

(** The running totals of a sequence of integers, the first element first. *)
Fixpoint prefix_sums (acc : Z) (zs : list Z) : list Z :=
  match zs with
  | [] => []
  | z :: rest => (acc + z) :: prefix_sums (acc + z) rest
  end.

(** ** The JavaScript runtime, as far as the scripts use it *)

Module Js.

(** Values as [JSON.parse] and property reads produce them. *)
Inductive value : Type :=
| VUndefined
| VNull
| VBool (b : bool)
| VNumber (n : Number.number)
| VString (s : string)
| VArray (items : list value)
| VObject (props : list (string * value)).

(** What [throw] can raise in these scripts. [TypeError k] is the error of
    reading the property [k] of [null] or [undefined]; [TypeErrorToPrimitive]
    is the [TypeError] of a value that cannot be converted to a primitive
    value. *)
Inductive error : Type :=
| Error (message : string)
| TypeError (property : string)
| TypeErrorToPrimitive
| SyntaxError (message : string)
| ChildProcessError (command : string) (status : Z)
| TestExecutionError (message : string) (command : option string).

(** ToBoolean. *)
Definition truthy (v : value) : bool :=
  match v with
  | VUndefined | VNull => false
  | VBool b => b
  | VNumber (S754_zero _) | VNumber S754_nan => false
  | VNumber _ => true
  | VString EmptyString => false
  | VString _ => true
  | VArray _ | VObject _ => true
  end.

(** ToBoolean of a [string | undefined]. *)
Definition truthy_string (s : option string) : bool :=
  match s with
  | Some (String _ _) => true
  | _ => false
  end.

(** The last binding of a key, as [JSON.parse] keeps it. *)
Fixpoint own_property (k : string) (props : list (string * value)) : option value :=
  match props with
  | [] => None
  | (k', v) :: rest =>
      match own_property k rest with
      | Some later => Some later
      | None => if String.eqb k k' then Some v else None
      end
  end.

Definition lookup (k : string) (props : list (string * value)) : value :=
  default VUndefined (own_property k props).

(** [v.k] for a key that no prototype defines. *)
Definition get (v : value) (k : string) : error + value :=
  match v with
  | VUndefined | VNull => inl (TypeError k)
  | VObject props => inr (lookup k props)
  | _ => inr VUndefined
  end.

Definition nl : string := String (ascii_of_nat 10) EmptyString.

(** ToString, the conversion a template literal applies to a value, on the
    values [JSON.parse] produces; [number_text] is [Number::toString]. An
    object is converted by its [toString] and then its [valueOf]: one that has
    a [toString] property of its own has no callable one, and
    [Object.prototype.valueOf] gives the object back, so the conversion
    throws; any other object gives what [Object.prototype.toString] gives.
    An array is converted by [Array.prototype.join], which converts its
    elements, [null] and [undefined] to the empty string. *)
Section Conversion.
Variable number_text : Number.number -> string.

Fixpoint ToString (v : value) : error + string :=
  match v with
  | VUndefined => inr "undefined"
  | VNull => inr "null"
  | VBool true => inr "true"
  | VBool false => inr "false"
  | VNumber n => inr (number_text n)
  | VString s => inr s
  | VArray items =>
      let fix elements (l : list value) : error + list string :=
        match l with
        | [] => inr []
        | x :: rest =>
            match (match x with
                   | VUndefined | VNull => inr EmptyString
                   | _ => ToString x
                   end) with
            | inl e => inl e
            | inr text =>
                match elements rest with
                | inl e => inl e
                | inr texts => inr (text :: texts)
                end
            end
        end in
      match elements items with
      | inl e => inl e
      | inr texts => inr (String.concat "," texts)
      end
  | VObject props =>
      match own_property "toString" props with
      | Some _ => inl TypeErrorToPrimitive
      | None => inr "[object Object]"
      end
  end.

End Conversion.

(** [s.startsWith(p)] *)
Definition startsWith (s p : string) : bool := String.prefix p s.

(** [s.split(sep)] for a separator of one character. *)
Fixpoint split (sep : ascii) (s : string) : list string :=
  match s with
  | EmptyString => [EmptyString]
  | String c rest =>
      if Ascii.eqb c sep then EmptyString :: split sep rest
      else match split sep rest with
           | seg :: segs => String c seg :: segs
           | [] => [String c EmptyString]
           end
  end.

(** [arr.includes(x)], [arr.find(p)], [arr.filter(p)], [arr.join(sep)],
    [arr[i]] on arrays of strings. *)
Definition includes (arr : list string) (x : string) : bool :=
  existsb (String.eqb x) arr.
Definition find (p : string -> bool) (arr : list string) : option string :=
  List.find p arr.
Definition filter (p : string -> bool) (arr : list string) : list string :=
  List.filter p arr.
Definition join (sep : string) (arr : list string) : string :=
  String.concat sep arr.
Definition at_index (arr : list string) (i : nat) : option string :=
  nth_error arr i.

(** [a === b] for a [string | undefined] against a string literal. *)
Definition strict_eq (a : option string) (b : string) : bool :=
  match a with
  | Some s => String.eqb s b
  | None => false
  end.

(** [process.argv[2]] and [process.argv.slice(3)]. *)
Definition argv_command (argv : list string) : option string := nth_error argv 2.
Definition argv_flags (argv : list string) : list string := skipn 3 argv.

(** An object property that may be missing, or present and [undefined]. *)
Inductive slot (T : Type) : Type :=
| Missing
| Undefined
| Val (v : T).
Arguments Missing {T}.
Arguments Undefined {T}.
Arguments Val {T} v.

(** One property of [{ ...a, ...b }]. *)
Definition spread {T} (a b : slot T) : slot T :=
  match b with
  | Missing => a
  | _ => b
  end.

Definition of_option {T} (o : option T) : slot T :=
  match o with
  | Some v => Val v
  | None => Undefined
  end.

End Js.

(** ** The host: file system, child processes, console *)

(** What the scripts reach through [fs], [child_process] and [Bun.file]:
    [spawn] runs a command to completion and gives the world it leaves and
    the exit status of the child; [Number_toString] is the text of a number,
    [Number::toString]. *)
Class Host : Type := {
  World : Type;
  existsSync : World -> string -> bool;
  readJson : World -> string -> Js.error + Js.value;
  spawn : World -> string -> World * Z;
  Number_toString : Number.number -> string
}.

Inductive event : Type :=
| Stdout (line : string)
| Stderr (line : string)
| Spawn (command : string).

(** How a computation ends: normally, by [throw], or by [process.exit]. *)
Inductive completion (A : Type) : Type :=
| Normal (a : A)
| Throw (e : Js.error)
| Exit (code : Z).
Arguments Normal {A} a.
Arguments Throw {A} e.
Arguments Exit {A} code.

(** The exit status of the process when the top-level module completes. *)
Definition exit_status {A} (c : completion A) : Z :=
  match c with
  | Normal _ => 0
  | Throw _ => 1
  | Exit code => code
  end.

Section Script.
Context `{Host}.

Definition M (A : Type) : Type := World -> list event * World * completion A.

Definition ret {A} (a : A) : M A := fun w => ([], w, Normal a).

Definition bind {A B} (m : M A) (k : A -> M B) : M B :=
  fun w =>
    match m w with
    | (t, w', Normal a) => let '(t', w'', c) := k a w' in (t ++ t', w'', c)
    | (t, w', Throw e) => (t, w', Throw e)
    | (t, w', Exit code) => (t, w', Exit code)
    end.

Definition throw {A} (e : Js.error) : M A := fun w => ([], w, Throw e).

(** [process.exit(code)] *)
Definition process_exit {A} (code : Z) : M A := fun w => ([], w, Exit code).

(** [try { m } catch (error) { handler error }] *)
Definition try_catch {A} (m : M A) (handler : Js.error -> M A) : M A :=
  fun w =>
    match m w with
    | (t, w', Throw e) => let '(t', w'', c) := handler e w' in (t ++ t', w'', c)
    | r => r
    end.

Definition console_log (line : string) : M unit := fun w => ([Stdout line], w, Normal tt).
Definition console_error (line : string) : M unit := fun w => ([Stderr line], w, Normal tt).

(** [execSync(command, { stdio: "inherit" })]: throws when the child
    exits with a status other than 0. *)
Definition execSync (command : string) : M unit :=
  fun w =>
    let '(w', status) := spawn w command in
    ([Spawn command], w',
     if status =? 0 then Normal tt else Throw (Js.ChildProcessError command status)).

(** [existsSync(path)] *)
Definition exists_sync (path : string) : M bool :=
  fun w => ([], w, Normal (existsSync w path)).

(** [await Bun.file(path).json()] *)
Definition file_json (path : string) : M Js.value :=
  fun w => ([], w, match readJson w path with
                   | inr v => Normal v
                   | inl e => Throw e
                   end).

(** [v.k] *)
Definition get (v : Js.value) (k : string) : M Js.value :=
  match Js.get v k with
  | inr x => ret x
  | inl e => throw e
  end.

(** The conversion of a substitution of a template literal. *)
Definition ToString (v : Js.value) : Js.error + string := Js.ToString Number_toString v.

Definition to_string (v : Js.value) : M string :=
  match ToString v with
  | inr text => ret text
  | inl e => throw e
  end.

(** [if (c) { m }] *)
Definition when (c : bool) (m : M unit) : M unit := if c then m else ret tt.

(** [for (const x of xs) { body x }] *)
Fixpoint for_of {A} (xs : list A) (body : A -> M unit) : M unit :=
  match xs with
  | [] => ret tt
  | x :: rest => bind (body x) (fun _ => for_of rest body)
  end.

(** The commands a run handed to [execSync], in order. *)
Definition spawned (t : list event) : list string :=
  omap (fun e => match e with Spawn c => Some c | _ => None end) t.

End Script.

Arguments ToString {_} v : simpl never.

Declare Scope script_scope.
Delimit Scope script_scope with script.
Notation "x <- m ;; k" := (bind m (fun x => k))
  (at level 100, m at next level, right associativity) : script_scope.
Notation "m ;; k" := (bind m (fun _ => k))
  (at level 100, right associativity) : script_scope.

(** ** The test script: [scripts/test/{types,help,utils,index}.ts] *)

Module TestScript.
Local Open Scope script_scope.

(** [types.ts] *)
Record TestOptions : Type := {
  coverage : option bool;
  watch : option bool;
  verbose : option bool;
  file : option string
}.

Record ParsedArgs : Type := {
  command : option string;
  fileArg : option string;
  options : TestOptions
}.

(** [help.ts] *)
Definition helpMessage : string := "
🧪 Test Script

Usage: npm run test:<command> [flags]

Commands:
  coverage      Run all tests with coverage [default]
  file <name>   Run specific test file with watch

Flags:
  --coverage    Enable coverage reporting (default for most commands)
  --verbose     Enable verbose output
  --watch       Enable watch mode

Examples:
  npm run test:coverage             # Run tests with coverage
  npm run test:file sum.test.ts     # Test specific file
".

Section Run.
Context `{Host}.

(** [utils.ts] *)
Definition runAllTests (options : TestOptions) : M unit :=
  console_log ("🧪 Running all tests with coverage..." +:+ Js.nl) ;;
  let args := ["test"] ++
    (if negb (bool_decide (coverage options = Some false)) then ["--coverage"] else []) in
  try_catch
    (let command := "bun " +:+ Js.join " " args in
     console_log ("📋 Command: " +:+ command +:+ Js.nl) ;;
     execSync command ;;
     console_log (Js.nl +:+ "✅ All tests passed successfully!"))
    (fun error =>
       console_error (Js.nl +:+ "❌ Tests failed") ;;
       throw (Js.TestExecutionError "Test execution failed"
                (Some ("bun " +:+ Js.join " " args)))).

Definition runSingleFileTests (filename : string) (options : TestOptions) : M unit :=
  console_log ("🎯 Running tests for file: " +:+ filename +:+ "..." +:+ Js.nl) ;;
  let args := ["test"; filename] ++ ["--watch"] ++
    (if negb (bool_decide (coverage options = Some false)) then ["--coverage"] else []) ++
    (if bool_decide (verbose options = Some true) then ["--verbose"] else []) in
  try_catch
    (let command := "bun " +:+ Js.join " " args in
     console_log ("📋 Command: " +:+ command +:+ Js.nl) ;;
     console_log ("💡 Press Ctrl+C to stop watching" +:+ Js.nl) ;;
     execSync command)
    (fun error =>
       console_error ("❌ Tests failed for file: " +:+ filename) ;;
       throw (Js.TestExecutionError ("Test execution failed for " +:+ filename)
                (Some ("bun " +:+ Js.join " " args)))).

(** [index.ts] *)
Definition parseCommandLineArgs (argv : list string) : ParsedArgs :=
  let command := Js.argv_command argv in
  let flags := Js.argv_flags argv in
  let fileArg := Js.find (fun flag => negb (Js.startsWith flag "--")) flags in
  let cleanFlags := Js.filter (fun flag => Js.startsWith flag "--") flags in
  let options := {|
    coverage := Some (Js.includes cleanFlags "--coverage" || Js.includes cleanFlags "--cov");
    verbose := Some (Js.includes cleanFlags "--verbose" || Js.includes cleanFlags "--v");
    watch := Some (Js.includes cleanFlags "--watch" || Js.includes cleanFlags "--w");
    file := None
  |} in
  {| command := command; fileArg := fileArg; options := options |}.

(** The module body: [switch (command) { ... }]. *)
Definition main (argv : list string) : M unit :=
  let '{| command := command; fileArg := fileArg; options := options |} :=
    parseCommandLineArgs argv in
  if Js.strict_eq command "coverage" then
    runAllTests options
  else if Js.strict_eq command "file" then
    when (negb (Js.truthy_string fileArg))
      (console_error "❌ Please specify a test file to run" ;;
       console_log "Usage: bun run test:file <filename>" ;;
       process_exit 1) ;;
    runSingleFileTests (default "undefined" fileArg) options
  else if Js.strict_eq command "help" then
    console_log helpMessage
  else
    console_log helpMessage ;;
    when (negb (Js.truthy_string command)) (runAllTests options).
End Run.
End TestScript.

(** ** The test script before it was split: [test.ts] *)

Module TestLegacy.
Local Open Scope script_scope.

Record TestOptions : Type := {
  coverage : option bool;
  watch : option bool;
  verbose : option bool;
  file : option string
}.

(** The text the [default] case prints. *)
Definition helpMessage : string := "
🧪 js-lib-go Test Script

Usage: bun run test.ts <command> [flags]

Commands:
  coverage      Run all tests with coverage [default]
  file <name>   Run specific test file with watch

Flags:
  --coverage    Enable coverage reporting (default for most commands)
  --verbose     Enable verbose output
  --watch       Enable watch mode

Examples:
  bun run test.ts coverage            # Run tests with coverage
  bun run test.ts file sum.test.ts    # Test specific file
".

Section Run.
Context `{Host}.

Definition runTestsWithCoverage : M unit :=
  console_log ("🧪 Running all tests with coverage..." +:+ Js.nl) ;;
  let args := ["test"; "--coverage"] in
  try_catch
    (let command := "bun " +:+ Js.join " " args in
     console_log ("📋 Command: " +:+ command +:+ Js.nl) ;;
     execSync command ;;
     console_log (Js.nl +:+ "✅ All tests passed successfully!"))
    (fun error =>
       console_error (Js.nl +:+ "❌ Tests failed") ;;
       throw error).

Definition runFileTests (filename : string) (options : TestOptions) : M unit :=
  console_log ("🎯 Running tests for file: " +:+ filename +:+ "..." +:+ Js.nl) ;;
  let args := ["test"; filename; "--watch"] ++
    (if bool_decide (coverage options = Some true) then ["--coverage"] else []) ++
    (if bool_decide (verbose options = Some true) then ["--verbose"] else []) in
  try_catch
    (let command := "bun " +:+ Js.join " " args in
     console_log ("📋 Command: " +:+ command +:+ Js.nl) ;;
     console_log ("💡 Press Ctrl+C to stop watching" +:+ Js.nl) ;;
     execSync command)
    (fun error =>
       console_error ("❌ Tests failed for file: " +:+ filename) ;;
       throw error).

(** The module body: [command], [flags], [fileArg], [cleanFlags], [options]
    and the [switch]. *)
Definition command (argv : list string) : option string := Js.argv_command argv.
Definition flags (argv : list string) : list string := Js.argv_flags argv.

Definition fileArg (argv : list string) : option string :=
  Js.find (fun flag => negb (Js.startsWith flag "--")) (flags argv).

Definition cleanFlags (argv : list string) : list string :=
  Js.filter (fun flag => Js.startsWith flag "--") (flags argv).

Definition options (argv : list string) : TestOptions :=
  let cleanFlags := cleanFlags argv in
  {| coverage := Some (Js.includes cleanFlags "--coverage" || Js.includes cleanFlags "--cov");
     verbose := Some (Js.includes cleanFlags "--verbose" || Js.includes cleanFlags "--v");
     watch := Some (Js.includes cleanFlags "--watch" || Js.includes cleanFlags "--w");
     file := None |}.

Definition main (argv : list string) : M unit :=
  let command := command argv in
  let fileArg := fileArg argv in
  let options := options argv in
  if Js.strict_eq command "coverage" then
    runTestsWithCoverage
  else if Js.strict_eq command "file" then
    when (negb (Js.truthy_string fileArg))
      (console_error "❌ Please specify a test file to run" ;;
       console_log "Usage: bun test:file <filename>" ;;
       process_exit 1) ;;
    runFileTests (default "undefined" fileArg)
      {| coverage := Some (default true (coverage options));
         verbose := verbose options;
         watch := watch options;
         file := file options |}
  else
    console_log helpMessage ;;
    when (negb (Js.truthy_string command)) runTestsWithCoverage.
End Run.
End TestLegacy.

(** ** Valued flags *)

(** [flags.find((f) => f.startsWith(prefix))?.split("=")[1]], the expression
    [build.ts], [scripts/build/index.ts] and [publish.ts] read the flags
    [--target=], [--format=], [--tag=] and [--registry=] with. *)
Definition valued_flag (prefix : string) (flags : list string) : option string :=
  match Js.find (fun f => Js.startsWith f prefix) flags with
  | Some f => Js.at_index (Js.split "=" f) 1
  | None => None
  end.

(** [x || fallback] for a [string | undefined]. *)
Definition or_else (x : option string) (fallback : option string) : option string :=
  if Js.truthy_string x then x else fallback.

(** The text of a token after its first ["="]. *)
Fixpoint after_first_eq (s : string) : string :=
  match s with
  | EmptyString => EmptyString
  | String c rest => if Ascii.eqb c "=" then rest else after_first_eq rest
  end.

(** The text of a token before its first ["="]. *)
Fixpoint before_first_eq (s : string) : string :=
  match s with
  | EmptyString => EmptyString
  | String c rest => if Ascii.eqb c "=" then EmptyString else String c (before_first_eq rest)
  end.

(** The token has an ["="]. *)
Fixpoint has_eq (s : string) : bool :=
  match s with
  | EmptyString => false
  | String c rest => Ascii.eqb c "=" || has_eq rest
  end.

(** A token that is not a flag. *)
Definition positional (flag : string) : bool := negb (Js.startsWith flag "--").

(** ** The build script's flags: [build.ts] *)

Module BuildLegacy.

Record BuildOptions : Type := {
  clean : bool;
  minify : bool;
  sourcemap : bool;
  watch : bool;
  pack : bool;
  target : option string;
  format : option string
}.

Definition options (argv : list string) : BuildOptions :=
  let flags := Js.argv_flags argv in
  {| clean := negb (Js.includes flags "--no-clean");
     minify := Js.includes flags "--minify";
     sourcemap := Js.includes flags "--sourcemap";
     watch := Js.includes flags "--watch";
     pack := Js.includes flags "--pack";
     target := or_else (valued_flag "--target=" flags) (Some "bun");
     format := or_else (valued_flag "--format=" flags) (Some "esm") |}.

End BuildLegacy.

(** ** The build script's flags: [scripts/build/{types,index}.ts] *)

Module Build.

(** A key that [Object.fromEntries] dropped is [None]. *)
Record BuildOptions : Type := {
  minify : option bool;
  sourcemap : option bool;
  watch : option bool;
  pack : option bool;
  types : option bool;
  target : option string;
  format : option string
}.

Record ParsedArgs : Type := {
  command : option string;
  options : BuildOptions
}.

(** [c ? true : undefined] *)
Definition true_or_undefined (c : bool) : option bool := if c then Some true else None.

Definition parseCommandLineArgs (argv : list string) : ParsedArgs :=
  let command := Js.argv_command argv in
  let flags := Js.argv_flags argv in
  {| command := command;
     options := {|
       minify := true_or_undefined (Js.includes flags "--minify");
       sourcemap := true_or_undefined (Js.includes flags "--sourcemap");
       watch := true_or_undefined (Js.includes flags "--watch");
       pack := true_or_undefined (Js.includes flags "--pack");
       types := true_or_undefined (Js.includes flags "--types");
       target := or_else (valued_flag "--target=" flags) None;
       format := or_else (valued_flag "--format=" flags) None |} |}.

End Build.

(** ** The publish script: [publish.ts] *)

Module Publish.
Local Open Scope script_scope.

Inductive Access : Type := public | restricted.

Definition Access_string (a : Access) : string :=
  match a with
  | public => "public"
  | restricted => "restricted"
  end.

Inductive VersionType : Type := patch | minor | major.

Definition VersionType_string (t : VersionType) : string :=
  match t with
  | patch => "patch"
  | minor => "minor"
  | major => "major"
  end.

Record PublishOptions : Type := {
  dryRun : Js.slot bool;
  tag : Js.slot string;
  access : Js.slot Access;
  registry : Js.slot string
}.

Definition DEFAULT_OPTIONS : PublishOptions :=
  {| dryRun := Js.Val false;
     tag := Js.Val "latest";
     access := Js.Val public;
     registry := Js.Missing |}.

(** [{ ...a, ...b }] *)
Definition spread (a b : PublishOptions) : PublishOptions :=
  {| dryRun := Js.spread (dryRun a) (dryRun b);
     tag := Js.spread (tag a) (tag b);
     access := Js.spread (access a) (access b);
     registry := Js.spread (registry a) (registry b) |}.

(** [options] of the module body. *)
Definition options (argv : list string) : PublishOptions :=
  let flags := Js.argv_flags argv in
  {| dryRun := Js.Val (Js.includes flags "--dry-run" || Js.includes flags "--dry");
     tag := Js.of_option (valued_flag "--tag=" flags);
     access :=
       if Js.includes flags "--public" then Js.Val public
       else if Js.includes flags "--restricted" then Js.Val restricted
       else Js.Undefined;
     registry := Js.of_option (valued_flag "--registry=" flags) |}.

Definition requiredFiles : list string :=
  ["dist/index.js"; "dist/index.d.ts"; "package.json"; "README.md"].

Section Run.
Context `{Host}.

(** [!pkg.main && !pkg.module && !pkg.exports] *)
Definition no_entry_point (pkg : Js.value) : M bool :=
  main <- get pkg "main" ;;
  if Js.truthy main then ret false else
  module <- get pkg "module" ;;
  if Js.truthy module then ret false else
  exports <- get pkg "exports" ;;
  ret (negb (Js.truthy exports)).

Definition validatePackage : M unit :=
  console_log ("🔍 Validating package..." +:+ Js.nl) ;;
  dist <- exists_sync "dist" ;;
  when (negb dist)
    (console_error "❌ dist directory not found. Please run build first." ;;
     throw (Js.Error "Build required before publishing")) ;;
  for_of requiredFiles (fun file =>
    present <- exists_sync file ;;
    when (negb present)
      (console_error ("❌ Required file missing: " +:+ file) ;;
       throw (Js.Error ("Missing required file: " +:+ file)))) ;;
  try_catch
    (pkg <- file_json "package.json" ;;
     name <- get pkg "name" ;;
     when (negb (Js.truthy name))
       (throw (Js.Error "package.json missing 'name' field")) ;;
     version <- get pkg "version" ;;
     when (negb (Js.truthy version))
       (throw (Js.Error "package.json missing 'version' field")) ;;
     missing <- no_entry_point pkg ;;
     when missing
       (throw (Js.Error "package.json missing entry point (main/module/exports)")) ;;
     console_log "✅ Package validation passed" ;;
     name <- to_string name ;;
     version <- to_string version ;;
     console_log ("   📦 " +:+ name +:+ "@" +:+ version) ;;
     description <- get pkg "description" ;;
     description <- to_string (if Js.truthy description then description
                               else Js.VString "No description") ;;
     console_log ("   📄 " +:+ description))
    (fun error =>
       console_error "❌ Invalid package.json" ;;
       throw error).

Definition updateVersion (type : VersionType) : M Js.value :=
  console_log ("📈 Updating version (" +:+ VersionType_string type +:+ ")..." +:+ Js.nl) ;;
  try_catch
    (pkg <- file_json "package.json" ;;
     oldVersion <- get pkg "version" ;;
     execSync ("npm version " +:+ VersionType_string type +:+ " --no-git-tag-version") ;;
     newPkg <- file_json "package.json" ;;
     newVersion <- get newPkg "version" ;;
     oldText <- to_string oldVersion ;;
     newText <- to_string newVersion ;;
     console_log ("✅ Version updated: " +:+ oldText +:+ " → " +:+ newText) ;;
     ret newVersion)
    (fun error =>
       console_error "❌ Failed to update version" ;;
       throw error).

Definition buildForProduction : M unit :=
  console_log ("🏗️  Building for production..." +:+ Js.nl) ;;
  try_catch
    (execSync "bun run build.ts prod" ;;
     console_log "✅ Production build completed")
    (fun error =>
       console_error "❌ Production build failed" ;;
       throw error).

Definition publishToNpm (options : PublishOptions) : M unit :=
  let mergedOptions := spread DEFAULT_OPTIONS options in
  let isDryRun := match dryRun mergedOptions with Js.Val b => b | _ => false end in
  console_log ("🚀 Publishing to npm..." +:+ Js.nl) ;;
  let args := ["publish"] ++
    (if isDryRun then ["--dry-run"] else []) ++
    (match tag mergedOptions with
     | Js.Val t =>
         if Js.truthy_string (Some t) && negb (String.eqb t "latest")
         then ["--tag"; t] else []
     | _ => []
     end) ++
    (match access mergedOptions with
     | Js.Val a => ["--access"; Access_string a]
     | _ => []
     end) ++
    (match registry mergedOptions with
     | Js.Val r => if Js.truthy_string (Some r) then ["--registry"; r] else []
     | _ => []
     end) in
  try_catch
    (let command := "bun " +:+ Js.join " " args in
     console_log ("📋 Command: " +:+ command +:+ Js.nl) ;;
     when isDryRun (console_log "🧪 DRY RUN - Not actually publishing") ;;
     execSync command ;;
     if negb isDryRun then
       console_log (Js.nl +:+ "✅ Published to npm successfully!") ;;
       pkg <- file_json "package.json" ;;
       name <- get pkg "name" ;;
       name <- to_string name ;;
       console_log ("🌍 View on npm: https://www.npmjs.com/package/" +:+ name)
     else
       console_log (Js.nl +:+ "✅ Dry run completed successfully!"))
    (fun error =>
       console_error (Js.nl +:+ "❌ Failed to publish to npm") ;;
       throw error).

Definition publishWithVersionBump (versionType : VersionType)
    (options : PublishOptions) : M unit :=
  console_log ("🚀 Full " +:+ VersionType_string versionType
                 +:+ " release workflow..." +:+ Js.nl) ;;
  buildForProduction ;;
  validatePackage ;;
  newVersion <- updateVersion versionType ;;
  publishToNpm options ;;
  released <- to_string newVersion ;;
  console_log (Js.nl +:+ "🎉 Successfully released v" +:+ released +:+ "!").
End Run.
End Publish.

(** ** A sample host *)

(** A disk with a set of existing paths and a manifest, and a list of
    commands that fail; building creates the [dist] directory. It is the
    host the concrete runs below are made on. *)
Module Sample.

Record Disk : Type := {
  paths : list string;
  manifest : Js.error + Js.value;
  failing : list string
}.

Definition built (d : Disk) : Disk :=
  {| paths := paths d ++ ["dist"; "dist/index.js"; "dist/index.d.ts"];
     manifest := manifest d;
     failing := failing d |}.

Definition run (d : Disk) (command : string) : Disk * Z :=
  if Js.includes (failing d) command then (d, 1)
  else if String.eqb command "bun run build.ts prod" then (built d, 0)
  else (d, 0).

(** [Number::toString] on NaN, the infinities and the integers below
    10^21 in magnitude, which are the numbers a sample manifest holds; of any
    other number the sample prints the integer part. *)
Definition number_text (n : Number.number) : string :=
  match n with
  | S754_zero _ => "0"
  | S754_nan => "NaN"
  | S754_infinity false => "Infinity"
  | S754_infinity true => "-Infinity"
  | S754_finite s m e =>
      NilZero.string_of_int (Z.to_int (cond_Zopp s (Z.shiftl (Zpos m) e)))
  end.

(** What the sample console prints for a value that is not a string:
    strings, [undefined], [null] and booleans as they are, any other value
    as a plain object. *)
Definition show (v : Js.value) : string :=
  match v with
  | Js.VString s => s
  | Js.VUndefined => "undefined"
  | Js.VNull => "null"
  | Js.VBool true => "true"
  | Js.VBool false => "false"
  | _ => "[object Object]"
  end.

Definition host : Host :=
  {| World := Disk;
     existsSync := fun d path => Js.includes (paths d) path;
     readJson := fun d path =>
       if String.eqb path "package.json" then manifest d
       else inl (Js.Error "ENOENT");
     spawn := run;
     Number_toString := number_text |}.

Definition package_json : Js.value :=
  Js.VObject [("name", Js.VString "@g8k/js-pkg-go");
              ("version", Js.VString "0.0.1");
              ("module", Js.VString "dist/index.js")].

(** A checkout that was never built. *)
Definition fresh : Disk :=
  {| paths := ["package.json"; "README.md"; "index.ts"];
     manifest := inr package_json;
     failing := [] |}.

(** The same checkout, on which the given commands fail. *)
Definition failing_with (commands : list string) : Disk :=
  {| paths := paths fresh;
     manifest := manifest fresh;
     failing := commands |}.

End Sample.

(** ** Statements the properties below are about *)

(** The value [sum] returns is the mathematical sum of the values of its
    arguments. *)
Definition sum_is_mathematical (xs : list Number.number) : Prop :=
  exists (qs : list Q) (q : Q),
    map Number.toQ xs = map Some qs /\ Number.toQ (sum xs) = Some q /\ (q == Qsum qs)%Q.

Definition Zabs_sum (zs : list Z) : Z := Zsum (map Z.abs zs).

(** [m * 2^j] on positives, for [0 <= j]. *)
Definition P2 (m : positive) (j : Z) : positive :=
  match j with
  | Zpos d => Pos.iter xO m d
  | _ => m
  end.

(** A shift record that has lost no bit. *)
Definition exact (m : Z) : shr_record :=
  {| shr_m := m; shr_r := false; shr_s := false |}.

(** The result of rounding [m * 2^e] when no bit is lost. *)
Definition canon (s : bool) (m : positive) (e : Z) : Number.number :=
  let fe := fexp Number.prec Number.emax (Zpos (digits2_pos m) + e) in
  if fe <=? Number.emax - Number.prec then S754_finite s (P2 m (e - fe)) fe
  else S754_infinity s.


Section Statements.
Context `{Host}.

Definition trace_of {A} (r : list event * World * completion A) : list event := r.1.1.
Definition world_of {A} (r : list event * World * completion A) : World := r.1.2.
Definition completion_of {A} (r : list event * World * completion A) : completion A := r.2.

(** Steps run in order; the first one that does not complete normally
    ends the run, with its completion and the world as it left it. *)
Fixpoint in_sequence (steps : list (M unit)) : M unit :=
  fun w =>
    match steps with
    | [] => ([], w, Normal tt)
    | step :: rest =>
        match step w with
        | (t, w', Normal _) =>
            let '(t', w'', c) := in_sequence rest w' in (t ++ t', w'', c)
        | stopped => stopped
        end
    end.

(** A step whose result is not used. *)
Definition void {A} (m : M A) : M unit := bind m (fun _ => ret tt).

(** [pkg.k], [undefined] where the read would throw. *)
Definition field (pkg : Js.value) (k : string) : Js.value :=
  match Js.get pkg k with
  | inr v => v
  | inl _ => Js.VUndefined
  end.

(** The manifest has no usable field [k]: it is missing or falsy. *)
Definition lacks (pkg : Js.value) (k : string) : bool := negb (Js.truthy (field pkg k)).

(** The error validation ends with, if any. *)
Definition validation_error (w : World) : option Js.error :=
  if negb (existsSync w "dist") then Some (Js.Error "Build required before publishing")
  else
    match List.find (fun file => negb (existsSync w file)) Publish.requiredFiles with
    | Some file => Some (Js.Error ("Missing required file: " +:+ file))
    | None =>
        match readJson w "package.json" with
        | inl e => Some e
        | inr pkg =>
            match Js.get pkg "name" with
            | inl e => Some e
            | inr _ =>
                if lacks pkg "name" then
                  Some (Js.Error "package.json missing 'name' field")
                else if lacks pkg "version" then
                  Some (Js.Error "package.json missing 'version' field")
                else if lacks pkg "main" && lacks pkg "module" && lacks pkg "exports" then
                  Some (Js.Error "package.json missing entry point (main/module/exports)")
                else None
            end
        end
    end.

(** The value has a conversion to a string. *)
Definition convertible (v : Js.value) : bool :=
  match ToString v with
  | inr _ => true
  | inl _ => false
  end.

(** The error printing the summary of a manifest ends with, if any: the
    conversion of its [name], of its [version], or of its [description] when
    that is truthy. *)
Definition summary_error (pkg : Js.value) : option Js.error :=
  let description := field pkg "description" in
  match ToString (field pkg "name") with
  | inl e => Some e
  | inr _ =>
      match ToString (field pkg "version") with
      | inl e => Some e
      | inr _ =>
          match ToString (if Js.truthy description then description
                          else Js.VString "No description") with
          | inl e => Some e
          | inr _ => None
          end
      end
  end.

(** The error [validatePackage] ends with, if any: that of a check, or
    that of printing the summary of a manifest that passed the checks. *)
Definition validatePackage_error (w : World) : option Js.error :=
  match validation_error w with
  | Some e => Some e
  | None =>
      match readJson w "package.json" with
      | inr pkg => summary_error pkg
      | inl _ => None
      end
  end.
End Statements.

(** ** The bundler: what the build scripts reach besides *)

Module Bun.

Inductive Sourcemap : Type := linked | none.

(** The configuration handed to [Bun.build]; [external] is [None] when
    the key is not given. *)
Record BuildConfig : Type := {
  entrypoints : list string;
  outdir : string;
  target : Js.slot string;
  format : Js.slot string;
  minify : Js.slot bool;
  splitting : bool;
  sourcemap : Sourcemap;
  external : option (list string);
  footer : string;
  define : list (string * string);
  packages : string;
  drop : list string
}.

Record BuildArtifact : Type := {
  path : string;
  size : Number.number
}.

Record BuildOutput : Type := {
  success : bool;
  logs : list Js.value;
  outputs : list BuildArtifact
}.

End Bun.

(** [rmSync(path, { recursive: true, force: true })], [Bun.build(config)],
    [(await Bun.file(path).stat()).size], [x.toFixed(2)], and the text
    [console.error] and [console.warn] print for a build message. *)
Class Bundler `{Host} : Type := {
  rmSync : World -> string -> World * option Js.error;
  Bun_build : World -> Bun.BuildConfig -> World * (Js.error + Bun.BuildOutput);
  stat_size : World -> string -> Js.error + Number.number;
  toFixed2 : Number.number -> string;
  inspect : Js.value -> string
}.

Section BundlerScript.
Context `{Bundler}.

Definition rm_sync (path : string) : M unit :=
  fun w =>
    let '(w', failure) := rmSync w path in
    ([], w', match failure with
             | None => Normal tt
             | Some e => Throw e
             end).

Definition bun_build (config : Bun.BuildConfig) : M Bun.BuildOutput :=
  fun w =>
    let '(w', result) := Bun_build w config in
    ([], w', match result with
             | inr output => Normal output
             | inl e => Throw e
             end).

Definition file_size (path : string) : M Number.number :=
  fun w => ([], w, match stat_size w path with
                   | inr size => Normal size
                   | inl e => Throw e
                   end).

(** [console.warn] writes to the error stream. *)
Definition console_warn (line : string) : M unit := console_error line.

(** [(size / 1024).toFixed(2)] *)
Definition sizeKB (size : Number.number) : string :=
  toFixed2 (SFdiv Number.prec Number.emax size (Number.ofZ 1024)).

End BundlerScript.

(** [JSON.stringify(s)] for a string with nothing to escape. *)
Definition JSON_stringify (s : string) : string :=
  String (ascii_of_nat 34) (s +:+ String (ascii_of_nat 34) EmptyString).

(** ToBoolean of an optional boolean property. *)
Definition on (s : Js.slot bool) : bool :=
  match s with
  | Js.Val b => b
  | _ => false
  end.

(** ** The build script: [scripts/build/{types,help,utils,index}.ts] *)

Module BuildRun.
Local Open Scope script_scope.

(** [types.ts] *)
Record BuildOptions : Type := {
  clean : Js.slot bool;
  minify : Js.slot bool;
  sourcemap : Js.slot bool;
  watch : Js.slot bool;
  pack : Js.slot bool;
  target : Js.slot string;
  format : Js.slot string;
  types : Js.slot bool
}.

Inductive BuildMode : Type := local | development | production.

(** [help.ts] *)
Definition helpMessage : string := "
🏗️  Build Script

Usage: npm run build:<command> [flags]

Commands:
    local         Build everything for local development (sourcemaps + tar file)
    dev           Development build (unminified, with sourcemaps)
    prod          Production build (minified, no sourcemaps) [default]

Flags:
    --pack        Create package tarball after build
    --minify      Enable minification
    --sourcemap   Generate source maps
    --target=<t>  Build target (browser|bun|node) [default: bun]
    --format=<f>  Output format (esm|cjs|iife) [default: esm]

Examples:
    npm run build.ts                     # Build everything
    npm run build.ts local --minify      # Build minified bundle
    npm run build.ts dev                 # Development build
    npm run build.ts prod --pack         # Production build + tarball
".

(** [utils.ts] *)
Definition LOCAL_BUILD_OPTIONS : BuildOptions :=
  {| clean := Js.Missing;
     minify := Js.Val false;
     sourcemap := Js.Val true;
     watch := Js.Missing;
     target := Js.Val "bun";
     format := Js.Val "esm";
     pack := Js.Val true;
     types := Js.Val true |}.

Definition DEVELOPMENT_BUILD_OPTIONS : BuildOptions :=
  {| clean := Js.Missing;
     minify := Js.Val false;
     sourcemap := Js.Val true;
     watch := Js.Missing;
     target := Js.Val "bun";
     format := Js.Val "esm";
     pack := Js.Missing;
     types := Js.Val true |}.

Definition PRODUCTION_BUILD_OPTIONS : BuildOptions :=
  {| clean := Js.Missing;
     minify := Js.Val true;
     sourcemap := Js.Val false;
     watch := Js.Missing;
     target := Js.Val "bun";
     format := Js.Val "esm";
     pack := Js.Missing;
     types := Js.Val false |}.

Definition OPTIONS (mode : BuildMode) : BuildOptions :=
  match mode with
  | local => LOCAL_BUILD_OPTIONS
  | development => DEVELOPMENT_BUILD_OPTIONS
  | production => PRODUCTION_BUILD_OPTIONS
  end.

(** [{ ...a, ...b }] *)
Definition spread (a b : BuildOptions) : BuildOptions :=
  {| clean := Js.spread (clean a) (clean b);
     minify := Js.spread (minify a) (minify b);
     sourcemap := Js.spread (sourcemap a) (sourcemap b);
     watch := Js.spread (watch a) (watch b);
     pack := Js.spread (pack a) (pack b);
     target := Js.spread (target a) (target b);
     format := Js.spread (format a) (format b);
     types := Js.spread (types a) (types b) |}.

(** The options object the parser returns: a key that
    [Object.fromEntries] dropped is missing. *)
Definition key {T} (o : option T) : Js.slot T :=
  match o with
  | Some v => Js.Val v
  | None => Js.Missing
  end.

Definition parsed (o : Build.BuildOptions) : BuildOptions :=
  {| clean := Js.Missing;
     minify := key (Build.minify o);
     sourcemap := key (Build.sourcemap o);
     watch := key (Build.watch o);
     pack := key (Build.pack o);
     target := key (Build.target o);
     format := key (Build.format o);
     types := key (Build.types o) |}.

(** [const buildConfig: BuildConfig = { ... }] of [buildBundle]. *)
Definition buildConfig (options : BuildOptions) : Bun.BuildConfig :=
  {| Bun.entrypoints := ["./index.ts"];
     Bun.outdir := "./dist";
     Bun.target := target options;
     Bun.format := format options;
     Bun.minify := minify options;
     Bun.splitting := false;
     Bun.sourcemap := if on (sourcemap options) then Bun.linked else Bun.none;
     Bun.external := None;
     Bun.footer := "// built with love in GDL 🫀";
     Bun.define := [("process.env.NODE_ENV", JSON_stringify "production")];
     Bun.packages := "bundle";
     Bun.drop := if on (minify options) then ["console"; "debugger"] else [] |}.

Section Run.
Context `{Bundler}.

Definition cleanDist : M unit :=
  dist <- exists_sync "dist" ;;
  when dist
    (rm_sync "dist" ;;
     console_log "🧹 Cleaned dist directory").

Definition buildTypes : M unit :=
  console_log "📝 Building TypeScript definitions..." ;;
  try_catch
    (execSync "npx tsc -p tsconfig.build.json" ;;
     console_log "✅ TypeScript definitions built successfully")
    (fun error =>
       console_error "❌ Failed to build TypeScript definitions" ;;
       throw error).

Definition createPackageTarball : M string :=
  console_log "📦 Creating package tarball..." ;;
  try_catch
    (execSync "bun pm pack" ;;
     console_log "✅ Package tarball created successfully" ;;
     pkg <- file_json "package.json" ;;
     name <- get pkg "name" ;;
     name <- to_string name ;;
     version <- get pkg "version" ;;
     version <- to_string version ;;
     let tarballName := name +:+ "-" +:+ version +:+ ".tgz" in
     present <- exists_sync tarballName ;;
     when present
       (size <- file_size tarballName ;;
        console_log ("   📄 " +:+ tarballName +:+ " (" +:+ sizeKB size +:+ " KB)")) ;;
     ret tarballName)
    (fun error =>
       console_error "Failed to create package tarball" ;;
       throw error).

Definition buildBundle (mode : BuildMode) (newOptions : BuildOptions) : M Bun.BuildOutput :=
  let options := spread (OPTIONS mode) newOptions in
  console_log "📦 Building bundle..." ;;
  let pack := pack options in
  let types := types options in
  let buildConfig := buildConfig options in
  try_catch
    (cleanDist ;;
     when (on types) buildTypes ;;
     result <- bun_build buildConfig ;;
     when (negb (Bun.success result))
       (console_error "❌ Build failed with errors:" ;;
        for_of (Bun.logs result) (fun message => console_error (inspect message)) ;;
        throw (Js.Error "Build failed")) ;;
     when (on pack) (void createPackageTarball) ;;
     console_log "✅ Bundle built successfully" ;;
     for_of (Bun.outputs result) (fun output =>
       console_log ("  📄 " +:+ Bun.path output +:+ " (" +:+ sizeKB (Bun.size output)
                      +:+ " KB)")) ;;
     when (0 <? Z.of_nat (length (Bun.logs result)))
       (console_log "⚠️  Build warnings:" ;;
        for_of (Bun.logs result) (fun message => console_warn (inspect message))) ;;
     ret result)
    (fun error =>
       console_error "Failed to build bundle" ;;
       throw error).

(** [index.ts]: the module body. *)
Definition main (argv : list string) : M unit :=
  let '{| Build.command := command; Build.options := options |} :=
    Build.parseCommandLineArgs argv in
  if Js.strict_eq command "local" then
    void (buildBundle local (parsed options))
  else if Js.strict_eq command "dev" then
    void (buildBundle development (parsed options))
  else if Js.strict_eq command "prod" then
    void (buildBundle production (parsed options))
  else if Js.strict_eq command "help" then
    console_log helpMessage
  else
    console_log helpMessage ;;
    when (negb (Js.truthy_string command)) (void (buildBundle local (parsed options))).

End Run.
End BuildRun.

(** ** The build script before it was split: [build.ts] *)

Module BuildLegacyRun.
Local Open Scope script_scope.

(** [interface BuildOptions], every key optional. *)
Record BuildOptions : Type := {
  clean : Js.slot bool;
  minify : Js.slot bool;
  sourcemap : Js.slot bool;
  watch : Js.slot bool;
  pack : Js.slot bool;
  target : Js.slot string;
  format : Js.slot string
}.

Definition DEFAULT_OPTIONS : BuildOptions :=
  {| clean := Js.Val true;
     minify := Js.Val true;
     sourcemap := Js.Val false;
     watch := Js.Val false;
     pack := Js.Val false;
     target := Js.Val "bun";
     format := Js.Val "esm" |}.

(** [{ ...a, ...b }] *)
Definition spread (a b : BuildOptions) : BuildOptions :=
  {| clean := Js.spread (clean a) (clean b);
     minify := Js.spread (minify a) (minify b);
     sourcemap := Js.spread (sourcemap a) (sourcemap b);
     watch := Js.spread (watch a) (watch b);
     pack := Js.spread (pack a) (pack b);
     target := Js.spread (target a) (target b);
     format := Js.spread (format a) (format b) |}.

(** [{}] *)
Definition no_options : BuildOptions :=
  {| clean := Js.Missing; minify := Js.Missing; sourcemap := Js.Missing;
     watch := Js.Missing; pack := Js.Missing; target := Js.Missing;
     format := Js.Missing |}.

(** The [options] object of the module body, which has every key. *)
Definition given (o : BuildLegacy.BuildOptions) : BuildOptions :=
  {| clean := Js.Val (BuildLegacy.clean o);
     minify := Js.Val (BuildLegacy.minify o);
     sourcemap := Js.Val (BuildLegacy.sourcemap o);
     watch := Js.Val (BuildLegacy.watch o);
     pack := Js.Val (BuildLegacy.pack o);
     target := Js.of_option (BuildLegacy.target o);
     format := Js.of_option (BuildLegacy.format o) |}.

(** [const buildConfig = { ... }] of [buildBundle]. *)
Definition buildConfig (mergedOptions : BuildOptions) : Bun.BuildConfig :=
  {| Bun.entrypoints := ["./index.ts"];
     Bun.outdir := "./dist";
     Bun.target := target mergedOptions;
     Bun.format := format mergedOptions;
     Bun.minify := minify mergedOptions;
     Bun.splitting := false;
     Bun.sourcemap := if on (sourcemap mergedOptions) then Bun.linked else Bun.none;
     Bun.external := Some [];
     Bun.footer := "// built with love in GDL 🫀";
     Bun.define := [("process.env.NODE_ENV", JSON_stringify "production")];
     Bun.packages := "bundle";
     Bun.drop := if on (minify mergedOptions) then ["console"; "debugger"] else [] |}.

(** The arguments of the watch mode. *)
Definition watch_args : list string :=
  ["build"; "./index.ts"; "--outdir"; "./dist"; "--watch"; "--sourcemap";
   "--target"; "bun"; "--format"; "esm";
   "--footer=" +:+ JSON_stringify "// built with love in GDL 🫀 (dev mode)"].

(** The text the [default] case prints. *)
Definition helpMessage : string := "
🏗️  js-lib-go Build Script

Usage: bun run build.ts <command> [flags]

Commands:
  all           Build everything (bundle + types) [default]
  bundle        Build JavaScript bundle only
  types         Build TypeScript definitions only
  clean         Clean the dist directory
  dev           Development build (unminified, with sourcemaps)
  watch         Development build in watch mode
  prod          Production build (minified, no sourcemaps)

Flags:
  --pack        Create package tarball after build
  --minify      Enable minification
  --sourcemap   Generate source maps
  --no-clean    Skip cleaning dist directory
  --target=<t>  Build target (browser|bun|node) [default: bun]
  --format=<f>  Output format (esm|cjs|iife) [default: esm]

Examples:
  bun run build.ts                     # Build everything
  bun run build.ts bundle --minify     # Build minified bundle
  bun run build.ts dev                 # Development build
  bun run build.ts prod --pack         # Production build + tarball
  bun run build.ts watch               # Development watch mode
".

Section Run.
Context `{Bundler}.

Definition cleanDist : M unit :=
  dist <- exists_sync "dist" ;;
  when dist
    (rm_sync "dist" ;;
     console_log "🧹 Cleaned dist directory").

Definition buildTypes : M unit :=
  console_log "📝 Building TypeScript definitions..." ;;
  try_catch
    (execSync "npx tsc -p tsconfig.build.json" ;;
     console_log "✅ TypeScript definitions built successfully")
    (fun error =>
       console_error "❌ Failed to build TypeScript definitions" ;;
       throw error).

Definition buildBundle (options : BuildOptions) : M Bun.BuildOutput :=
  let mergedOptions := spread DEFAULT_OPTIONS options in
  console_log "📦 Building bundle..." ;;
  let buildConfig := buildConfig mergedOptions in
  try_catch
    (result <- bun_build buildConfig ;;
     when (negb (Bun.success result))
       (console_error "❌ Build failed with errors:" ;;
        for_of (Bun.logs result) (fun message => console_error (inspect message)) ;;
        throw (Js.Error "Build failed")) ;;
     console_log "✅ Bundle built successfully" ;;
     for_of (Bun.outputs result) (fun output =>
       console_log ("  📄 " +:+ Bun.path output +:+ " (" +:+ sizeKB (Bun.size output)
                      +:+ " KB)")) ;;
     when (0 <? Z.of_nat (length (Bun.logs result)))
       (console_log "⚠️  Build warnings:" ;;
        for_of (Bun.logs result) (fun message => console_warn (inspect message))) ;;
     ret result)
    (fun error =>
       console_error "❌ Failed to build bundle" ;;
       throw error).

Definition createPackageTarball : M string :=
  console_log "📦 Creating package tarball..." ;;
  try_catch
    (execSync "bun pm pack" ;;
     console_log "✅ Package tarball created successfully" ;;
     pkg <- file_json "package.json" ;;
     name <- get pkg "name" ;;
     name <- to_string name ;;
     version <- get pkg "version" ;;
     version <- to_string version ;;
     let tarballName := name +:+ "-" +:+ version +:+ ".tgz" in
     present <- exists_sync tarballName ;;
     when present
       (size <- file_size tarballName ;;
        console_log ("   📄 " +:+ tarballName +:+ " (" +:+ sizeKB size +:+ " KB)")) ;;
     ret tarballName)
    (fun error =>
       console_error "❌ Failed to create package tarball" ;;
       throw error).

Definition buildAll (options : BuildOptions) : M unit :=
  let mergedOptions := spread DEFAULT_OPTIONS options in
  console_log ("🏗️  Starting full build process..." +:+ Js.nl) ;;
  when (on (clean mergedOptions)) cleanDist ;;
  void (buildBundle mergedOptions) ;;
  buildTypes ;;
  console_log (Js.nl +:+ "🎉 Build completed successfully!") ;;
  when (on (pack mergedOptions)) (void createPackageTarball).

Definition developmentBuild (watch : bool) (options : BuildOptions) : M unit :=
  if watch then
    console_log ("👀 Starting development watch mode..." +:+ Js.nl) ;;
    let args := watch_args in
    try_catch
      (let command := "bun " +:+ Js.join " " args in
       console_log ("📋 Command: " +:+ command +:+ Js.nl) ;;
       console_log ("💡 Press Ctrl+C to stop watching" +:+ Js.nl) ;;
       execSync command)
      (fun error =>
         console_error "❌ Development watch mode failed" ;;
         throw error)
  else
    console_log ("🔧 Building for development..." +:+ Js.nl) ;;
    void (buildBundle
            {| clean := Js.Val true;
               minify := Js.Val false;
               sourcemap := Js.Val true;
               watch := Js.Missing;
               pack := Js.Missing;
               target := Js.Val "bun";
               format := Js.Val "esm" |}) ;;
    buildTypes ;;
    console_log (Js.nl +:+ "🎉 Development build completed!") ;;
    when (on (pack options)) (void createPackageTarball).

Definition productionBuild (options : BuildOptions) : M unit :=
  console_log ("🚀 Building for production..." +:+ Js.nl) ;;
  void (buildBundle
          {| clean := Js.Val true;
             minify := Js.Val true;
             sourcemap := Js.Val false;
             watch := Js.Missing;
             pack := Js.Missing;
             target := Js.Val "bun";
             format := Js.Val "esm" |}) ;;
  buildTypes ;;
  console_log (Js.nl +:+ "🎉 Production build completed!") ;;
  when (on (pack options)) (void createPackageTarball).

(** The module body: [switch (command) { ... }]. *)
Definition main (argv : list string) : M unit :=
  let command := Js.argv_command argv in
  let options := given (BuildLegacy.options argv) in
  if Js.strict_eq command "bundle" then
    void (buildBundle options)
  else if Js.strict_eq command "types" then
    buildTypes
  else if Js.strict_eq command "clean" then
    cleanDist
  else if Js.strict_eq command "watch" then
    developmentBuild true no_options
  else if Js.strict_eq command "dev" then
    developmentBuild false options
  else if Js.strict_eq command "prod" then
    productionBuild options
  else if Js.strict_eq command "all" then
    buildAll options
  else
    console_log helpMessage ;;
    when (negb (Js.truthy_string command)) (buildAll options).

End Run.
End BuildLegacyRun.

(** ** The command line of [publish.ts] *)

Module PublishMain.
Local Open Scope script_scope.

(** The text the [default] case prints. *)
Definition helpMessage : string := "
📦 Publish Script

Usage: bun run publish.ts <command> [flags]

Commands:
  patch         Build, validate, bump patch version and publish
  minor         Build, validate, bump minor version and publish
  major         Build, validate, bump major version and publish
  info          Show package information

Flags:
  --dry-run     Simulate publishing without actually doing it
  --tag=<name>  Publish with specific npm tag (default: latest)
  --public      Set access to public
  --restricted  Set access to restricted
  --registry=<url>  Use custom registry

Examples:
  bun run publish.ts patch            # Full patch release workflow
  bun run publish.ts minor            # Full minor release workflow
  bun run publish.ts major --dry-run  # Test major release
  bun run publish.ts info             # Show package info
".

Section Main.
Context `{Host}.

(** [showPackageInfo] reads what a child process printed, which the host
    does not give; the module body is modelled over it. *)
Variable showPackageInfo : M unit.

(** The module body: [switch (command) { ... }]. *)
Definition main (argv : list string) : M unit :=
  let command := Js.argv_command argv in
  let options := Publish.options argv in
  if Js.strict_eq command "patch" then
    Publish.publishWithVersionBump Publish.patch options
  else if Js.strict_eq command "minor" then
    Publish.publishWithVersionBump Publish.minor options
  else if Js.strict_eq command "major" then
    Publish.publishWithVersionBump Publish.major options
  else if Js.strict_eq command "info" then
    showPackageInfo
  else
    console_log helpMessage ;;
    when (negb (Js.truthy_string command)) showPackageInfo.

End Main.
End PublishMain.

(** ** A sample bundler over the sample disk *)

Module SampleBuild.

(** [rmSync] of a directory: the path and what is below it. *)
Definition removed (d : Sample.Disk) (path : string) : Sample.Disk :=
  {| Sample.paths :=
       List.filter (fun p => negb (String.eqb p path || Js.startsWith p (path +:+ "/")))
         (Sample.paths d);
     Sample.manifest := Sample.manifest d;
     Sample.failing := Sample.failing d |}.

(** A bundler that writes [dist/index.js], or one that reports an error
    of the entry point. *)
Definition bundle (working : bool) (d : Sample.Disk) (config : Bun.BuildConfig)
  : Sample.Disk * (Js.error + Bun.BuildOutput) :=
  if working then
    (Sample.built d,
     inr {| Bun.success := true;
            Bun.logs := [];
            Bun.outputs := [{| Bun.path := "./dist/index.js"; Bun.size := Number.ofZ 2048 |}] |})
  else
    (d,
     inr {| Bun.success := false;
            Bun.logs := [Js.VString "error: Could not resolve ./index.ts"];
            Bun.outputs := [] |}).

(** Every file of the sample disk holds 4096 bytes. *)
Definition size_of (d : Sample.Disk) (path : string) : Js.error + Number.number :=
  if Js.includes (Sample.paths d) path then inr (Number.ofZ 4096)
  else inl (Js.Error "ENOENT").

(** [toFixed(2)] on the sizes of the sample, which are whole kilobytes. *)
Definition fixed2 (n : Number.number) : string :=
  match SFcompare n (Number.ofZ 2), SFcompare n (Number.ofZ 4) with
  | Some Eq, _ => "2.00"
  | _, Some Eq => "4.00"
  | _, _ => "0.00"
  end.

Definition bundler (working : bool) : @Bundler Sample.host :=
  @Build_Bundler Sample.host
    (fun d path => (removed d path, None))
    (bundle working)
    size_of
    fixed2
    Sample.show.

End SampleBuild.

(** ** The commands the scripts run, and what a run did *)

(** The infinity of the given sign, or NaN. *)
Definition inf_or_nan (s : bool) (x : Number.number) : Prop :=
  x = S754_infinity s \/ x = S754_nan.

(** The six flags the test script knows. *)
Definition test_flags : list string :=
  ["--coverage"; "--cov"; "--verbose"; "--v"; "--watch"; "--w"].

(** The command the [file] operation runs. *)
Definition file_command (filename : string) (coverage verbose : bool) : string :=
  "bun test " +:+ filename +:+ " --watch" +:+
  (if coverage then " --coverage" else "") +:+ (if verbose then " --verbose" else "").

(** A token other than [--watch] and [--w]. *)
Definition not_watch (flag : string) : bool :=
  negb (String.eqb flag "--watch" || String.eqb flag "--w").

(** [{}] as publish options. *)
Definition no_publish_options : Publish.PublishOptions :=
  {| Publish.dryRun := Js.Missing; Publish.tag := Js.Missing;
     Publish.access := Js.Missing; Publish.registry := Js.Missing |}.

(** The command line [publishToNpm] builds from the flags of the script. *)
Definition publish_command (flags : list string) : string :=
  "bun publish" +:+
  (if Js.includes flags "--dry-run" || Js.includes flags "--dry" then " --dry-run" else "") +:+
  (match valued_flag "--tag=" flags with
   | Some t => if Js.truthy_string (Some t) && negb (String.eqb t "latest")
               then " --tag " +:+ t else ""
   | None => ""
   end) +:+
  (if Js.includes flags "--public" then " --access public"
   else if Js.includes flags "--restricted" then " --access restricted"
   else "") +:+
  (match valued_flag "--registry=" flags with
   | Some r => if Js.truthy_string (Some r) then " --registry " +:+ r else ""
   | None => ""
   end).

(** [mergedOptions.dryRun] is truthy. *)
Definition is_dry_run (o : Publish.PublishOptions) : bool :=
  match Publish.dryRun (Publish.spread Publish.DEFAULT_OPTIONS o) with
  | Js.Val b => b
  | _ => false
  end.

(** The command [updateVersion] runs. *)
Definition version_command (type : Publish.VersionType) : string :=
  "npm version " +:+ Publish.VersionType_string type +:+ " --no-git-tag-version".

(** What a run did besides printing: the commands it spawned, the world
    it left and how it ended. *)
Definition effects {H : Host} {A} (r : list event * World * completion A)
  : list string * World * completion A :=
  (spawned (trace_of r), world_of r, completion_of r).

(** A computation that only prints. *)
Definition prints_only {H : Host} (m : M unit) : Prop :=
  forall w, effects (m w) = ([], w, Normal tt).

(** The commands of the build scripts. *)
Definition tsc_command : string := "npx tsc -p tsconfig.build.json".
Definition pack_command : string := "bun pm pack".

(** The mode [scripts/build/index.ts] builds in, if it builds. *)
Definition build_mode (command : option string) : option BuildRun.BuildMode :=
  if Js.strict_eq command "local" then Some BuildRun.local
  else if Js.strict_eq command "dev" then Some BuildRun.development
  else if Js.strict_eq command "prod" then Some BuildRun.production
  else if Js.strict_eq command "help" then None
  else if Js.truthy_string command then None
  else Some BuildRun.local.

(** The command of the watch mode of [build.ts]. *)
Definition watch_command : string := "bun " +:+ Js.join " " BuildLegacyRun.watch_args.

(** The processes a command of [build.ts] launches when nothing fails. *)
Definition legacy_commands (command : option string) (flags : list string) : list string :=
  let full := [tsc_command] ++ (if Js.includes flags "--pack" then [pack_command] else []) in
  if Js.strict_eq command "bundle" then []
  else if Js.strict_eq command "types" then [tsc_command]
  else if Js.strict_eq command "clean" then []
  else if Js.strict_eq command "watch" then [watch_command]
  else if Js.strict_eq command "dev" then full
  else if Js.strict_eq command "prod" then full
  else if Js.strict_eq command "all" then full
  else if Js.truthy_string command then []
  else full.

(** The commands of [build.ts] that bundle, build the types and pack. *)
Definition legacy_full_build (command : option string) : bool :=
  Js.strict_eq command "dev" || Js.strict_eq command "prod" || Js.strict_eq command "all"
  || negb (Js.truthy_string command).

(** The version bump a command of [publish.ts] releases with. *)
Definition release_type (command : option string) : option Publish.VersionType :=
  if Js.strict_eq command "patch" then Some Publish.patch
  else if Js.strict_eq command "minor" then Some Publish.minor
  else if Js.strict_eq command "major" then Some Publish.major
  else None.

(** * Properties *)

Import Number.

(** [SpecFloat] is stated with the operations of [IntDef]; [max] and [min]
    are brought back to those of [Z] before arithmetic is used. *)
Ltac unfold_fexp :=
  unfold fexp, emin, prec, emax in *;
  change IntDef.Z.max with Z.max in *;
  change IntDef.Z.min with Z.min in *.

(** The operations of the script monad, unfolded. *)
Ltac unfold_script :=
  unfold to_string, bind, try_catch, when, ret, throw, get, exists_sync, file_json,
    console_log, console_error, execSync, process_exit in *.


(** ** Doubles that hold integers *)

Section Exactness.


Lemma P2_spec m j : 0 <= j -> Zpos (P2 m j) = Zpos m * 2 ^ j.
Proof.
  destruct j as [|d|d]; simpl P2; intros Hj; [lia| |lia].
  induction d as [|d IH] using Pos.peano_ind.
  - cbn. lia.
  - rewrite Pos.iter_succ, Pos2Z.inj_xO, IH, Pos2Z.inj_succ, Z.pow_succ_r; lia.
Qed.

Lemma P2_inj m p j : 0 <= j -> Zpos p = Zpos m * 2 ^ j -> p = P2 m j.
Proof. intros Hj Hp. rewrite <- (P2_spec m j Hj) in Hp. congruence. Qed.

Lemma P2_P2 m a b : 0 <= a -> 0 <= b -> P2 (P2 m a) b = P2 m (a + b).
Proof.
  intros Ha Hb. apply P2_inj; [lia|].
  rewrite !P2_spec, Z.pow_add_r by lia. ring.
Qed.

Lemma digits2_P2 m j :
  0 <= j -> Zpos (digits2_pos (P2 m j)) = Zpos (digits2_pos m) + j.
Proof.
  destruct j as [|d|d]; simpl P2; intros Hj; [lia| |lia].
  induction d as [|d IH] using Pos.peano_ind.
  - simpl. lia.
  - rewrite Pos.iter_succ. simpl digits2_pos. lia.
Qed.

Lemma digits2_pos_size p : digits2_pos p = Pos.size p.
Proof. induction p; simpl; congruence. Qed.

Lemma digits2_safe p :
  Zpos p <= MAX_SAFE_INTEGER -> Zpos (digits2_pos p) <= prec.
Proof.
  intros Hp. rewrite digits2_pos_size.
  destruct (Z_le_gt_dec (Zpos (Pos.size p)) prec) as [|Hgt]; [assumption|exfalso].
  pose proof (Pos.size_le p) as Hle.
  apply Pos2Z.pos_le_pos in Hle. rewrite Pos2Z.inj_pow, Pos2Z.inj_xO in Hle.
  assert (2 ^ 54 <= 2 ^ Zpos (Pos.size p)).
  { clear Hle Hp. unfold prec in Hgt. apply Z.pow_le_mono_r; lia. }
  change (2 * 1) with 2 in Hle.
  unfold MAX_SAFE_INTEGER in Hp. change (2 ^ 54) with 18014398509481984 in *. lia.
Qed.

Lemma shl_align_P2 m e e' :
  shl_align m e e' = (P2 m (e - e'), Z.min e e').
Proof.
  unfold shl_align.
  destruct (e' - e) as [|d|d] eqn:E.
  - replace (e - e') with 0 by lia. simpl. f_equal. lia.
  - assert (e - e' = Zneg d) as -> by lia. simpl. f_equal. lia.
  - assert (e - e' = Zpos d) as -> by lia. simpl. f_equal. lia.
Qed.

Lemma iter_pos_iter {A} (f : A -> A) p x : SpecFloat.iter_pos f p x = Pos.iter f x p.
Proof.
  revert x. induction p as [p IH|p IH|]; intros x; simpl.
  - rewrite !IH, <- !Pos.iter_swap. reflexivity.
  - rewrite !IH. reflexivity.
  - reflexivity.
Qed.


Lemma shr_exact m j n e :
  0 <= n <= j ->
  shr (exact (Zpos (P2 m j))) e n = (exact (Zpos (P2 m (j - n))), e + n).
Proof.
  intros Hn. destruct n as [|d|d]; [| |lia].
  - simpl. rewrite Z.sub_0_r, Z.add_0_r. reflexivity.
  - unfold shr. f_equal. rewrite iter_pos_iter.
    revert j Hn. induction d as [|d IH] using Pos.peano_ind; intros j Hn.
    + simpl Pos.iter. destruct j as [|k|k]; try lia.
      replace (Zpos k) with ((Zpos k - 1) + 1) at 1 by lia.
      rewrite <- P2_P2 by lia. reflexivity.
    + rewrite Pos.iter_succ, IH by lia.
      replace (j - Zpos d) with ((j - Zpos (Pos.succ d)) + 1) by lia.
      rewrite <- P2_P2 by lia. reflexivity.
Qed.


Lemma binary_round_scaled s m k e :
  Zpos (digits2_pos m) <= prec -> emin prec emax <= e -> 0 <= k ->
  binary_round prec emax s (P2 m k) (e - k) = canon s m e.
Proof.
  intros Hd He Hk. unfold binary_round, canon.
  rewrite digits2_P2 by assumption.
  replace (Zpos (digits2_pos m) + k + (e - k)) with (Zpos (digits2_pos m) + e) by lia.
  set (fe := fexp prec emax (Zpos (digits2_pos m) + e)).
  assert (Hfe : fe <= e). { unfold fe; unfold_fexp; lia. }
  rewrite shl_align_P2.
  unfold binary_round_aux, shr_fexp. cbn [shr_record_of_loc Zdigits2].
  fold (exact (Zpos (P2 (P2 m k) (e - k - fe)))).
  assert (Hfirst :
    shr (exact (Zpos (P2 (P2 m k) (e - k - fe)))) (Z.min (e - k) fe)
      (fexp prec emax (Zpos (digits2_pos (P2 (P2 m k) (e - k - fe))) + Z.min (e - k) fe)
         - Z.min (e - k) fe)
    = (exact (Zpos (P2 m (e - fe))), fe)).
  { destruct (Z_lt_le_dec fe (e - k)) as [Hlt|Hge].
    - rewrite P2_P2, !digits2_P2 by lia. rewrite Z.min_r by lia.
      replace (Zpos (digits2_pos m) + (k + (e - k - fe)) + fe)
        with (Zpos (digits2_pos m) + e) by lia.
      fold fe. rewrite Z.sub_diag. cbn [shr].
      replace (k + (e - k - fe)) with (e - fe) by lia. reflexivity.
    - assert (P2 (P2 m k) (e - k - fe) = P2 m k) as ->
        by (destruct (e - k - fe) eqn:E; try reflexivity; lia).
      rewrite digits2_P2 by lia. rewrite Z.min_l by lia.
      replace (Zpos (digits2_pos m) + k + (e - k))
        with (Zpos (digits2_pos m) + e) by lia.
      fold fe. rewrite shr_exact by lia.
      replace (k - (fe - (e - k))) with (e - fe) by lia.
      replace (e - k + (fe - (e - k))) with fe by lia. reflexivity. }
  rewrite Hfirst. cbn [shr_m exact loc_of_shr_record round_nearest_even Zdigits2].
  rewrite digits2_P2 by lia.
  replace (Zpos (digits2_pos m) + (e - fe) + fe) with (Zpos (digits2_pos m) + e) by lia.
  fold fe. rewrite Z.sub_diag. cbn [shr shr_m exact]. reflexivity.
Qed.

Lemma ofZ_signed s p :
  Zpos p <= MAX_SAFE_INTEGER ->
  ofZ (cond_Zopp s (Zpos p)) =
    S754_finite s (P2 p (prec - Zpos (digits2_pos p))) (Zpos (digits2_pos p) - prec).
Proof.
  intros Hp. pose proof (digits2_safe p Hp) as Hd.
  assert (ofZ (cond_Zopp s (Zpos p)) = binary_round prec emax s (P2 p 0) (0 - 0)) as ->
    by (destruct s; reflexivity).
  rewrite binary_round_scaled by (unfold_fexp; lia).
  unfold canon. rewrite Z.add_0_r.
  assert (fexp prec emax (Zpos (digits2_pos p)) = Zpos (digits2_pos p) - prec) as ->
    by (unfold_fexp; lia).
  replace (0 - (Zpos (digits2_pos p) - prec)) with (prec - Zpos (digits2_pos p)) by lia.
  destruct (Z.leb_spec (Zpos (digits2_pos p) - prec) (emax - prec)) as [_|H];
    [reflexivity | unfold prec, emax in *; lia].
Qed.

Lemma Z_signed (z : Z) : z = 0 \/ exists s p, z = cond_Zopp s (Zpos p).
Proof.
  destruct z as [|p|p]; [left; reflexivity | right; exists false, p | right; exists true, p];
    reflexivity.
Qed.

Lemma safe_signed s p : safe (cond_Zopp s (Zpos p)) -> Zpos p <= MAX_SAFE_INTEGER.
Proof. unfold safe. destruct s; simpl; lia. Qed.

(** Addition of two safe integers whose sum is safe does not round. *)
Lemma add_ofZ a b :
  safe a -> safe b -> safe (a + b) -> add (ofZ a) (ofZ b) = ofZ (a + b).
Proof.
  intros Ha Hb Hab.
  destruct (Z_signed a) as [->|(sa & pa & ->)].
  { rewrite Z.add_0_l. destruct (Z_signed b) as [->|(sb & pb & ->)]; [reflexivity|].
    rewrite (ofZ_signed sb pb) by (eapply safe_signed; eassumption). reflexivity. }
  destruct (Z_signed b) as [->|(sb & pb & ->)].
  { rewrite Z.add_0_r.
    rewrite (ofZ_signed sa pa) by (eapply safe_signed; eassumption). reflexivity. }
  pose proof (safe_signed _ _ Ha) as Hpa. pose proof (safe_signed _ _ Hb) as Hpb.
  pose proof (digits2_safe _ Hpa) as Hda. pose proof (digits2_safe _ Hpb) as Hdb.
  rewrite (ofZ_signed sa pa), (ofZ_signed sb pb) by assumption.
  unfold add, SFadd. rewrite !shl_align_P2. cbn [fst].
  set (ea := Zpos (digits2_pos pa) - prec) in *.
  set (eb := Zpos (digits2_pos pb) - prec) in *.
  set (k := - IntDef.Z.min ea eb). change IntDef.Z.min with Z.min in *.
  assert (Hk : 0 <= k) by (unfold k, ea, eb; lia).
  rewrite !P2_P2 by (unfold k, ea, eb; lia).
  replace (prec - Zpos (digits2_pos pa) + (ea - Z.min ea eb)) with k by (unfold k, ea; lia).
  replace (prec - Zpos (digits2_pos pb) + (eb - Z.min ea eb)) with k by (unfold k, eb; lia).
  replace (Z.min ea eb) with (0 - k) by (unfold k; lia).
  assert (Hsum : cond_Zopp sa (Zpos (P2 pa k)) + cond_Zopp sb (Zpos (P2 pb k))
                 = (cond_Zopp sa (Zpos pa) + cond_Zopp sb (Zpos pb)) * 2 ^ k).
  { rewrite !P2_spec by assumption. destruct sa, sb; simpl cond_Zopp; ring. }
  change IntDef.Z.add with Z.add. rewrite Hsum.
  destruct (Z_signed (cond_Zopp sa (Zpos pa) + cond_Zopp sb (Zpos pb)))
    as [->|(sc & pc & Hc)]; [reflexivity|].
  rewrite Hc in Hab |- *. pose proof (safe_signed _ _ Hab) as Hpc.
  assert (cond_Zopp sc (Zpos pc) * 2 ^ k = cond_Zopp sc (Zpos (P2 pc k))) as ->
    by (rewrite P2_spec by assumption; destruct sc; simpl cond_Zopp; ring).
  assert (binary_normalize prec emax (cond_Zopp sc (Zpos (P2 pc k))) (0 - k) false
          = binary_round prec emax sc (P2 pc k) (0 - k)) as ->
    by (destruct sc; reflexivity).
  rewrite binary_round_scaled by (try apply digits2_safe; unfold_fexp; lia).
  assert (ofZ (cond_Zopp sc (Zpos pc)) = binary_round prec emax sc (P2 pc 0) (0 - 0)) as ->
    by (destruct sc; reflexivity).
  rewrite binary_round_scaled by (try apply digits2_safe; unfold_fexp; lia).
  reflexivity.
Qed.

(** The value of the double of a safe integer is that integer. *)
Lemma toQ_ofZ z : safe z -> exists q, toQ (ofZ z) = Some q /\ (q == inject_Z z)%Q.
Proof.
  intros Hz. destruct (Z_signed z) as [->|(s & p & ->)].
  { exists 0%Q. split; reflexivity. }
  pose proof (safe_signed _ _ Hz) as Hp. pose proof (digits2_safe _ Hp) as Hd.
  rewrite ofZ_signed by assumption. unfold toQ.
  destruct (Zpos (digits2_pos p) - prec) as [|e|e] eqn:He; try (unfold prec in *; lia).
  - eexists; split; [reflexivity|].
    replace (prec - Zpos (digits2_pos p)) with 0 by lia. simpl P2.
    rewrite Z.pow_0_r, Z.mul_1_r. reflexivity.
  - eexists; split; [reflexivity|].
    replace (prec - Zpos (digits2_pos p)) with (Zpos e) by lia.
    unfold Qeq, inject_Z. cbn [Qnum Qden].
    rewrite Pos2Z.inj_pow, Z.mul_1_r.
    rewrite (P2_spec p (Zpos e)) by lia.
    destruct s; unfold cond_Zopp; ring.
Qed.

(** Summation of safe integers whose running totals are all safe is exact. *)
Lemma reduce_add_ofZ zs : forall acc,
  safe acc -> Forall safe zs -> Forall safe (prefix_sums acc zs) ->
  reduce (fun acc val => add acc val) (ofZ acc) (map ofZ zs) = ofZ (acc + Zsum zs).
Proof.
  induction zs as [|z zs IH]; intros acc Hacc Hzs Hpre; simpl.
  - rewrite Z.add_0_r. reflexivity.
  - inversion Hzs; subst. inversion Hpre; subst.
    rewrite add_ofZ by assumption. rewrite IH by assumption.
    f_equal. lia.
Qed.


Lemma Zabs_sum_nonneg zs : 0 <= Zabs_sum zs.
Proof. induction zs; unfold Zabs_sum in *; simpl; lia. Qed.

Lemma prefix_sums_bound zs : forall acc,
  Forall (fun t => Z.abs t <= Z.abs acc + Zabs_sum zs) (prefix_sums acc zs).
Proof.
  induction zs as [|z zs IH]; intros acc; simpl; constructor.
  - pose proof (Zabs_sum_nonneg zs). unfold Zabs_sum in *. simpl. lia.
  - eapply List.Forall_impl; [|apply IH]. intros t Ht. unfold Zabs_sum in *. simpl in *. lia.
Qed.

Lemma elements_bound zs : Forall (fun t => Z.abs t <= Zabs_sum zs) zs.
Proof.
  induction zs as [|z zs IH]; constructor.
  - pose proof (Zabs_sum_nonneg zs). unfold Zabs_sum in *. simpl. lia.
  - eapply List.Forall_impl; [|apply IH]. intros t Ht. unfold Zabs_sum in *. simpl in *. lia.
Qed.

Lemma Zsum_Permutation zs zs' : Permutation zs zs' -> Zsum zs = Zsum zs'.
Proof. induction 1; simpl; lia. Qed.

Lemma sum_ofZ_abs zs :
  Zabs_sum zs <= MAX_SAFE_INTEGER -> sum (map ofZ zs) = ofZ (Zsum zs).
Proof.
  intros H. unfold sum. change zero with (ofZ 0).
  rewrite reduce_add_ofZ.
  - reflexivity.
  - unfold safe, MAX_SAFE_INTEGER. simpl. lia.
  - eapply List.Forall_impl; [|apply elements_bound]. unfold safe. intros; lia.
  - eapply List.Forall_impl; [|apply prefix_sums_bound]. unfold safe. simpl. intros; lia.
Qed.
End Exactness.

(** ** [sum]: the fold and its algebra *)

Lemma reduce_fold_left {A B} (f : B -> A -> B) (xs : list A) (init : B) :
  reduce f init xs = fold_left f xs init.
Proof. revert init. induction xs as [|x xs IH]; intros init; simpl; [reflexivity | apply IH]. Qed.

Lemma reduce_app {A B} (f : B -> A -> B) (xs ys : list A) (init : B) :
  reduce f init (xs ++ ys) = reduce f (reduce f init xs) ys.
Proof. revert init. induction xs as [|x xs IH]; intros init; simpl; [reflexivity | apply IH]. Qed.

Lemma prefix_sums_last zs : forall acc,
  safe acc -> Forall safe (prefix_sums acc zs) -> safe (acc + Zsum zs).
Proof.
  induction zs as [|z zs IH]; intros acc Hacc Hpre; simpl.
  - rewrite Z.add_0_r. assumption.
  - inversion Hpre; subst. rewrite Z.add_assoc. apply IH; assumption.
Qed.

Lemma toQ_map_ofZ zs :
  Forall safe zs ->
  exists qs, map toQ (map ofZ zs) = map Some qs /\ (Qsum qs == inject_Z (Zsum zs))%Q.
Proof.
  induction 1 as [|z zs Hz _ (qs & Hqs & Hsum)].
  - exists []. split; reflexivity.
  - destruct (toQ_ofZ z Hz) as (q & Hq & Hqz).
    exists (q :: qs). split.
    + simpl. rewrite Hq, Hqs. reflexivity.
    + simpl. rewrite Hqz, Hsum, <- inject_Z_plus. reflexivity.
Qed.

Lemma safe_0 : safe 0.
Proof. unfold safe, MAX_SAFE_INTEGER. simpl. lia. Qed.

Lemma sum_ofZ zs :
  Forall safe zs -> Forall safe (prefix_sums 0 zs) -> sum (map ofZ zs) = ofZ (Zsum zs).
Proof.
  intros Hzs Hpre. unfold sum. change zero with (ofZ 0).
  rewrite reduce_add_ofZ by (assumption || apply safe_0). reflexivity.
Qed.

(** C1, as the code has it: [sum(...xs)] is the left-to-right fold of
    double-precision addition over [xs] from the accumulator [0]; [sum()] is
    [0], [sum(2,3)] is [5], [sum(1,2,3,4,5)] is [15], [sum(-1,-2,-3)] is [-6]
    and [sum(1.5,2.5)] is [4]; and when the arguments are safe integers whose
    running totals are all safe integers, the result is their mathematical
    sum. *)
Theorem sum_left_fold_exact_on_safe_integers :
  (forall xs, sum xs = fold_left Number.add xs Number.zero) /\
  sum [] = ofZ 0 /\
  sum [ofZ 2; ofZ 3] = ofZ 5 /\
  sum [ofZ 1; ofZ 2; ofZ 3; ofZ 4; ofZ 5] = ofZ 15 /\
  sum [ofZ (-1); ofZ (-2); ofZ (-3)] = ofZ (-6) /\
  sum [dyadic 3 (-1); dyadic 5 (-1)] = ofZ 4 /\
  (forall zs, Forall safe zs -> Forall safe (prefix_sums 0 zs) ->
     sum (map ofZ zs) = ofZ (Zsum zs) /\ sum_is_mathematical (map ofZ zs)).
Proof.
  split; [intros xs; apply reduce_fold_left|].
  do 5 (split; [vm_compute; reflexivity|]).
  intros zs Hzs Hpre. split; [apply sum_ofZ; assumption|].
  destruct (toQ_map_ofZ zs Hzs) as (qs & Hqs & Hsum).
  assert (Hs : safe (Zsum zs)) by (apply (prefix_sums_last zs 0); [apply safe_0 | assumption]).
  destruct (toQ_ofZ _ Hs) as (q & Hq & Hqz).
  exists qs, q. split; [assumption|]. split.
  - rewrite sum_ofZ by assumption. assumption.
  - rewrite Hqz, Hsum. reflexivity.
Qed.

(** The theorem at [sum(1, 2, 3)]. *)
Lemma sum_left_fold_exact_on_safe_integers_witness :
  sum (map ofZ [1; 2; 3]) = ofZ (Zsum [1; 2; 3]) /\ sum_is_mathematical (map ofZ [1; 2; 3]).
Proof.
  apply sum_left_fold_exact_on_safe_integers.
  - repeat constructor; unfold safe, MAX_SAFE_INTEGER; simpl; lia.
  - repeat constructor; unfold safe, MAX_SAFE_INTEGER; simpl; lia.
Defined.

(** C1, as it is stated, fails: [sum(9007199254740992, 1)] is
    [9007199254740992], which is not the mathematical sum of its arguments. *)
Lemma sum_is_mathematical_counterexample :
  ~ sum_is_mathematical [ofZ 9007199254740992; ofZ 1].
Proof.
  intros (qs & q & Hm & Hs & Hq).
  destruct qs as [|q1 [|q2 [|q3 qs]]]; try discriminate Hm.
  vm_compute in Hm, Hs.
  injection Hm as <- <-. injection Hs as <-.
  vm_compute in Hq. discriminate Hq.
Qed.

(** C2: [sum] of [xs] with [y] appended is [sum(xs) + y]. *)
Theorem sum_append (xs : list number) (y : number) :
  sum (xs ++ [y]) = Number.add (sum xs) y.
Proof. unfold sum. rewrite reduce_app. reflexivity. Qed.

(** C3, as the code has it: reordering arguments that are safe integers
    leaves the result unchanged when the running totals of both orders are
    safe integers. *)
Theorem sum_permutation_safe (zs zs' : list Z) :
  Permutation zs zs' ->
  Forall safe zs ->
  Forall safe (prefix_sums 0 zs) ->
  Forall safe (prefix_sums 0 zs') ->
  Permutation (map ofZ zs) (map ofZ zs') /\ sum (map ofZ zs') = sum (map ofZ zs).
Proof.
  intros Hp Hzs Hpre Hpre'. split; [apply Permutation_map; assumption|].
  assert (Hzs' : Forall safe zs') by (rewrite <- Hp; assumption).
  rewrite !sum_ofZ by assumption.
  rewrite (Zsum_Permutation _ _ Hp). reflexivity.
Qed.

(** The theorem at [sum(3, -1, 2)] and [sum(2, 3, -1)]. *)
Lemma sum_permutation_safe_witness :
  Permutation (map ofZ [3; -1; 2]) (map ofZ [2; 3; -1]) /\
  sum (map ofZ [2; 3; -1]) = sum (map ofZ [3; -1; 2]).
Proof.
  apply sum_permutation_safe.
  - apply (Permutation_cons_append [3; -1] 2) || (symmetry; apply (Permutation_cons_append [3; -1] 2)).
  - repeat constructor; unfold safe, MAX_SAFE_INTEGER; simpl; lia.
  - repeat constructor; unfold safe, MAX_SAFE_INTEGER; simpl; lia.
  - repeat constructor; unfold safe, MAX_SAFE_INTEGER; simpl; lia.
Defined.

(** It is enough that the absolute values of the arguments sum to a safe
    integer. *)
Corollary sum_permutation_small (zs zs' : list Z) :
  Permutation zs zs' -> Zabs_sum zs <= MAX_SAFE_INTEGER ->
  sum (map ofZ zs') = sum (map ofZ zs).
Proof.
  intros Hp Hs.
  assert (Hs' : Zabs_sum zs' <= MAX_SAFE_INTEGER)
    by (unfold Zabs_sum in *; rewrite <- (Zsum_Permutation _ _ (Permutation_map Z.abs Hp)); assumption).
  rewrite !sum_ofZ_abs by assumption. rewrite (Zsum_Permutation _ _ Hp). reflexivity.
Qed.

(** C3, as it is stated, fails: [sum(1, 1, 9007199254740992)] and
    [sum(9007199254740992, 1, 1)] differ. *)
Lemma sum_permutation_counterexample :
  let xs := [ofZ 9007199254740992; ofZ 1; ofZ 1] in
  let p := [ofZ 1; ofZ 1; ofZ 9007199254740992] in
  Permutation p xs /\
  sum xs = ofZ 9007199254740992 /\ sum p = ofZ 9007199254740994 /\ sum p <> sum xs.
Proof.
  split; [|split; [|split]].
  - symmetry. apply (Permutation_cons_append [ofZ 1; ofZ 1]).
  - vm_compute. reflexivity.
  - vm_compute. reflexivity.
  - vm_compute. discriminate.
Qed.

(** ** Laws of the script monad *)

Section ScriptLaws.
Context `{Host}.

Lemma bind_ret_l {A B} (a : A) (k : A -> M B) (w : World) : bind (ret a) k w = k a w.
Proof. unfold bind, ret. destruct (k a w) as [[t w'] c]. reflexivity. Qed.

Lemma bind_console_log {B} (line : string) (k : unit -> M B) (w : World) :
  bind (console_log line) k w = (let '(t, w', c) := k tt w in (Stdout line :: t, w', c)).
Proof. unfold bind, console_log. destruct (k tt w) as [[t w'] c]. reflexivity. Qed.

Lemma bind_run {A B} (m : M A) (k : A -> M B) (w : World) :
  bind m k w =
    match m w with
    | (t, w', Normal a) => let '(t', w'', c) := k a w' in (t ++ t', w'', c)
    | (t, w', Throw e) => (t, w', Throw e)
    | (t, w', Exit code) => (t, w', Exit code)
    end.
Proof. reflexivity. Qed.

Lemma spawned_app (t1 t2 : list event) : spawned (t1 ++ t2) = spawned t1 ++ spawned t2.
Proof. unfold spawned. apply omap_app. Qed.

Lemma spawned_stdout (line : string) (t : list event) : spawned (Stdout line :: t) = spawned t.
Proof. reflexivity. Qed.
End ScriptLaws.

(** ** The test script *)

Section TestScripts.
Context `{Host}.

Lemma find_positional_none flags :
  forallb (fun flag => Js.startsWith flag "--") flags = true ->
  Js.find (fun flag => negb (Js.startsWith flag "--")) flags = None.
Proof.
  unfold Js.find. induction flags as [|f flags IH]; simpl; [reflexivity|].
  intros [Hf Hrest]%andb_prop. rewrite Hf. simpl. apply IH, Hrest.
Qed.

Lemma find_filter (p : string -> bool) flags : List.find p flags = head (List.filter p flags).
Proof.
  induction flags as [|f flags IH]; simpl; [reflexivity|].
  destruct (p f); simpl; [reflexivity | apply IH].
Qed.

(** C5: with the command [file] and no token after it that is not a
    flag, the script prints the usage error, runs no command and exits with
    status 1. *)
Theorem file_without_name_is_usage_error (argv : list string) (w : World) :
  Js.argv_command argv = Some "file" ->
  forallb (fun flag => Js.startsWith flag "--") (Js.argv_flags argv) = true ->
  TestScript.main argv w =
    ([Stderr "❌ Please specify a test file to run";
      Stdout "Usage: bun run test:file <filename>"], w, Exit 1) /\
  TestLegacy.main argv w =
    ([Stderr "❌ Please specify a test file to run";
      Stdout "Usage: bun test:file <filename>"], w, Exit 1).
Proof.
  intros Hc Hf. split.
  - unfold TestScript.main, TestScript.parseCommandLineArgs.
    rewrite Hc, (find_positional_none _ Hf). reflexivity.
  - unfold TestLegacy.main, TestLegacy.command, TestLegacy.fileArg, TestLegacy.flags.
    rewrite Hc, (find_positional_none _ Hf). reflexivity.
Qed.

Lemma runAllTests_run (o : TestScript.TestOptions) (w : World) :
  exists cmd a b c d,
    TestScript.runAllTests o w =
      ([Stdout a; Stdout b; Spawn cmd] ++
         (if (spawn w cmd).2 =? 0 then [Stdout c] else [Stderr d]),
       (spawn w cmd).1,
       if (spawn w cmd).2 =? 0 then Normal tt
       else Throw (Js.TestExecutionError "Test execution failed" (Some cmd))).
Proof.
  unfold TestScript.runAllTests, bind, try_catch, console_log, console_error,
    execSync, throw.
  match goal with |- context [spawn w ?c] => exists c end. do 4 eexists.
  destruct (spawn w _) as [w' st]. simpl. destruct (st =? 0); reflexivity.
Qed.

Lemma runSingleFileTests_run (f : string) (o : TestScript.TestOptions) (w : World) :
  exists cmd a b c d,
    TestScript.runSingleFileTests f o w =
      ([Stdout a; Stdout b; Stdout c; Spawn cmd] ++
         (if (spawn w cmd).2 =? 0 then [] else [Stderr d]),
       (spawn w cmd).1,
       if (spawn w cmd).2 =? 0 then Normal tt
       else Throw (Js.TestExecutionError ("Test execution failed for " +:+ f) (Some cmd))).
Proof.
  unfold TestScript.runSingleFileTests, bind, try_catch, console_log,
    console_error, execSync, throw.
  match goal with |- context [spawn w ?c] => exists c end. do 4 eexists.
  destruct (spawn w _) as [w' st]. simpl. destruct (st =? 0); reflexivity.
Qed.

Lemma strict_eq_neq (c s : string) : c <> s -> Js.strict_eq (Some c) s = false.
Proof. intros Hne. simpl. apply String.eqb_neq. assumption. Qed.

Lemma not_truthy_string (c : option string) :
  Js.truthy_string c = false -> c = None \/ c = Some EmptyString.
Proof. destruct c as [[|a s]|]; simpl; intros Hc; auto; discriminate. Qed.

Lemma main_cases (argv : list string) (w : World) :
  let o := TestScript.options (TestScript.parseCommandLineArgs argv) in
  TestScript.main argv w = TestScript.runAllTests o w \/
  (exists t, TestScript.main argv w = (t, w, Exit 1) /\ spawned t = []) \/
  (exists f, TestScript.main argv w = TestScript.runSingleFileTests f o w) \/
  TestScript.main argv w = ([Stdout TestScript.helpMessage], w, Normal tt) \/
  TestScript.main argv w =
    (let '(t, w', c) := TestScript.runAllTests o w in
     (Stdout TestScript.helpMessage :: t, w', c)).
Proof.
  unfold TestScript.main, TestScript.parseCommandLineArgs. cbn zeta.
  destruct (Js.strict_eq (Js.argv_command argv) "coverage"); [left; reflexivity|].
  destruct (Js.strict_eq (Js.argv_command argv) "file").
  { destruct (Js.find _ (Js.argv_flags argv)) as [[|a f]|].
    - right; left. eexists. split; reflexivity.
    - right; right; left. eexists (String a f).
      cbn [Js.truthy_string negb when from_option id].
      apply (bind_ret_l tt (fun _ => _)).
    - right; left. eexists. split; reflexivity. }
  destruct (Js.strict_eq (Js.argv_command argv) "help"); [right; right; right; left; reflexivity|].
  destruct (Js.truthy_string (Js.argv_command argv)).
  - right; right; right; left. reflexivity.
  - right; right; right; right. cbn [negb when].
    apply (bind_console_log _ (fun _ => _)).
Qed.

Lemma spawned_runAllTests (o : TestScript.TestOptions) (w : World) :
  exists cmd,
    spawned (trace_of (TestScript.runAllTests o w)) = [cmd] /\
    world_of (TestScript.runAllTests o w) = (spawn w cmd).1 /\
    completion_of (TestScript.runAllTests o w) =
      if (spawn w cmd).2 =? 0 then Normal tt
      else Throw (Js.TestExecutionError "Test execution failed" (Some cmd)).
Proof.
  destruct (runAllTests_run o w) as (cmd & a & b & c & d & ->).
  exists cmd. destruct ((spawn w cmd).2 =? 0); repeat split; reflexivity.
Qed.

Lemma spawned_runSingleFileTests (f : string) (o : TestScript.TestOptions) (w : World) :
  exists cmd,
    spawned (trace_of (TestScript.runSingleFileTests f o w)) = [cmd] /\
    world_of (TestScript.runSingleFileTests f o w) = (spawn w cmd).1 /\
    completion_of (TestScript.runSingleFileTests f o w) =
      if (spawn w cmd).2 =? 0 then Normal tt
      else Throw (Js.TestExecutionError ("Test execution failed for " +:+ f) (Some cmd)).
Proof.
  destruct (runSingleFileTests_run f o w) as (cmd & a & b & c & d & ->).
  exists cmd. destruct ((spawn w cmd).2 =? 0); repeat split; reflexivity.
Qed.

(** C8: an operation of the test script whose child process exits with
    a status other than 0 throws a [TestExecutionError] that carries the
    command it ran; the module body does not catch it, and the process ends
    with a status other than 0. *)
Theorem failed_child_raises_TestExecutionError :
  (forall o w, exists cmd,
      spawned (trace_of (TestScript.runAllTests o w)) = [cmd] /\
      ((spawn w cmd).2 <> 0 ->
       completion_of (TestScript.runAllTests o w) =
         Throw (Js.TestExecutionError "Test execution failed" (Some cmd)))) /\
  (forall f o w, exists cmd,
      spawned (trace_of (TestScript.runSingleFileTests f o w)) = [cmd] /\
      ((spawn w cmd).2 <> 0 ->
       completion_of (TestScript.runSingleFileTests f o w) =
         Throw (Js.TestExecutionError ("Test execution failed for " +:+ f) (Some cmd)))) /\
  (forall argv w cmd,
      In cmd (spawned (trace_of (TestScript.main argv w))) ->
      (spawn w cmd).2 <> 0 ->
      (exists msg, completion_of (TestScript.main argv w) =
                     Throw (Js.TestExecutionError msg (Some cmd))) /\
      exit_status (completion_of (TestScript.main argv w)) <> 0).
Proof.
  split; [|split].
  - intros o w. destruct (spawned_runAllTests o w) as (cmd & Hs & _ & Hc).
    exists cmd. split; [assumption|]. intros Hst%Z.eqb_neq. rewrite Hc, Hst. reflexivity.
  - intros f o w. destruct (spawned_runSingleFileTests f o w) as (cmd & Hs & _ & Hc).
    exists cmd. split; [assumption|]. intros Hst%Z.eqb_neq. rewrite Hc, Hst. reflexivity.
  - intros argv w cmd Hin Hst.
    destruct (main_cases argv w) as [E|[(t & E & Ht)|[(f & E)|[E|E]]]];
      rewrite E in Hin |- *.
    + destruct (spawned_runAllTests (TestScript.options (TestScript.parseCommandLineArgs argv)) w)
        as (cmd' & Hs & _ & Hc).
      rewrite Hs in Hin. destruct Hin as [<-|[]].
      apply Z.eqb_neq in Hst. rewrite Hc, Hst. split; [eexists; reflexivity | discriminate].
    + unfold trace_of in Hin. simpl in Hin. rewrite Ht in Hin. destruct Hin.
    + destruct (spawned_runSingleFileTests f
                  (TestScript.options (TestScript.parseCommandLineArgs argv)) w)
        as (cmd' & Hs & _ & Hc).
      rewrite Hs in Hin. destruct Hin as [<-|[]].
      apply Z.eqb_neq in Hst. rewrite Hc, Hst. split; [eexists; reflexivity | discriminate].
    + destruct Hin.
    + destruct (spawned_runAllTests (TestScript.options (TestScript.parseCommandLineArgs argv)) w)
        as (cmd' & Hs & _ & Hc).
      destruct (TestScript.runAllTests _ w) as [[t w'] c].
      unfold trace_of, completion_of in *. simpl in *.
      rewrite Hs in Hin. destruct Hin as [<-|[]].
      apply Z.eqb_neq in Hst. rewrite Hc, Hst. split; [eexists; reflexivity | discriminate].
Qed.

(** C4, as the code has it: when the command is absent or the empty
    string, the help message is printed and then all tests are run; when
    it is any other string that is not a recognized command, the help
    message is printed, nothing else is done, and the process ends with
    status 0. *)
Theorem unrecognized_command_prints_help (argv : list string) (w : World) :
  (Js.truthy_string (Js.argv_command argv) = false ->
     TestScript.main argv w =
       bind (console_log TestScript.helpMessage)
         (fun _ => TestScript.runAllTests
                     (TestScript.options (TestScript.parseCommandLineArgs argv))) w /\
     (exists cmd, spawned (trace_of (TestScript.main argv w)) = [cmd]) /\
     TestLegacy.main argv w =
       bind (console_log TestLegacy.helpMessage)
         (fun _ => TestLegacy.runTestsWithCoverage) w /\
     spawned (trace_of (TestLegacy.main argv w)) = ["bun test --coverage"]) /\
  (forall c, Js.argv_command argv = Some c ->
     c <> "" -> c <> "coverage" -> c <> "file" ->
     (c <> "help" ->
      TestScript.main argv w = ([Stdout TestScript.helpMessage], w, Normal tt) /\
      spawned (trace_of (TestScript.main argv w)) = [] /\
      exit_status (completion_of (TestScript.main argv w)) = 0) /\
     TestLegacy.main argv w = ([Stdout TestLegacy.helpMessage], w, Normal tt) /\
     spawned (trace_of (TestLegacy.main argv w)) = [] /\
     exit_status (completion_of (TestLegacy.main argv w)) = 0).
Proof.
  split.
  - intros Hc.
    assert (Hnew : TestScript.main argv w =
              bind (console_log TestScript.helpMessage)
                (fun _ => TestScript.runAllTests
                     (TestScript.options (TestScript.parseCommandLineArgs argv))) w).
    { unfold TestScript.main, TestScript.parseCommandLineArgs. cbn zeta.
      rewrite Hc. destruct (not_truthy_string _ Hc) as [->| ->]; reflexivity. }
    assert (Hold : TestLegacy.main argv w =
              bind (console_log TestLegacy.helpMessage)
                (fun _ => TestLegacy.runTestsWithCoverage) w).
    { unfold TestLegacy.main, TestLegacy.command. cbn zeta.
      rewrite Hc. destruct (not_truthy_string _ Hc) as [->| ->]; reflexivity. }
    split; [exact Hnew|]. split; [|split; [exact Hold|]].
    + rewrite Hnew, bind_console_log.
      destruct (spawned_runAllTests
                  (TestScript.options (TestScript.parseCommandLineArgs argv)) w)
        as (cmd & Hs & _).
      exists cmd. destruct (TestScript.runAllTests _ w) as [[t w'] c]. exact Hs.
    + rewrite Hold. unfold TestLegacy.runTestsWithCoverage, bind, try_catch, console_log,
        console_error, execSync, throw.
      destruct (spawn w _) as [w' st]. simpl. destruct (st =? 0); reflexivity.
  - intros c Hc Hne Hcov Hfile.
    assert (Ht : Js.truthy_string (Some c) = true) by (destruct c; [contradiction | reflexivity]).
    split.
    + intros Hhelp.
      assert (E : TestScript.main argv w = ([Stdout TestScript.helpMessage], w, Normal tt)).
      { unfold TestScript.main, TestScript.parseCommandLineArgs. cbn zeta.
        rewrite Hc, !strict_eq_neq, Ht by assumption. reflexivity. }
      rewrite E. repeat split; reflexivity.
    + assert (E : TestLegacy.main argv w = ([Stdout TestLegacy.helpMessage], w, Normal tt)).
      { unfold TestLegacy.main, TestLegacy.command. cbn zeta.
        rewrite Hc, !strict_eq_neq, Ht by assumption. reflexivity. }
      rewrite E. repeat split; reflexivity.
Qed.

(** C10: the file argument is the first of the tokens after the command
    that do not start with [--], wherever the flags stand; a further such
    token changes nothing of what is parsed. *)
Theorem fileArg_is_first_positional :
  (forall argv,
     TestScript.fileArg (TestScript.parseCommandLineArgs argv)
       = head (List.filter positional (Js.argv_flags argv)) /\
     TestLegacy.fileArg argv = head (List.filter positional (Js.argv_flags argv))) /\
  (forall runtime script cmd before extra after,
     existsb positional before = true ->
     positional extra = true ->
     let argv := runtime :: script :: cmd :: before ++ extra :: after in
     let argv' := runtime :: script :: cmd :: before ++ after in
     TestScript.parseCommandLineArgs argv = TestScript.parseCommandLineArgs argv' /\
     TestLegacy.fileArg argv = TestLegacy.fileArg argv' /\
     TestLegacy.options argv = TestLegacy.options argv').
Proof.
  split.
  - intros argv. split; apply find_filter.
  - intros runtime script cmd before extra after Hb He argv argv'.
    assert (Hfind : Js.find positional (before ++ extra :: after)
                    = Js.find positional (before ++ after)).
    { unfold Js.find. clear -Hb. induction before as [|b before IH]; [discriminate|].
      simpl in *. destruct (positional b); [reflexivity | apply IH, Hb]. }
    assert (Hfilter : Js.filter (fun flag => Js.startsWith flag "--") (before ++ extra :: after)
                      = Js.filter (fun flag => Js.startsWith flag "--") (before ++ after)).
    { unfold Js.filter. rewrite !List.filter_app. simpl.
      unfold positional in He. apply negb_true_iff in He. rewrite He. reflexivity. }
    unfold TestScript.parseCommandLineArgs, TestLegacy.fileArg, TestLegacy.options,
      TestLegacy.cleanFlags, TestLegacy.flags.
    subst argv argv'. cbn [Js.argv_flags Js.argv_command skipn nth_error].
    rewrite !skipn_O. unfold positional in Hfind. rewrite Hfind, Hfilter. repeat split; reflexivity.
Qed.
End TestScripts.

(** ** Valued flags *)

Lemma split_head (s : string) : head (Js.split "=" s) = Some (before_first_eq s).
Proof.
  induction s as [|c s IH]; simpl; [reflexivity|].
  destruct (Ascii.eqb c "="); [reflexivity|].
  destruct (Js.split "=" s) as [|seg segs]; simpl in *; [discriminate IH|].
  injection IH as ->. reflexivity.
Qed.

Lemma split_second (s : string) :
  has_eq s = true ->
  Js.at_index (Js.split "=" s) 1 = Some (before_first_eq (after_first_eq s)).
Proof.
  unfold Js.at_index. induction s as [|c s IH]; simpl; [discriminate|].
  destruct (Ascii.eqb c "="); simpl.
  - intros _. pose proof (split_head s) as Hh.
    destruct (Js.split "=" s); simpl in *; [discriminate Hh | exact Hh].
  - intros Hs. specialize (IH Hs).
    destruct (Js.split "=" s) as [|seg segs]; simpl in *; [discriminate IH | exact IH].
Qed.

Lemma before_first_eq_id (s : string) : has_eq s = false -> before_first_eq s = s.
Proof.
  induction s as [|c s IH]; simpl; [reflexivity|].
  destruct (Ascii.eqb c "="); simpl; [discriminate|]. intros Hs. rewrite IH by assumption.
  reflexivity.
Qed.

(** What the parsers yield for a valued flag: the text between the first
    and the second ["="] of the first token that starts with the prefix. *)
Lemma valued_flag_value (prefix : string) (flags : list string) (token : string) :
  Js.find (fun f => Js.startsWith f prefix) flags = Some token ->
  has_eq token = true ->
  valued_flag prefix flags = Some (before_first_eq (after_first_eq token)).
Proof. intros Hf He. unfold valued_flag. rewrite Hf. apply split_second, He. Qed.

(** The value is the whole remainder of the token when it has no further
    ["="]. *)
Lemma valued_flag_whole (prefix : string) (flags : list string) (token : string) :
  Js.find (fun f => Js.startsWith f prefix) flags = Some token ->
  has_eq token = true ->
  has_eq (after_first_eq token) = false ->
  valued_flag prefix flags = Some (after_first_eq token).
Proof.
  intros Hf He Hv. rewrite (valued_flag_value _ _ _ Hf He), before_first_eq_id by assumption.
  reflexivity.
Qed.

(** C9 fails on the code: a value that contains ["="] is cut at its first
    ["="], in each of the three parsers. *)
Theorem valued_flag_cut_at_second_eq :
  let token := "--registry=https://registry.example.com/?token=abc" in
  after_first_eq token = "https://registry.example.com/?token=abc" /\
  Publish.registry (Publish.options ["bun"; "publish.ts"; "patch"; token])
    = Js.Val "https://registry.example.com/?token" /\
  Publish.tag (Publish.options ["bun"; "publish.ts"; "patch"; "--tag=rc=1"]) = Js.Val "rc" /\
  BuildLegacy.target (BuildLegacy.options ["bun"; "build.ts"; "all"; "--target=node=18"])
    = Some "node" /\
  Build.format (Build.options (Build.parseCommandLineArgs
                                 ["bun"; "index.ts"; "prod"; "--format=esm=x"]))
    = Some "esm".
Proof. vm_compute. repeat split; reflexivity. Qed.

(** ** The conversion to a string *)

Lemma Js_ToString_error (number_text : Number.number -> string) :
  forall (v : Js.value) (e : Js.error),
    Js.ToString number_text v = inl e -> e = Js.TypeErrorToPrimitive.
Proof.
  fix IH 1. intros v. destruct v as [| |[|]|n|s|items|props]; simpl; try discriminate.
  - assert (Helements : forall e,
              (fix elements (l : list Js.value) : Js.error + list string :=
                 match l with
                 | [] => inr []
                 | x :: rest =>
                     match (match x with
                            | Js.VUndefined | Js.VNull => inr EmptyString
                            | _ => Js.ToString number_text x
                            end) with
                     | inl e => inl e
                     | inr text =>
                         match elements rest with
                         | inl e => inl e
                         | inr texts => inr (text :: texts)
                         end
                     end
                 end) items = inl e -> e = Js.TypeErrorToPrimitive).
    { revert items. fix IHl 1. intros [|x rest] e; [discriminate|].
      specialize (IH x). specialize (IHl rest).
      destruct x; simpl in *;
        try (destruct (_ rest) as [e'|texts]; [intros [= <-]; apply IHl; reflexivity | discriminate]).
      all: match goal with
           | |- match ?c with _ => _ end = _ -> _ =>
               destruct c as [e'|text]; [intros [= <-]; apply IH; reflexivity|]
           end.
      all: destruct (_ rest) as [e'|texts]; [intros [= <-]; apply IHl; reflexivity | discriminate]. }
    intros e. destruct (_ items) as [e'|texts]; [|discriminate].
    intros [= <-]. apply Helements. reflexivity.
  - intros e. destruct (Js.own_property "toString" props); [|discriminate]. intros [= <-]. reflexivity.
Qed.

(** Conversions on the sample host: an array is joined, [null] in it is
    the empty string; an object with a [toString] property of its own has no
    conversion, and neither has an array that holds one. *)
Example ToString_examples :
  @ToString Sample.host
    (Js.VArray [Js.VNumber (Number.ofZ 1); Js.VNull; Js.VString "a"; Js.VBool true])
    = inr "1,,a,true" /\
  @ToString Sample.host (Js.VObject [("valueOf", Js.VNumber (Number.ofZ 1))])
    = inr "[object Object]" /\
  @ToString Sample.host (Js.VObject [("toString", Js.VNumber (Number.ofZ 1))])
    = inl Js.TypeErrorToPrimitive /\
  @ToString Sample.host (Js.VArray [Js.VObject [("toString", Js.VNull)]])
    = inl Js.TypeErrorToPrimitive.
Proof. vm_compute. repeat split; reflexivity. Qed.

(** ** The publish script *)

Section PublishScript.
Context `{Host}.

Lemma ToString_error (v : Js.value) (e : Js.error) :
  ToString v = inl e -> e = Js.TypeErrorToPrimitive.
Proof. apply Js_ToString_error. Qed.

Lemma convertible_false (v : Js.value) :
  convertible v = false <-> ToString v = inl Js.TypeErrorToPrimitive.
Proof.
  unfold convertible. destruct (ToString v) as [e|text] eqn:Hv.
  - rewrite (ToString_error v e Hv). split; reflexivity.
  - split; discriminate.
Qed.

Lemma validatePackage_run (w : World) :
  world_of (Publish.validatePackage w) = w /\
  spawned (trace_of (Publish.validatePackage w)) = [] /\
  completion_of (Publish.validatePackage w) =
    match validatePackage_error w with
    | Some e => Throw e
    | None => Normal tt
    end.
Proof.
  unfold Publish.validatePackage, validatePackage_error, validation_error, summary_error,
    Publish.requiredFiles, Publish.no_entry_point, for_of, lacks, field.
  unfold_script. unfold trace_of, world_of, completion_of.
  destruct (existsSync w "dist"); cbn; [|repeat split; reflexivity].
  destruct (existsSync w "dist/index.js"); cbn; [|repeat split; reflexivity].
  destruct (existsSync w "dist/index.d.ts"); cbn; [|repeat split; reflexivity].
  destruct (existsSync w "package.json"); cbn; [|repeat split; reflexivity].
  destruct (existsSync w "README.md"); cbn; [|repeat split; reflexivity].
  destruct (readJson w "package.json") as [e|pkg]; cbn; [repeat split; reflexivity|].
  destruct pkg; cbn; try (repeat split; reflexivity).
  destruct (Js.truthy (Js.lookup "name" props)); cbn; [|repeat split; reflexivity].
  destruct (Js.truthy (Js.lookup "version" props)); cbn; [|repeat split; reflexivity].
  destruct (Js.truthy (Js.lookup "main" props)); cbn;
    [|destruct (Js.truthy (Js.lookup "module" props)); cbn;
      [|destruct (Js.truthy (Js.lookup "exports" props)); cbn;
        [|repeat split; reflexivity]]].
  all: destruct (ToString (Js.lookup "name" props)); cbn; [repeat split; reflexivity|].
  all: destruct (ToString (Js.lookup "version" props)); cbn; [repeat split; reflexivity|].
  all: destruct (ToString _); cbn; repeat split; reflexivity.
Qed.






Lemma buildForProduction_run (w : World) :
  let cmd := "bun run build.ts prod" in
  spawned (trace_of (Publish.buildForProduction w)) = [cmd] /\
  world_of (Publish.buildForProduction w) = (spawn w cmd).1 /\
  completion_of (Publish.buildForProduction w) =
    if (spawn w cmd).2 =? 0 then Normal tt
    else Throw (Js.ChildProcessError cmd (spawn w cmd).2).
Proof.
  cbn zeta. unfold Publish.buildForProduction. unfold_script.
  unfold trace_of, world_of, completion_of.
  destruct (spawn w _) as [w' st]. cbn. destruct (st =? 0); repeat split; reflexivity.
Qed.

Lemma updateVersion_run (type : Publish.VersionType) (w : World) :
  let cmd := "npm version " +:+ Publish.VersionType_string type +:+ " --no-git-tag-version" in
  let r := Publish.updateVersion type w in
  (spawned (trace_of r) = [] /\ world_of r = w /\ exists e, completion_of r = Throw e) \/
  (spawned (trace_of r) = [cmd] /\ world_of r = (spawn w cmd).1 /\
   ((exists v, completion_of r = Normal v) -> (spawn w cmd).2 = 0)).
Proof.
  cbn zeta. unfold Publish.updateVersion. unfold_script.
  unfold trace_of, world_of, completion_of.
  destruct (readJson w "package.json") as [e|pkg]; cbn; [left; eauto|].
  destruct (Js.get pkg "version") as [e|old]; cbn; [left; eauto|].
  right. destruct (spawn w _) as [w' st]. cbn.
  destruct (Z.eqb_spec st 0) as [->|Hst]; cbn.
  - destruct (readJson w' "package.json") as [e|pkg']; cbn; [repeat split; auto|].
    destruct (Js.get pkg' "version") as [e|new]; cbn; [repeat split; auto|].
    destruct (ToString old) as [e|oldText]; cbn; [repeat split; auto|].
    destruct (ToString new) as [e|newText]; cbn; repeat split; auto.
  - repeat split. intros [v Hv]. discriminate Hv.
Qed.

(** The value [updateVersion] returns has a conversion to a string: it
    printed it. *)
Lemma updateVersion_convertible (type : Publish.VersionType) (w : World) (v : Js.value) :
  completion_of (Publish.updateVersion type w) = Normal v ->
  exists text, ToString v = inr text.
Proof.
  unfold Publish.updateVersion. unfold_script. unfold completion_of.
  destruct (readJson w "package.json") as [e|pkg]; cbn; [discriminate|].
  destruct (Js.get pkg "version") as [e|old]; cbn; [discriminate|].
  destruct (spawn w _) as [w' st]. cbn.
  destruct (st =? 0); cbn; [|discriminate].
  destruct (readJson w' "package.json") as [e|pkg']; cbn; [discriminate|].
  destruct (Js.get pkg' "version") as [e|new]; cbn; [discriminate|].
  destruct (ToString old) as [e|oldText]; cbn; [discriminate|].
  destruct (ToString new) as [e|newText] eqn:Hnew; cbn; [discriminate|].
  intros [= <-]. eauto.
Qed.

Lemma publishToNpm_run (o : Publish.PublishOptions) (w : World) :
  exists cmd,
    Js.startsWith cmd "bun publish" = true /\
    spawned (trace_of (Publish.publishToNpm o w)) = [cmd] /\
    world_of (Publish.publishToNpm o w) = (spawn w cmd).1 /\
    ((spawn w cmd).2 <> 0 ->
     completion_of (Publish.publishToNpm o w)
       = Throw (Js.ChildProcessError cmd (spawn w cmd).2)).
Proof.
  unfold Publish.publishToNpm. unfold_script.
  unfold trace_of, world_of, completion_of. cbn zeta.
  destruct (match Publish.dryRun (Publish.spread Publish.DEFAULT_OPTIONS o) with
            | Js.Val b => b | _ => false end); cbn;
    (match goal with |- context [spawn w ?c] => exists c end);
    (split; [first [reflexivity
                   | match goal with
                     | |- context [match ?l with [] => _ | _ :: _ => _ end] =>
                         destruct l; reflexivity
                     end]|]);
    destruct (spawn w _) as [w' st]; cbn;
    destruct (Z.eqb_spec st 0) as [->|Hst]; cbn; try (repeat split; congruence).
  destruct (readJson w' "package.json") as [e|pkg]; cbn; [repeat split; congruence|].
  destruct (Js.get pkg "name") as [e|name]; cbn; [repeat split; congruence|].
  destruct (ToString name) as [e|text]; cbn; repeat split; congruence.
Qed.

(** C6: the release workflow does what running build, validate,
    version bump and publish in this order does, each step in the world the
    one before it left: it ends as the first step that does not complete
    normally ends, with the same error and in the world that step left, and
    nothing of a later step is run; the commands it hands to the shell are
    an initial part of build, version bump, publish, and all three when it
    completes normally. *)
Theorem release_workflow_in_order
    (versionType : Publish.VersionType) (options : Publish.PublishOptions) (w : World) :
  let steps := [Publish.buildForProduction; Publish.validatePackage;
                void (Publish.updateVersion versionType); Publish.publishToNpm options] in
  let r := Publish.publishWithVersionBump versionType options w in
  let s := in_sequence steps w in
  world_of r = world_of s /\
  completion_of r = completion_of s /\
  (exists first rest,
      trace_of r = Stdout first :: trace_of s ++ rest /\
      spawned rest = [] /\
      (completion_of s <> Normal tt -> rest = [])) /\
  (exists n publish,
      Js.startsWith publish "bun publish" = true /\
      spawned (trace_of r) =
        take n ["bun run build.ts prod";
                "npm version " +:+ Publish.VersionType_string versionType
                  +:+ " --no-git-tag-version";
                publish] /\
      (completion_of r = Normal tt -> n = 3%nat)).
Proof.
  cbn zeta. unfold Publish.publishWithVersionBump, void. cbn [in_sequence].
  rewrite (bind_console_log _ (fun _ => _)).
  pose proof (buildForProduction_run w) as (Hbs & _ & _).
  rewrite (bind_run Publish.buildForProduction).
  destruct (Publish.buildForProduction w) as [[tb wb] cb].
  unfold trace_of, world_of, completion_of in *. cbn [fst snd] in *.
  destruct cb as [[]|e|code]; cbn [fst snd];
    [| split; [reflexivity|]; split; [reflexivity|]; split;
       [eexists; exists []; rewrite app_nil_r; repeat split; reflexivity
       |exists 1%nat, "bun publish"; repeat split; [exact Hbs | discriminate]] ..].
  pose proof (validatePackage_run wb) as (_ & Hvs & _).
  rewrite (bind_run Publish.validatePackage).
  destruct (Publish.validatePackage wb) as [[tv wv] cv].
  unfold trace_of, world_of, completion_of in *. cbn [fst snd] in *.
  destruct cv as [[]|e|code]; cbn [fst snd];
    [| split; [reflexivity|]; split; [reflexivity|]; split;
       [eexists; exists []; rewrite app_nil_r; repeat split; reflexivity
       |exists 1%nat, "bun publish"; repeat split;
          [rewrite spawned_stdout, spawned_app, Hbs, Hvs; reflexivity | discriminate]] ..].
  pose proof (updateVersion_run versionType wv) as Hu. cbn zeta in Hu.
  pose proof (updateVersion_convertible versionType wv) as Hprinted.
  rewrite !(bind_run (Publish.updateVersion versionType)). unfold ret.
  destruct (Publish.updateVersion versionType wv) as [[tu wu] cu].
  unfold trace_of, world_of, completion_of in *. cbn [fst snd] in *.
  destruct cu as [newVersion|e|code]; cbn [fst snd].
  2,3: split; [reflexivity|]; split; [reflexivity|]; split;
       [eexists; exists []; rewrite app_nil_r; repeat split; reflexivity|];
       destruct Hu as [(Hus & _)|(Hus & _)];
       [exists 1%nat, "bun publish" | exists 2%nat, "bun publish"];
       (repeat split; [rewrite spawned_stdout, !spawned_app, Hbs, Hvs, Hus; reflexivity | discriminate]).
  assert (Hus : spawned tu = ["npm version " +:+ Publish.VersionType_string versionType
                                +:+ " --no-git-tag-version"]).
  { destruct Hu as [(_ & _ & e & He)|(Hus & _)]; [discriminate He | exact Hus]. }
  clear Hu.
  destruct (Hprinted newVersion eq_refl) as [released Hreleased].
  unfold to_string. rewrite Hreleased. unfold ret.
  destruct (publishToNpm_run options wu) as (publish & Hprefix & Hps & _).
  rewrite (bind_run (Publish.publishToNpm options)).
  destruct (Publish.publishToNpm options wu) as [[tp wp] cp].
  unfold trace_of, world_of, completion_of in *. cbn [fst snd] in *.
  unfold console_log, bind.
  destruct cp as [[]|e|code]; cbn [fst snd app].
  all: split; [reflexivity|]; split; [reflexivity|]; split.
  all: try (exists 3%nat, publish; repeat split; try exact Hprefix;
            rewrite spawned_stdout, !spawned_app, Hbs, Hvs, Hus, Hps; reflexivity).
  - match goal with |- context [tp ++ [?x]] => eexists; exists [x] end.
    rewrite ?app_nil_r, <- ?app_assoc. repeat split; congruence.
  - eexists; exists []. rewrite ?app_nil_r, <- ?app_assoc. repeat split; congruence.
  - eexists; exists []. rewrite ?app_nil_r, <- ?app_assoc. repeat split; congruence.
Qed.
End PublishScript.

(** ** Concrete runs of validation *)



(** ** Concrete runs on the sample host *)

(** [bun run scripts/test/index.ts file --coverage] *)
Lemma file_without_name_is_usage_error_witness :
  let argv := ["bun"; "scripts/test/index.ts"; "file"; "--coverage"] in
  Js.argv_command argv = Some "file" /\
  forallb (fun flag => Js.startsWith flag "--") (Js.argv_flags argv) = true /\
  @TestScript.main Sample.host argv Sample.fresh =
    ([Stderr "❌ Please specify a test file to run";
      Stdout "Usage: bun run test:file <filename>"], Sample.fresh, Exit 1).
Proof.
  split; [reflexivity|]. split; [reflexivity|].
  apply (@file_without_name_is_usage_error Sample.host
           ["bun"; "scripts/test/index.ts"; "file"; "--coverage"] Sample.fresh);
    reflexivity.
Defined.

(** [bun run test.ts] and [bun run scripts/test/index.ts lint] *)
Lemma unrecognized_command_prints_help_witness :
  (Js.truthy_string (Js.argv_command ["bun"; "test.ts"]) = false /\
   spawned (trace_of (@TestLegacy.main Sample.host ["bun"; "test.ts"] Sample.fresh))
     = ["bun test --coverage"]) /\
  (Js.argv_command ["bun"; "scripts/test/index.ts"; "lint"] = Some "lint" /\
   @TestScript.main Sample.host ["bun"; "scripts/test/index.ts"; "lint"] Sample.fresh
     = ([Stdout TestScript.helpMessage], Sample.fresh, Normal tt)).
Proof.
  split; (split; [reflexivity|]).
  - apply (@unrecognized_command_prints_help Sample.host ["bun"; "test.ts"] Sample.fresh).
    reflexivity.
  - apply (proj2 (@unrecognized_command_prints_help Sample.host
                    ["bun"; "scripts/test/index.ts"; "lint"] Sample.fresh) "lint");
      [reflexivity | discriminate ..].
Defined.

(** C4, as it is stated, fails: the empty string is a command token that
    is present and is not a recognized command, and all tests are run. *)
Lemma empty_command_counterexample :
  let argv := ["bun"; "scripts/test/index.ts"; ""] in
  Js.argv_command argv = Some "" /\
  ~ In "" ["coverage"; "file"; "help"] /\
  spawned (trace_of (@TestScript.main Sample.host argv Sample.fresh)) = ["bun test"] /\
  spawned (trace_of (@TestLegacy.main Sample.host argv Sample.fresh)) = ["bun test --coverage"] /\
  @TestScript.main Sample.host argv Sample.fresh
    <> ([Stdout TestScript.helpMessage], Sample.fresh, Normal tt).
Proof.
  split; [reflexivity|]. split; [|split; [|split]].
  - simpl. intros [E|[E|[E|[]]]]; discriminate E.
  - vm_compute. reflexivity.
  - vm_compute. reflexivity.
  - vm_compute. discriminate.
Qed.

(** [bun run scripts/test/index.ts coverage] when [bun test] fails. *)
Lemma failed_child_raises_TestExecutionError_witness :
  let argv := ["bun"; "scripts/test/index.ts"; "coverage"] in
  In "bun test" (spawned (trace_of (@TestScript.main Sample.host argv (Sample.failing_with ["bun test"])))) /\
  (@spawn Sample.host (Sample.failing_with ["bun test"]) "bun test").2 <> 0 /\
  (exists msg, completion_of (@TestScript.main Sample.host argv (Sample.failing_with ["bun test"]))
               = Throw (Js.TestExecutionError msg (Some "bun test"))) /\
  exit_status (completion_of (@TestScript.main Sample.host argv (Sample.failing_with ["bun test"]))) <> 0.
Proof.
  assert (Hin : In "bun test" (spawned (trace_of
            (@TestScript.main Sample.host ["bun"; "scripts/test/index.ts"; "coverage"] (Sample.failing_with ["bun test"])))))
    by (vm_compute; left; reflexivity).
  assert (Hst : (@spawn Sample.host (Sample.failing_with ["bun test"]) "bun test").2 <> 0) by (vm_compute; discriminate).
  split; [exact Hin|]. split; [exact Hst|].
  exact (proj2 (proj2 (@failed_child_raises_TestExecutionError Sample.host)) _ _ _ Hin Hst).
Defined.

(** [file --verbose sum.test.ts other.test.ts --coverage] *)
Lemma fileArg_is_first_positional_witness :
  let before := ["--verbose"; "sum.test.ts"] in
  let after := ["--coverage"] in
  existsb positional before = true /\
  positional "other.test.ts" = true /\
  @TestScript.parseCommandLineArgs
    ("bun" :: "index.ts" :: "file" :: before ++ "other.test.ts" :: after)
  = @TestScript.parseCommandLineArgs ("bun" :: "index.ts" :: "file" :: before ++ after).
Proof.
  split; [reflexivity|]. split; [reflexivity|].
  apply (proj2 fileArg_is_first_positional
           "bun" "index.ts" "file" ["--verbose"; "sum.test.ts"] "other.test.ts" ["--coverage"]);
    reflexivity.
Defined.


(** [bun run publish.ts patch --dry-run] on a checkout that was never built. *)
Lemma release_workflow_in_order_witness :
  let o := Publish.options ["bun"; "publish.ts"; "patch"; "--dry-run"] in
  completion_of (@Publish.publishWithVersionBump Sample.host Publish.patch o Sample.fresh)
    = completion_of
        (@in_sequence Sample.host
           [@Publish.buildForProduction Sample.host; @Publish.validatePackage Sample.host;
            @void Sample.host _ (@Publish.updateVersion Sample.host Publish.patch);
            @Publish.publishToNpm Sample.host o] Sample.fresh).
Proof.
  apply (@release_workflow_in_order Sample.host Publish.patch
           (Publish.options ["bun"; "publish.ts"; "patch"; "--dry-run"]) Sample.fresh).
Defined.

(** A release whose build fails runs nothing else and ends with the error
    of the build. *)
Example release_stops_at_failed_build :
  let w := Sample.failing_with ["bun run build.ts prod"] in
  let r := @Publish.publishWithVersionBump Sample.host Publish.minor
             (Publish.options ["bun"; "publish.ts"; "minor"]) w in
  spawned (trace_of r) = ["bun run build.ts prod"] /\
  completion_of r = Throw (Js.ChildProcessError "bun run build.ts prod" 1).
Proof. vm_compute. split; reflexivity. Qed.

(** A release whose version bump fails has built and validated, and does
    not publish. *)
Example release_stops_at_failed_bump :
  let w := Sample.failing_with ["npm version major --no-git-tag-version"] in
  let r := @Publish.publishWithVersionBump Sample.host Publish.major
             (Publish.options ["bun"; "publish.ts"; "major"]) w in
  spawned (trace_of r) = ["bun run build.ts prod"; "npm version major --no-git-tag-version"] /\
  completion_of r
    = Throw (Js.ChildProcessError "npm version major --no-git-tag-version" 1) /\
  Sample.paths (world_of r) = Sample.paths (Sample.built w).
Proof. vm_compute. repeat split; reflexivity. Qed.

(** A release that goes through runs the three commands in order. *)
Example release_runs_three_commands :
  let r := @Publish.publishWithVersionBump Sample.host Publish.patch
             (Publish.options ["bun"; "publish.ts"; "patch"; "--tag=next"; "--public"])
             Sample.fresh in
  spawned (trace_of r)
    = ["bun run build.ts prod"; "npm version patch --no-git-tag-version";
       "bun publish --tag next --access public"] /\
  completion_of r = Normal tt.
Proof. vm_compute. split; reflexivity. Qed.

(** [test.ts] rethrows the error of the child process as it is. *)
Example legacy_rethrows_child_error :
  completion_of (@TestLegacy.main Sample.host ["bun"; "test.ts"; "coverage"]
                   (Sample.failing_with ["bun test --coverage"]))
    = Throw (Js.ChildProcessError "bun test --coverage" 1).
Proof. vm_compute. reflexivity. Qed.

(** * Further properties *)

(** ** [sum]: special values *)

Lemma add_nan_l (y : number) : add S754_nan y = S754_nan.
Proof. reflexivity. Qed.

Lemma add_nan_r (x : number) : add x S754_nan = S754_nan.
Proof. destruct x; reflexivity. Qed.

Lemma reduce_add_nan (xs : list number) :
  reduce (fun acc val => add acc val) S754_nan xs = S754_nan.
Proof. induction xs as [|x xs IH]; simpl; [reflexivity | exact IH]. Qed.

(** X1: a NaN among the arguments makes the result NaN. *)
Theorem sum_nan (xs : list number) : In S754_nan xs -> sum xs = S754_nan.
Proof.
  unfold sum. generalize zero as acc.
  induction xs as [|x xs IH]; intros acc Hin; [destruct Hin|].
  destruct Hin as [->|Hin]; simpl.
  - rewrite add_nan_r. apply reduce_add_nan.
  - apply IH, Hin.
Qed.

Lemma sum_nan_witness :
  In S754_nan [ofZ 1; S754_nan; ofZ 2] /\ sum [ofZ 1; S754_nan; ofZ 2] = S754_nan.
Proof.
  assert (Hin : In S754_nan [ofZ 1; S754_nan; ofZ 2]) by (simpl; auto).
  split; [exact Hin | exact (sum_nan _ Hin)].
Defined.

(** X2: the sum of one argument is that argument, except that
    [sum(-0)] is [0]. *)
Theorem sum_singleton (x : number) :
  sum [x] = match x with S754_zero true => S754_zero false | _ => x end.
Proof. destruct x as [[|]|[|]| |s m e]; reflexivity. Qed.

Lemma reduce_add_inf (s : bool) (xs : list number) : forall acc,
  inf_or_nan s acc -> inf_or_nan s (reduce (fun acc val => add acc val) acc xs).
Proof.
  induction xs as [|x xs IH]; intros acc Hacc; simpl; [exact Hacc|].
  apply IH. destruct Hacc as [->| ->]; [|right; reflexivity].
  destruct s, x as [[|]|[|]| |[|] m e]; unfold inf_or_nan; simpl; auto.
Qed.

(** X3: with [Infinity] among the arguments the result is [Infinity] or
    NaN, and with [-Infinity] it is [-Infinity] or NaN. *)
Theorem sum_infinity (s : bool) (xs : list number) :
  In (S754_infinity s) xs -> sum xs = S754_infinity s \/ sum xs = S754_nan.
Proof.
  unfold sum. generalize zero as acc.
  induction xs as [|x xs IH]; intros acc Hin; [destruct Hin|].
  destruct Hin as [->|Hin]; simpl; [|apply IH, Hin].
  apply (reduce_add_inf s).
  destruct s, acc as [[|]|[|]| |[|] m e]; unfold inf_or_nan; simpl; auto.
Qed.

Lemma sum_infinity_witness :
  In (S754_infinity false) [ofZ 1; S754_infinity false] /\
  (sum [ofZ 1; S754_infinity false] = S754_infinity false \/
   sum [ofZ 1; S754_infinity false] = S754_nan).
Proof.
  assert (Hin : In (S754_infinity false) [ofZ 1; S754_infinity false]) by (simpl; auto).
  split; [exact Hin | exact (sum_infinity false _ Hin)].
Defined.

(** ** The test scripts: flags and commands *)

Section TestScriptsMore.
Context `{Host}.

Lemma includes_In (arr : list string) (x : string) : Js.includes arr x = true <-> In x arr.
Proof.
  unfold Js.includes. rewrite existsb_exists. split.
  - intros (y & Hy & Heq). apply String.eqb_eq in Heq. subst. assumption.
  - intros Hx. exists x. split; [assumption | apply String.eqb_refl].
Qed.

Lemma includes_ext (arr arr' : list string) (x : string) :
  (In x arr <-> In x arr') -> Js.includes arr x = Js.includes arr' x.
Proof.
  intros Hiff. apply eq_true_iff_eq. rewrite !includes_In. exact Hiff.
Qed.

Lemma includes_cleanFlags (flags : list string) (x : string) :
  Js.startsWith x "--" = true ->
  Js.includes (Js.filter (fun flag => Js.startsWith flag "--") flags) x = Js.includes flags x.
Proof.
  intros Hx. apply includes_ext. unfold Js.filter. rewrite List.filter_In.
  split; [intros [Hin _]; exact Hin | intros Hin; split; assumption].
Qed.

(** The parsed options, read off the tokens after the command. *)
Lemma parsed_options (argv : list string) :
  let flags := Js.argv_flags argv in
  TestScript.options (TestScript.parseCommandLineArgs argv) =
    {| TestScript.coverage := Some (Js.includes flags "--coverage" || Js.includes flags "--cov");
       TestScript.verbose := Some (Js.includes flags "--verbose" || Js.includes flags "--v");
       TestScript.watch := Some (Js.includes flags "--watch" || Js.includes flags "--w");
       TestScript.file := None |}.
Proof.
  cbn zeta. unfold TestScript.parseCommandLineArgs. cbn [TestScript.options].
  rewrite !includes_cleanFlags by reflexivity. reflexivity.
Qed.

Lemma legacy_options (argv : list string) :
  let flags := Js.argv_flags argv in
  TestLegacy.options argv =
    {| TestLegacy.coverage := Some (Js.includes flags "--coverage" || Js.includes flags "--cov");
       TestLegacy.verbose := Some (Js.includes flags "--verbose" || Js.includes flags "--v");
       TestLegacy.watch := Some (Js.includes flags "--watch" || Js.includes flags "--w");
       TestLegacy.file := None |}.
Proof.
  cbn zeta. unfold TestLegacy.options, TestLegacy.cleanFlags, TestLegacy.flags.
  rewrite !includes_cleanFlags by reflexivity. reflexivity.
Qed.

(** X4: the options depend only on which of the six known flags occur
    after the command: their order, their repetition and any other token
    change nothing. *)
Theorem options_depend_on_known_flags (runtime script command : string)
    (flags flags' : list string) :
  (forall flag, In flag test_flags -> (In flag flags <-> In flag flags')) ->
  TestScript.options (TestScript.parseCommandLineArgs (runtime :: script :: command :: flags))
    = TestScript.options
        (TestScript.parseCommandLineArgs (runtime :: script :: command :: flags')) /\
  TestLegacy.options (runtime :: script :: command :: flags)
    = TestLegacy.options (runtime :: script :: command :: flags').
Proof.
  intros Hsame. rewrite !parsed_options, !legacy_options. cbn zeta.
  assert (Hf : forall l, Js.argv_flags (runtime :: script :: command :: l) = l)
    by reflexivity.
  rewrite !Hf.
  assert (Hinc : forall flag, In flag test_flags ->
                   Js.includes flags flag = Js.includes flags' flag)
    by (intros flag Hflag; apply includes_ext, Hsame, Hflag).
  rewrite !(Hinc "--coverage"), !(Hinc "--cov"), !(Hinc "--verbose"), !(Hinc "--v"),
    !(Hinc "--watch"), !(Hinc "--w") by (unfold test_flags; simpl; auto 10).
  split; reflexivity.
Qed.

Lemma runAllTests_command (o : TestScript.TestOptions) (w : World) :
  let cmd := if negb (bool_decide (TestScript.coverage o = Some false))
             then "bun test --coverage" else "bun test" in
  spawned (trace_of (TestScript.runAllTests o w)) = [cmd] /\
  world_of (TestScript.runAllTests o w) = (spawn w cmd).1 /\
  completion_of (TestScript.runAllTests o w) =
    if (spawn w cmd).2 =? 0 then Normal tt
    else Throw (Js.TestExecutionError "Test execution failed" (Some cmd)).
Proof.
  cbn zeta. unfold TestScript.runAllTests. unfold_script.
  unfold trace_of, world_of, completion_of.
  destruct (negb (bool_decide (TestScript.coverage o = Some false))); cbn;
    destruct (spawn w _) as [w' st]; cbn; destruct (st =? 0); repeat split; reflexivity.
Qed.

Lemma runSingleFileTests_command (f : string) (o : TestScript.TestOptions) (w : World) :
  let cmd := file_command f (negb (bool_decide (TestScript.coverage o = Some false)))
               (bool_decide (TestScript.verbose o = Some true)) in
  spawned (trace_of (TestScript.runSingleFileTests f o w)) = [cmd] /\
  world_of (TestScript.runSingleFileTests f o w) = (spawn w cmd).1 /\
  completion_of (TestScript.runSingleFileTests f o w) =
    if (spawn w cmd).2 =? 0 then Normal tt
    else Throw (Js.TestExecutionError ("Test execution failed for " +:+ f) (Some cmd)).
Proof.
  cbn zeta. unfold TestScript.runSingleFileTests, file_command. unfold_script.
  unfold trace_of, world_of, completion_of.
  destruct (negb (bool_decide (TestScript.coverage o = Some false))),
    (bool_decide (TestScript.verbose o = Some true)); cbn;
    destruct (spawn w _) as [w' st]; cbn; destruct (st =? 0); repeat split; reflexivity.
Qed.

Lemma runFileTests_command (f : string) (o : TestLegacy.TestOptions) (w : World) :
  let cmd := file_command f (bool_decide (TestLegacy.coverage o = Some true))
               (bool_decide (TestLegacy.verbose o = Some true)) in
  spawned (trace_of (TestLegacy.runFileTests f o w)) = [cmd] /\
  world_of (TestLegacy.runFileTests f o w) = (spawn w cmd).1 /\
  completion_of (TestLegacy.runFileTests f o w) =
    if (spawn w cmd).2 =? 0 then Normal tt
    else Throw (Js.ChildProcessError cmd (spawn w cmd).2).
Proof.
  cbn zeta. unfold TestLegacy.runFileTests, file_command. unfold_script.
  unfold trace_of, world_of, completion_of.
  destruct (bool_decide (TestLegacy.coverage o = Some true)),
    (bool_decide (TestLegacy.verbose o = Some true)); cbn;
    destruct (spawn w _) as [w' st]; cbn; destruct (st =? 0); repeat split; reflexivity.
Qed.

Lemma some_bool_not_false (b : bool) : negb (bool_decide (Some b = Some false)) = b.
Proof. destruct b; reflexivity. Qed.

Lemma some_bool_true (b : bool) : bool_decide (Some b = Some true) = b.
Proof. destruct b; reflexivity. Qed.

(** X5: the command [coverage] of [scripts/test/index.ts] runs
    [bun test --coverage] only when a [--coverage] or [--cov] flag is given,
    and plain [bun test] otherwise; [test.ts] always runs
    [bun test --coverage]. *)
Theorem coverage_command_needs_flag (argv : list string) (w : World) :
  Js.argv_command argv = Some "coverage" ->
  let flags := Js.argv_flags argv in
  spawned (trace_of (TestScript.main argv w))
    = [if Js.includes flags "--coverage" || Js.includes flags "--cov"
       then "bun test --coverage" else "bun test"] /\
  spawned (trace_of (TestLegacy.main argv w)) = ["bun test --coverage"].
Proof.
  intros Hc flags. split.
  - assert (E : TestScript.main argv w =
                TestScript.runAllTests
                  (TestScript.options (TestScript.parseCommandLineArgs argv)) w).
    { unfold TestScript.main, TestScript.parseCommandLineArgs. cbn zeta. rewrite Hc.
      reflexivity. }
    rewrite E. destruct (runAllTests_command
                           (TestScript.options (TestScript.parseCommandLineArgs argv)) w)
      as (Hs & _). rewrite Hs, parsed_options. cbn [TestScript.coverage].
    rewrite some_bool_not_false. reflexivity.
  - unfold TestLegacy.main, TestLegacy.command. cbn zeta. rewrite Hc.
    cbn [Js.strict_eq String.eqb Ascii.eqb Bool.eqb].
    unfold TestLegacy.runTestsWithCoverage. unfold_script. unfold trace_of.
    destruct (spawn w _) as [w' st]; cbn; destruct (st =? 0); reflexivity.
Qed.

(** X6: the command [file] with a file name runs
    [bun test <name> --watch], with [--coverage] and [--verbose] added when
    their flags are given; [--watch] is passed whatever the flags. Both test
    scripts run the same command. *)
Theorem file_command_always_watches (argv : list string) (name : string) (w : World) :
  Js.argv_command argv = Some "file" ->
  Js.find positional (Js.argv_flags argv) = Some name ->
  name <> "" ->
  let flags := Js.argv_flags argv in
  let cmd := file_command name
               (Js.includes flags "--coverage" || Js.includes flags "--cov")
               (Js.includes flags "--verbose" || Js.includes flags "--v") in
  spawned (trace_of (TestScript.main argv w)) = [cmd] /\
  spawned (trace_of (TestLegacy.main argv w)) = [cmd].
Proof.
  intros Hc Hf Hne flags cmd.
  assert (Ht : Js.truthy_string (Some name) = true)
    by (destruct name; [contradiction | reflexivity]).
  unfold positional in Hf.
  split.
  - assert (E : TestScript.main argv w =
                TestScript.runSingleFileTests name
                  (TestScript.options (TestScript.parseCommandLineArgs argv)) w).
    { unfold TestScript.main, TestScript.parseCommandLineArgs. cbn zeta.
      rewrite Hc, Hf, Ht. cbn [Js.strict_eq String.eqb Ascii.eqb Bool.eqb negb when].
      apply (bind_ret_l tt (fun _ => _)). }
    rewrite E. destruct (runSingleFileTests_command name
                           (TestScript.options (TestScript.parseCommandLineArgs argv)) w)
      as (Hs & _). rewrite Hs, parsed_options. cbn [TestScript.coverage TestScript.verbose].
    rewrite some_bool_not_false, some_bool_true. reflexivity.
  - unfold TestLegacy.main, TestLegacy.command, TestLegacy.fileArg, TestLegacy.flags.
    cbn zeta. rewrite Hc, Hf, Ht.
    cbn [Js.strict_eq String.eqb Ascii.eqb Bool.eqb negb when].
    rewrite (bind_ret_l tt (fun _ => _)).
    match goal with
    | |- context [TestLegacy.runFileTests ?f ?o w] =>
        destruct (runFileTests_command f o w) as (Hs & _); rewrite Hs
    end.
    rewrite legacy_options. cbn [TestLegacy.coverage TestLegacy.verbose from_option id].
    rewrite !some_bool_true. reflexivity.
Qed.

Lemma runAllTests_ext (o o' : TestScript.TestOptions) :
  TestScript.coverage o = TestScript.coverage o' ->
  TestScript.runAllTests o = TestScript.runAllTests o'.
Proof. unfold TestScript.runAllTests. intros ->. reflexivity. Qed.

Lemma runSingleFileTests_ext (f : string) (o o' : TestScript.TestOptions) :
  TestScript.coverage o = TestScript.coverage o' ->
  TestScript.verbose o = TestScript.verbose o' ->
  TestScript.runSingleFileTests f o = TestScript.runSingleFileTests f o'.
Proof. unfold TestScript.runSingleFileTests. intros -> ->. reflexivity. Qed.

Lemma find_positional_not_watch (flags : list string) :
  Js.find (fun flag => negb (Js.startsWith flag "--")) (List.filter not_watch flags)
  = Js.find (fun flag => negb (Js.startsWith flag "--")) flags.
Proof.
  unfold Js.find. induction flags as [|f flags IH]; [reflexivity|].
  simpl. destruct (not_watch f) eqn:Hw; simpl.
  - rewrite IH. reflexivity.
  - assert (Hf : Js.startsWith f "--" = true).
    { unfold not_watch in Hw. apply negb_false_iff, orb_true_iff in Hw.
      destruct Hw as [Hw|Hw]; apply String.eqb_eq in Hw; subst; reflexivity. }
    rewrite Hf. simpl. exact IH.
Qed.

Lemma includes_not_watch (flags : list string) (x : string) :
  not_watch x = true ->
  Js.includes (List.filter not_watch flags) x = Js.includes flags x.
Proof.
  intros Hx. apply includes_ext. rewrite List.filter_In.
  split; [intros [Hin _]; exact Hin | intros Hin; split; assumption].
Qed.

(** X7: the flags [--watch] and [--w] are parsed and then never used:
    with them removed from the command line, both test scripts do exactly the
    same. *)
Theorem watch_flag_has_no_effect (runtime script command : string)
    (flags : list string) (w : World) :
  let argv := runtime :: script :: command :: flags in
  let argv' := runtime :: script :: command :: List.filter not_watch flags in
  TestScript.main argv w = TestScript.main argv' w /\
  TestLegacy.main argv w = TestLegacy.main argv' w.
Proof.
  intros argv argv'.
  assert (Hf : forall l, Js.argv_flags (runtime :: script :: command :: l) = l)
    by reflexivity.
  assert (Hc : forall l, Js.argv_command (runtime :: script :: command :: l) = Some command)
    by reflexivity.
  split.
  - unfold TestScript.main.
    pose proof (parsed_options argv) as Ho. pose proof (parsed_options argv') as Ho'.
    cbn zeta in Ho, Ho'. subst argv argv'. rewrite Hf in Ho, Ho'.
    destruct (TestScript.parseCommandLineArgs (runtime :: script :: command :: flags))
      as [c fa o] eqn:E.
    destruct (TestScript.parseCommandLineArgs
                (runtime :: script :: command :: List.filter not_watch flags))
      as [c' fa' o'] eqn:E'.
    unfold TestScript.parseCommandLineArgs in E, E'. rewrite Hf, Hc in E, E'.
    injection E as <- <- _. injection E' as <- <- _.
    cbn [TestScript.options] in Ho, Ho'.
    rewrite find_positional_not_watch.
    assert (Hcov : TestScript.coverage o = TestScript.coverage o')
      by (rewrite Ho, Ho'; cbn [TestScript.coverage];
          rewrite !includes_not_watch by reflexivity; reflexivity).
    assert (Hverb : TestScript.verbose o = TestScript.verbose o')
      by (rewrite Ho, Ho'; cbn [TestScript.verbose];
          rewrite !includes_not_watch by reflexivity; reflexivity).
    rewrite (runAllTests_ext o o' Hcov).
    rewrite (runSingleFileTests_ext _ o o' Hcov Hverb). reflexivity.
  - unfold TestLegacy.main, TestLegacy.command, TestLegacy.fileArg, TestLegacy.flags.
    rewrite !legacy_options. cbn zeta. subst argv argv'. rewrite !Hf, !Hc.
    rewrite find_positional_not_watch.
    cbn [TestLegacy.coverage TestLegacy.verbose TestLegacy.watch TestLegacy.file].
    rewrite !includes_not_watch by reflexivity.
    unfold TestLegacy.runFileTests.
    cbn [TestLegacy.coverage TestLegacy.verbose TestLegacy.watch TestLegacy.file].
    rewrite ?includes_not_watch by reflexivity.
    reflexivity.
Qed.

(** X8: [scripts/test/index.ts] ends with status 0 or 1, and with 1
    exactly when the command [file] has no file name or the command it
    spawned exited with a status other than 0. *)
Theorem test_script_exit_status (argv : list string) (w : World) :
  let r := TestScript.main argv w in
  let parsed := TestScript.parseCommandLineArgs argv in
  (exit_status (completion_of r) = 0 \/ exit_status (completion_of r) = 1) /\
  (exit_status (completion_of r) = 1 <->
     (TestScript.command parsed = Some "file" /\
      Js.truthy_string (TestScript.fileArg parsed) = false) \/
     (exists cmd, In cmd (spawned (trace_of r)) /\ (spawn w cmd).2 <> 0)).
Proof.
  cbn zeta. unfold TestScript.main.
  destruct (TestScript.parseCommandLineArgs argv) as [c fa o].
  cbn [TestScript.command TestScript.fileArg].
  assert (Hall : forall o,
    let r := TestScript.runAllTests o w in
    (exit_status (completion_of r) = 0 \/ exit_status (completion_of r) = 1) /\
    (exit_status (completion_of r) = 1 <->
     exists cmd, In cmd (spawned (trace_of r)) /\ (spawn w cmd).2 <> 0)).
  { intros o0. cbn zeta. destruct (spawned_runAllTests o0 w) as (cmd0 & Hs & _ & Hcpl).
    rewrite Hs, Hcpl. destruct (Z.eqb_spec (spawn w cmd0).2 0) as [E|E]; cbn.
    - split; [auto|]. split; [discriminate|].
      intros (cmd & [<-|[]] & Hne). contradiction.
    - split; [auto|]. split; [|reflexivity]. intros _. eexists. split; [left; reflexivity|].
      exact E. }
  assert (Hfile : forall f o,
    let r := TestScript.runSingleFileTests f o w in
    (exit_status (completion_of r) = 0 \/ exit_status (completion_of r) = 1) /\
    (exit_status (completion_of r) = 1 <->
     exists cmd, In cmd (spawned (trace_of r)) /\ (spawn w cmd).2 <> 0)).
  { intros f o0. cbn zeta.
    destruct (spawned_runSingleFileTests f o0 w) as (cmd0 & Hs & _ & Hcpl).
    rewrite Hs, Hcpl. destruct (Z.eqb_spec (spawn w cmd0).2 0) as [E|E]; cbn.
    - split; [auto|]. split; [discriminate|].
      intros (cmd & [<-|[]] & Hne). contradiction.
    - split; [auto|]. split; [|reflexivity]. intros _. eexists. split; [left; reflexivity|].
      exact E. }
  destruct (Js.strict_eq c "coverage") eqn:Hcov.
  { destruct (Hall o) as (H01 & Hiff). split; [exact H01|]. rewrite Hiff.
    split; [auto|]. intros [[Hc _]|Hx]; [|exact Hx].
    subst c. discriminate Hcov. }
  destruct (Js.strict_eq c "file") eqn:Hfl.
  { assert (Hc : c = Some "file").
    { destruct c as [s|]; [|discriminate Hfl]. simpl in Hfl.
      apply String.eqb_eq in Hfl. subst. reflexivity. }
    destruct (Js.truthy_string fa) eqn:Hfa; cbn [negb when].
    - rewrite (bind_ret_l tt (fun _ => _)).
      destruct (Hfile (default "undefined" fa) o) as (H01 & Hiff).
      split; [exact H01|]. rewrite Hiff.
      split; [auto|]. intros [[_ Hx]|Hx]; [discriminate Hx | exact Hx].
    - cbn. split; [auto|]. split; [auto|reflexivity]. }
  destruct (Js.strict_eq c "help") eqn:Hhelp.
  { cbn. split; [auto|]. split; [discriminate|].
    intros [[Hc _]|(cmd & [] & _)]. subst c. discriminate Hfl. }
  rewrite (bind_console_log _ (fun _ => _)).
  destruct (Js.truthy_string c) eqn:Htc; cbn [negb when].
  - cbn. split; [auto|]. split; [discriminate|].
    intros [[Hc _]|(cmd & [] & _)]. subst c. discriminate Hfl.
  - destruct (Hall o) as (H01 & Hiff). cbn zeta in H01, Hiff.
    destruct (TestScript.runAllTests o w) as [[t w'] cpl].
    unfold trace_of, completion_of in *. cbn [fst snd] in *.
    split; [exact H01|]. rewrite Hiff.
    split; [auto|]. intros [[Hc _]|Hx]; [|exact Hx]. subst c. discriminate Hfl.
Qed.
End TestScriptsMore.

(** ** The publish script: commands and failures *)

Lemma append_empty_r (s : string) : s +:+ "" = s.
Proof.
  induction s as [|c s IH]; [reflexivity|].
  change (String c (s +:+ "") = String c s). rewrite IH. reflexivity.
Qed.

Section PublishMore.
Context `{Host}.

Lemma publishToNpm_command (argv : list string) (w : World) :
  spawned (trace_of (Publish.publishToNpm (Publish.options argv) w))
    = [publish_command (Js.argv_flags argv)].
Proof.
  unfold Publish.publishToNpm, Publish.options, publish_command.
  unfold_script. unfold trace_of. cbn zeta.
  cbn [Publish.spread Publish.dryRun Publish.tag Publish.access Publish.registry
       Publish.DEFAULT_OPTIONS Js.spread].
  destruct (Js.includes (Js.argv_flags argv) "--dry-run"
            || Js.includes (Js.argv_flags argv) "--dry");
    destruct (valued_flag "--tag=" (Js.argv_flags argv)) as [t|];
    cbn [Js.of_option Js.spread];
    try destruct (Js.truthy_string (Some t) && negb (String.eqb t "latest"));
    destruct (Js.includes (Js.argv_flags argv) "--public");
    try destruct (Js.includes (Js.argv_flags argv) "--restricted");
    cbn [Js.spread];
    destruct (valued_flag "--registry=" (Js.argv_flags argv)) as [r|];
    cbn [Js.of_option Js.spread];
    try destruct (Js.truthy_string (Some r));
    cbn; destruct (spawn w _) as [w' st]; cbn;
    destruct (st =? 0); cbn; rewrite ?append_empty_r; try reflexivity;
    (destruct (readJson w' "package.json") as [e|pkg]; cbn; rewrite ?append_empty_r;
     [reflexivity|]);
    (destruct (Js.get pkg "name"); cbn; rewrite ?append_empty_r; [reflexivity|]);
    destruct (ToString _); cbn; rewrite ?append_empty_r; reflexivity.
Qed.

(** X9: the command [publishToNpm] runs for the options of the command
    line: [--access] is passed only with [--public] or [--restricted]
    ([--public] wins), [--tag] only for a tag other than [latest], and the
    defaults of [DEFAULT_OPTIONS] are not applied, because the options object
    of the script has all four keys; [publishToNpm({})] does pass
    [--access public]. *)
Theorem publish_command_from_flags (argv : list string) (w : World) :
  spawned (trace_of (Publish.publishToNpm (Publish.options argv) w))
    = [publish_command (Js.argv_flags argv)] /\
  spawned (trace_of (Publish.publishToNpm no_publish_options w)) = ["bun publish --access public"].
Proof.
  split; [apply publishToNpm_command|].
  unfold Publish.publishToNpm, no_publish_options. unfold_script. unfold trace_of. cbn.
  destruct (spawn w _) as [w' st]; cbn.
  destruct (st =? 0); cbn; try reflexivity;
    destruct (readJson w' "package.json") as [e|pkg]; cbn; try reflexivity;
    destruct (Js.get pkg "name"); cbn; try reflexivity;
    destruct (ToString _); reflexivity.
Qed.

Lemma publishToNpm_outcome (o : Publish.PublishOptions) (w : World) :
  exists cmd,
    Js.startsWith cmd (if is_dry_run o then "bun publish --dry-run" else "bun publish") = true /\
    spawned (trace_of (Publish.publishToNpm o w)) = [cmd] /\
    world_of (Publish.publishToNpm o w) = (spawn w cmd).1 /\
    completion_of (Publish.publishToNpm o w) =
      if (spawn w cmd).2 =? 0 then
        if is_dry_run o then Normal tt
        else match readJson (spawn w cmd).1 "package.json" with
             | inl e => Throw e
             | inr pkg => match Js.get pkg "name" with
                          | inl e => Throw e
                          | inr name => match ToString name with
                                        | inl e => Throw e
                                        | inr _ => Normal tt
                                        end
                          end
             end
      else Throw (Js.ChildProcessError cmd (spawn w cmd).2).
Proof.
  unfold Publish.publishToNpm, is_dry_run. unfold_script.
  unfold trace_of, world_of, completion_of. cbn zeta.
  destruct (match Publish.dryRun (Publish.spread Publish.DEFAULT_OPTIONS o) with
            | Js.Val b => b | _ => false end); cbn;
    (match goal with |- context [spawn w ?c] => exists c end);
    (split; [first [reflexivity
                   | match goal with
                     | |- context [match ?l with [] => _ | _ :: _ => _ end] =>
                         destruct l; reflexivity
                     end]|]);
    destruct (spawn w _) as [w' st]; cbn;
    destruct (st =? 0); cbn; try (repeat split; reflexivity).
  destruct (readJson w' "package.json") as [e|pkg]; cbn; [repeat split; reflexivity|].
  destruct (Js.get pkg "name") as [e|name]; cbn; [repeat split; reflexivity|].
  destruct (ToString name) as [e|text]; cbn; repeat split; reflexivity.
Qed.

(** X10: [publishToNpm] runs one command. When it fails the error of the
    child process is thrown. When it succeeds, a dry run completes
    normally, but a real publish then reads [package.json] to print the link,
    and throws if that read or the read of [name] throws, although the
    package was published. *)
Theorem publish_can_throw_after_publishing (o : Publish.PublishOptions) (w : World) :
  exists cmd,
    spawned (trace_of (Publish.publishToNpm o w)) = [cmd] /\
    ((spawn w cmd).2 <> 0 ->
     completion_of (Publish.publishToNpm o w)
       = Throw (Js.ChildProcessError cmd (spawn w cmd).2)) /\
    ((spawn w cmd).2 = 0 -> is_dry_run o = true ->
     completion_of (Publish.publishToNpm o w) = Normal tt) /\
    ((spawn w cmd).2 = 0 -> is_dry_run o = false ->
     forall e, readJson (spawn w cmd).1 "package.json" = inl e ->
     completion_of (Publish.publishToNpm o w) = Throw e).
Proof.
  destruct (publishToNpm_outcome o w) as (cmd & _ & Hs & _ & Hc).
  exists cmd. split; [exact Hs|]. rewrite Hc. repeat split.
  - intros Hst%Z.eqb_neq. rewrite Hst. reflexivity.
  - intros -> ->. reflexivity.
  - intros -> -> e ->. reflexivity.
Qed.

Lemma updateVersion_returns_new_version_aux (type : Publish.VersionType) (w : World) :
  forall v, completion_of (Publish.updateVersion type w) = Normal v ->
    spawned (trace_of (Publish.updateVersion type w)) = [version_command type] /\
    world_of (Publish.updateVersion type w) = (spawn w (version_command type)).1 /\
    (spawn w (version_command type)).2 = 0 /\
    exists pkg, readJson (spawn w (version_command type)).1 "package.json" = inr pkg /\
                Js.get pkg "version" = inr v.
Proof.
  unfold Publish.updateVersion, version_command. unfold_script.
  unfold trace_of, world_of, completion_of.
  intros v. destruct (readJson w "package.json") as [e|pkg]; cbn; [discriminate|].
  destruct (Js.get pkg "version") as [e|old]; cbn; [discriminate|].
  destruct (spawn w _) as [w' st]. cbn.
  destruct (Z.eqb_spec st 0) as [->|Hst]; cbn; [|discriminate].
  destruct (readJson w' "package.json") as [e|pkg']; cbn; [discriminate|].
  destruct (Js.get pkg' "version") as [e|new] eqn:Hnew; cbn; [discriminate|].
  destruct (ToString old) as [e|oldText]; cbn; [discriminate|].
  destruct (ToString new) as [e|newText]; cbn; [discriminate|].
  intros [= <-]. repeat split. exists pkg'. split; [reflexivity | exact Hnew].
Qed.

(** X11: [updateVersion] does not run [npm version] when the manifest
    cannot be read; when it completes normally the command exited with 0 and
    the value returned is the [version] of the manifest as the command left
    it. *)
Theorem updateVersion_returns_new_version (type : Publish.VersionType) (w : World) :
  let r := Publish.updateVersion type w in
  let after := (spawn w (version_command type)).1 in
  (forall e, readJson w "package.json" = inl e ->
     spawned (trace_of r) = [] /\ world_of r = w /\ completion_of r = Throw e) /\
  (forall v, completion_of r = Normal v ->
     spawned (trace_of r) = [version_command type] /\
     world_of r = after /\
     (spawn w (version_command type)).2 = 0 /\
     exists pkg, readJson after "package.json" = inr pkg /\ Js.get pkg "version" = inr v).
Proof.
  cbn zeta. split.
  - unfold Publish.updateVersion. unfold_script.
    unfold trace_of, world_of, completion_of.
    intros e ->. cbn. repeat split; reflexivity.
  - apply updateVersion_returns_new_version_aux.
Qed.

(** X12: when the build succeeds and the package it leaves is not valid,
    the release ends with the validation error in the world the build left:
    the version is not bumped and nothing is published. *)
Theorem release_aborts_on_invalid_package
    (versionType : Publish.VersionType) (options : Publish.PublishOptions)
    (w : World) (e : Js.error) :
  let built := (spawn w "bun run build.ts prod").1 in
  let r := Publish.publishWithVersionBump versionType options w in
  (spawn w "bun run build.ts prod").2 = 0 ->
  validation_error built = Some e ->
  completion_of r = Throw e /\
  spawned (trace_of r) = ["bun run build.ts prod"] /\
  world_of r = built.
Proof.
  cbn zeta. intros Hst Hval. unfold Publish.publishWithVersionBump.
  rewrite (bind_console_log _ (fun _ => _)).
  pose proof (buildForProduction_run w) as (Hbs & Hbw & Hbc). cbn zeta in Hbs, Hbw, Hbc.
  rewrite (bind_run Publish.buildForProduction).
  destruct (Publish.buildForProduction w) as [[tb wb] cb].
  unfold trace_of, world_of, completion_of in *. cbn [fst snd] in *.
  rewrite Hst in Hbc. change (0 =? 0) with true in Hbc. cbv iota in Hbc. subst cb wb.
  pose proof (validatePackage_run (spawn w "bun run build.ts prod").1) as (Hvw & Hvs & Hvc).
  unfold validatePackage_error in Hvc. rewrite Hval in Hvc.
  rewrite (bind_run Publish.validatePackage).
  destruct (Publish.validatePackage _) as [[tv wv] cv].
  unfold trace_of, world_of, completion_of in *. cbn [fst snd] in *. subst cv wv.
  cbn [fst snd]. repeat split.
  rewrite spawned_stdout, spawned_app, Hbs, Hvs. reflexivity.
Qed.

(** X13: [--dry-run] reaches only the last step: a dry-run release that
    completes has built, has run [npm version], which rewrites the version
    in [package.json], and has then run [bun publish --dry-run]. *)
Theorem dry_run_release_still_bumps
    (versionType : Publish.VersionType) (options : Publish.PublishOptions) (w : World) :
  let r := Publish.publishWithVersionBump versionType options w in
  is_dry_run options = true ->
  completion_of r = Normal tt ->
  exists cmd,
    Js.startsWith cmd "bun publish --dry-run" = true /\
    spawned (trace_of r) = ["bun run build.ts prod"; version_command versionType; cmd].
Proof.
  cbn zeta. intros Hdry. unfold Publish.publishWithVersionBump.
  rewrite (bind_console_log _ (fun _ => _)).
  pose proof (buildForProduction_run w) as (Hbs & _ & _). cbn zeta in Hbs.
  rewrite (bind_run Publish.buildForProduction).
  destruct (Publish.buildForProduction w) as [[tb wb] cb].
  unfold trace_of, world_of, completion_of in *. cbn [fst snd] in *.
  destruct cb as [[]|e|code]; cbn [fst snd]; try discriminate.
  pose proof (validatePackage_run wb) as (_ & Hvs & _).
  rewrite (bind_run Publish.validatePackage).
  destruct (Publish.validatePackage wb) as [[tv wv] cv].
  unfold trace_of, world_of, completion_of in *. cbn [fst snd] in *.
  destruct cv as [[]|e|code]; cbn [fst snd]; try discriminate.
  pose proof (updateVersion_returns_new_version_aux versionType wv) as Hu.
  rewrite (bind_run (Publish.updateVersion versionType)).
  destruct (Publish.updateVersion versionType wv) as [[tu wu] cu].
  unfold trace_of, world_of, completion_of in *. cbn [fst snd] in *.
  destruct cu as [newVersion|e|code]; cbn [fst snd]; try discriminate.
  destruct (Hu newVersion eq_refl) as (Hus & _).
  destruct (publishToNpm_outcome options wu) as (cmd & Hprefix & Hps & _).
  rewrite Hdry in Hprefix.
  rewrite (bind_run (Publish.publishToNpm options)).
  destruct (Publish.publishToNpm options wu) as [[tp wp] cp].
  unfold trace_of, world_of, completion_of in *. cbn [fst snd] in *.
  destruct cp as [[]|e|code]; cbn [fst snd]; try discriminate.
  unfold bind, to_string, throw, ret, console_log.
  destruct (ToString newVersion) as [e|released]; cbn [fst snd app]; [discriminate|].
  intros _. exists cmd. split; [exact Hprefix|].
  rewrite spawned_stdout, !spawned_app, Hbs, Hvs, Hus, Hps. reflexivity.
Qed.
End PublishMore.

(** ** The build scripts *)

Section BuildLaws.
Context `{Bundler}.

Lemma effects_bind {A B} (m : M A) (k : A -> M B) (w : World) :
  effects (bind m k w) =
    match effects (m w) with
    | (s, w', Normal a) => let '(s', w'', c) := effects (k a w') in (s ++ s', w'', c)
    | (s, w', Throw e) => (s, w', Throw e)
    | (s, w', Exit code) => (s, w', Exit code)
    end.
Proof.
  unfold effects, bind, trace_of, world_of, completion_of.
  destruct (m w) as [[t w'] [a|e|code]]; cbn [fst snd]; try reflexivity.
  destruct (k a w') as [[t' w''] c]. cbn [fst snd]. rewrite spawned_app. reflexivity.
Qed.

Lemma effects_try_catch_rethrow {A} (m : M A) (line : string) (w : World) :
  effects (try_catch m (fun error => bind (console_error line) (fun _ => throw error)) w)
  = effects (m w).
Proof.
  unfold effects, try_catch, bind, console_error, throw, trace_of, world_of, completion_of.
  destruct (m w) as [[t w'] [a|e|code]]; cbn [fst snd]; try reflexivity.
  rewrite spawned_app, app_nil_r. reflexivity.
Qed.

Lemma effects_prints_only {B} (m : M unit) (k : unit -> M B) (w : World) :
  prints_only m -> effects (bind m k w) = effects (k tt w).
Proof.
  intros Hm. rewrite effects_bind, (Hm w).
  destruct (effects (k tt w)) as [[s w'] c]. reflexivity.
Qed.

Lemma prints_only_log (line : string) : prints_only (console_log line).
Proof. intros w. reflexivity. Qed.

Lemma prints_only_error (line : string) : prints_only (console_error line).
Proof. intros w. reflexivity. Qed.

Lemma prints_only_ret : prints_only (ret tt).
Proof. intros w. reflexivity. Qed.

Lemma prints_only_bind (m : M unit) (k : unit -> M unit) :
  prints_only m -> prints_only (k tt) -> prints_only (bind m k).
Proof. intros Hm Hk w. rewrite (effects_prints_only m k w Hm). apply Hk. Qed.

Lemma prints_only_when (c : bool) (m : M unit) : prints_only m -> prints_only (when c m).
Proof. destruct c; [trivial | intros _; apply prints_only_ret]. Qed.

Lemma prints_only_for_of {A} (xs : list A) (body : A -> M unit) :
  (forall x, prints_only (body x)) -> prints_only (for_of xs body).
Proof.
  intros Hb. induction xs as [|x xs IH]; [apply prints_only_ret|].
  simpl. apply prints_only_bind; [apply Hb | exact IH].
Qed.
End BuildLaws.

Section BuildSteps.
Context `{Bundler}.

Lemma effects_cleanDist (w : World) :
  effects (BuildRun.cleanDist w) =
    if existsSync w "dist" then
      ([], (rmSync w "dist").1,
       match (rmSync w "dist").2 with
       | None => Normal tt
       | Some e => Throw e
       end)
    else ([], w, Normal tt).
Proof.
  unfold BuildRun.cleanDist, effects, rm_sync. unfold_script.
  unfold trace_of, world_of, completion_of.
  destruct (existsSync w "dist"); cbn; [|reflexivity].
  destruct (rmSync w "dist") as [w' [e|]]; reflexivity.
Qed.

Lemma effects_buildTypes (w : World) :
  effects (BuildRun.buildTypes w) =
    ([tsc_command], (spawn w tsc_command).1,
     if (spawn w tsc_command).2 =? 0 then Normal tt
     else Throw (Js.ChildProcessError tsc_command (spawn w tsc_command).2)).
Proof.
  unfold BuildRun.buildTypes, effects, tsc_command. unfold_script.
  unfold trace_of, world_of, completion_of.
  destruct (spawn w _) as [w' st]; cbn. destruct (st =? 0); reflexivity.
Qed.

Lemma effects_createPackageTarball (w : World) :
  exists c,
    effects (void BuildRun.createPackageTarball w) = ([pack_command], (spawn w pack_command).1, c) /\
    ((spawn w pack_command).2 <> 0 ->
     c = Throw (Js.ChildProcessError pack_command (spawn w pack_command).2)) /\
    (forall code, c <> Exit code).
Proof.
  unfold void, BuildRun.createPackageTarball, effects, pack_command, file_size.
  unfold_script. unfold trace_of, world_of, completion_of.
  assert (Hdone : forall (s : list string) (w1 : World) (st : Z) (c : completion unit),
            (st <> 0 -> c = Throw (Js.ChildProcessError "bun pm pack" st)) ->
            (forall code, c <> Exit code) ->
            exists c', (s, w1, c) = (s, w1, c') /\
                       (st <> 0 -> c' = Throw (Js.ChildProcessError "bun pm pack" st)) /\
                       (forall code, c' <> Exit code))
    by (intros s w1 st c H1 H2; exists c; auto).
  destruct (spawn w _) as [w' st]; cbn.
  destruct (Z.eqb_spec st 0) as [->|Hst]; cbn;
    [|apply Hdone; [reflexivity | discriminate]].
  destruct (readJson w' "package.json") as [e|pkg]; cbn;
    [apply Hdone; [contradiction | discriminate]|].
  destruct (Js.get pkg "name") as [e|name]; cbn;
    [apply Hdone; [contradiction | discriminate]|].
  destruct (ToString name) as [e|nameText]; cbn;
    [apply Hdone; [contradiction | discriminate]|].
  destruct (Js.get pkg "version") as [e|version]; cbn;
    [apply Hdone; [contradiction | discriminate]|].
  destruct (ToString version) as [e|versionText]; cbn;
    [apply Hdone; [contradiction | discriminate]|].
  destruct (existsSync w' _); cbn;
    [|apply Hdone; [contradiction | discriminate]].
  destruct (stat_size w' _); cbn; apply Hdone; contradiction || discriminate.
Qed.
End BuildSteps.

Section BuildBundle.
Context `{Bundler}.

(** What comes after [Bun.build] in [buildBundle]. *)
Lemma effects_after_build (m : BuildRun.BuildOptions) (out : Bun.BuildOutput)
    (k : M Bun.BuildOutput) (w : World) :
  (forall w', effects (k w') = ([], w', Normal out)) ->
  effects (bind (when (negb (Bun.success out))
                   (bind (console_error "❌ Build failed with errors:")
                      (fun _ => bind (for_of (Bun.logs out)
                                        (fun message => console_error (inspect message)))
                                  (fun _ => throw (Js.Error "Build failed")))))
             (fun _ => bind (when (on (BuildRun.pack m)) (void BuildRun.createPackageTarball))
                         (fun _ => k)) w) =
    if Bun.success out then
      if on (BuildRun.pack m) then
        match effects (void BuildRun.createPackageTarball w) with
        | (s, w', Normal _) => (s, w', Normal out)
        | (s, w', Throw e) => (s, w', Throw e)
        | (s, w', Exit code) => (s, w', Exit code)
        end
      else ([], w, Normal out)
    else ([], w, Throw (Js.Error "Build failed")).
Proof.
  intros Hk. rewrite effects_bind.
  destruct (Bun.success out); cbn [negb when].
  - change (effects (ret tt w)) with (([] : list string), w, Normal tt : completion unit).
    cbn iota beta. rewrite effects_bind.
    destruct (on (BuildRun.pack m)); cbn [when].
    + destruct (effects (void BuildRun.createPackageTarball w)) as [[s w'] [[]|e|code]];
        try reflexivity.
      rewrite Hk, app_nil_r. reflexivity.
    + change (effects (ret tt w)) with (([] : list string), w, Normal tt : completion unit).
      cbn iota beta. rewrite Hk. reflexivity.
  - rewrite (effects_prints_only _ _ w (prints_only_error _)).
    rewrite (effects_prints_only (for_of _ _) _ w)
      by (apply prints_only_for_of; intros x; apply prints_only_error).
    reflexivity.
Qed.

Lemma effects_buildBundle (mode : BuildRun.BuildMode) (o : BuildRun.BuildOptions)
    (w : World) :
  let m := BuildRun.spread (BuildRun.OPTIONS mode) o in
  effects (BuildRun.buildBundle mode o w) =
    match effects (BuildRun.cleanDist w) with
    | (_, w1, Normal _) =>
        match (if on (BuildRun.types m) then effects (BuildRun.buildTypes w1)
               else ([], w1, Normal tt)) with
        | (s2, w2, Normal _) =>
            match Bun_build w2 (BuildRun.buildConfig m) with
            | (w3, inl e) => (s2, w3, Throw e)
            | (w3, inr out) =>
                if Bun.success out then
                  if on (BuildRun.pack m) then
                    match effects (void BuildRun.createPackageTarball w3) with
                    | (s4, w4, Normal _) => (s2 ++ s4, w4, Normal out)
                    | (s4, w4, Throw e) => (s2 ++ s4, w4, Throw e)
                    | (s4, w4, Exit code) => (s2 ++ s4, w4, Exit code)
                    end
                  else (s2, w3, Normal out)
                else (s2, w3, Throw (Js.Error "Build failed"))
            end
        | (s2, w2, Throw e) => (s2, w2, Throw e)
        | (s2, w2, Exit code) => (s2, w2, Exit code)
        end
    | (_, w1, Throw e) => ([], w1, Throw e)
    | (_, w1, Exit code) => ([], w1, Exit code)
    end.
Proof.
  cbn zeta. unfold BuildRun.buildBundle. cbn zeta.
  rewrite (effects_prints_only _ _ w (prints_only_log _)).
  rewrite effects_try_catch_rethrow.
  rewrite effects_bind.
  pose proof (effects_cleanDist w) as Hclean.
  destruct (effects (BuildRun.cleanDist w)) as [[s1 w1] c1].
  assert (s1 = []) as -> by (destruct (existsSync w "dist"); congruence).
  destruct c1 as [[]|e|code]; try reflexivity. clear Hclean.
  rewrite effects_bind.
  set (m := BuildRun.spread (BuildRun.OPTIONS mode) o).
  assert (Htypes : effects (when (on (BuildRun.types m)) BuildRun.buildTypes w1) =
                   if on (BuildRun.types m) then effects (BuildRun.buildTypes w1)
                   else ([], w1, Normal tt))
    by (destruct (on (BuildRun.types m)); reflexivity).
  rewrite Htypes. clear Htypes.
  destruct (if on (BuildRun.types m) then effects (BuildRun.buildTypes w1)
            else ([], w1, Normal tt)) as [[s2 w2] [[]|e|code]]; try reflexivity.
  rewrite effects_bind.
  assert (Hbuild : effects (bun_build (BuildRun.buildConfig m) w2) =
            ([], (Bun_build w2 (BuildRun.buildConfig m)).1,
             match (Bun_build w2 (BuildRun.buildConfig m)).2 with
             | inr out => Normal out
             | inl e => Throw e
             end)).
  { unfold bun_build, effects, trace_of, world_of, completion_of.
    destruct (Bun_build w2 _) as [w3 [e|out]]; reflexivity. }
  rewrite Hbuild. clear Hbuild.
  destruct (Bun_build w2 (BuildRun.buildConfig m)) as [w3 [e|out]]; cbn [fst snd].
  { rewrite app_nil_r. reflexivity. }
  rewrite (effects_after_build m out _ w3).
  - destruct (Bun.success out); [|rewrite !app_nil_r; reflexivity].
    destruct (on (BuildRun.pack m)); [|rewrite !app_nil_r; reflexivity].
    destruct (effects (void BuildRun.createPackageTarball w3)) as [[s4 w4] [[]|e|code]];
      reflexivity.
  - intros w'.
    rewrite (effects_prints_only _ _ w' (prints_only_log _)).
    rewrite (effects_prints_only (for_of _ _) _ w')
      by (apply prints_only_for_of; intros x; apply prints_only_log).
    rewrite (effects_prints_only (when _ _) _ w'); [reflexivity|].
    apply prints_only_when, prints_only_bind; [apply prints_only_log|].
    apply prints_only_for_of. intros x. apply prints_only_error.
Qed.
End BuildBundle.

Section BuildScript.
Context `{Bundler}.

Lemma effects_void {A} (m : M A) (w : World) :
  effects (void m w) =
    match effects (m w) with
    | (s, w', Normal _) => (s, w', Normal tt)
    | (s, w', Throw e) => (s, w', Throw e)
    | (s, w', Exit code) => (s, w', Exit code)
    end.
Proof.
  unfold void. rewrite effects_bind.
  destruct (effects (m w)) as [[s w'] [a|e|code]]; try reflexivity.
  change (effects (ret tt w')) with (([] : list string), w', Normal tt : completion unit).
  cbn iota beta. rewrite app_nil_r. reflexivity.
Qed.

(** The merged options: a flag can switch an option of the mode on,
    and no flag switches one off. *)
Lemma merged_switches (mode : BuildRun.BuildMode) (argv : list string) :
  let m := BuildRun.spread (BuildRun.OPTIONS mode)
             (BuildRun.parsed (Build.options (Build.parseCommandLineArgs argv))) in
  let flags := Js.argv_flags argv in
  on (BuildRun.types m) = on (BuildRun.types (BuildRun.OPTIONS mode))
                          || Js.includes flags "--types" /\
  on (BuildRun.pack m) = on (BuildRun.pack (BuildRun.OPTIONS mode))
                         || Js.includes flags "--pack" /\
  on (BuildRun.minify m) = on (BuildRun.minify (BuildRun.OPTIONS mode))
                           || Js.includes flags "--minify" /\
  on (BuildRun.sourcemap m) = on (BuildRun.sourcemap (BuildRun.OPTIONS mode))
                              || Js.includes flags "--sourcemap".
Proof.
  cbn zeta. unfold Build.parseCommandLineArgs, Build.true_or_undefined.
  cbn [Build.options BuildRun.parsed BuildRun.spread BuildRun.types BuildRun.pack
       BuildRun.minify BuildRun.sourcemap Build.types Build.pack Build.minify
       Build.sourcemap].
  destruct mode;
    destruct (Js.includes (Js.argv_flags argv) "--types"),
             (Js.includes (Js.argv_flags argv) "--pack"),
             (Js.includes (Js.argv_flags argv) "--minify"),
             (Js.includes (Js.argv_flags argv) "--sourcemap"); repeat split; reflexivity.
Qed.

(** X16: [scripts/build/index.ts] with the command [local], [dev] or
    [prod] does what the build in that mode does and prints nothing else;
    with no command, or the empty one, it prints the help and then does what
    the build in mode [local] does; for [help] and for any other command it
    prints the help and does nothing else. *)
Theorem build_dispatch (argv : list string) (w : World) :
  let command := Js.argv_command argv in
  let options := BuildRun.parsed (Build.options (Build.parseCommandLineArgs argv)) in
  match build_mode command with
  | Some mode =>
      let '(t, w', c) := void (BuildRun.buildBundle mode options) w in
      BuildRun.main argv w =
        if Js.truthy_string command then (t, w', c)
        else (Stdout BuildRun.helpMessage :: t, w', c)
  | None => BuildRun.main argv w = ([Stdout BuildRun.helpMessage], w, Normal tt)
  end.
Proof.
  cbn zeta. unfold BuildRun.main, build_mode.
  change (Build.command (Build.parseCommandLineArgs argv)) with (Js.argv_command argv).
  destruct (Build.parseCommandLineArgs argv) as [c o] eqn:E.
  assert (c = Js.argv_command argv) as -> by (unfold Build.parseCommandLineArgs in E; congruence).
  cbn [Build.options].
  assert (Htruthy : forall known : string,
            known <> EmptyString ->
            Js.strict_eq (Js.argv_command argv) known = true ->
            Js.truthy_string (Js.argv_command argv) = true).
  { intros known Hknown Heq. destruct (Js.argv_command argv) as [s|]; [|discriminate Heq].
    apply String.eqb_eq in Heq. subst s. destruct known; [contradiction | reflexivity]. }
  destruct (Js.strict_eq (Js.argv_command argv) "local") eqn:Elocal.
  { rewrite (Htruthy "local" ltac:(discriminate) Elocal).
    destruct (void _ w) as [[t w'] c]. reflexivity. }
  destruct (Js.strict_eq (Js.argv_command argv) "dev") eqn:Edev.
  { rewrite (Htruthy "dev" ltac:(discriminate) Edev).
    destruct (void _ w) as [[t w'] c]. reflexivity. }
  destruct (Js.strict_eq (Js.argv_command argv) "prod") eqn:Eprod.
  { rewrite (Htruthy "prod" ltac:(discriminate) Eprod).
    destruct (void _ w) as [[t w'] c]. reflexivity. }
  destruct (Js.strict_eq (Js.argv_command argv) "help"); [reflexivity|].
  destruct (Js.truthy_string (Js.argv_command argv)); cbn [negb when]; [reflexivity|].
  rewrite (bind_console_log _ (fun _ => _)).
  destruct (void _ w) as [[t w'] c]. reflexivity.
Qed.

(** [bun run scripts/build/index.ts], with no command, and a working
    bundler: the help, and then the local build. *)
Example build_without_command_prints_help_and_packs :
  let r := @BuildRun.main Sample.host (SampleBuild.bundler true)
             ["bun"; "scripts/build/index.ts"] Sample.fresh in
  head (trace_of r) = Some (Stdout BuildRun.helpMessage) /\
  spawned (trace_of r) = ["npx tsc -p tsconfig.build.json"; "bun pm pack"] /\
  completion_of r = Normal tt.
Proof. vm_compute. repeat split; reflexivity. Qed.

(** X17: in every mode the build runs [tsc] only if the mode has
    [types] or [--types] is given, and [bun pm pack] only if the mode has
    [pack] or [--pack] is given, in this order; a build that completes has
    run exactly these. So [prod] without flags spawns no process, [dev]
    runs [tsc], and [local] runs [tsc] and then packs. *)
Theorem build_spawns_by_mode (mode : BuildRun.BuildMode) (argv : list string) (w : World) :
  let flags := Js.argv_flags argv in
  let r := BuildRun.buildBundle mode
             (BuildRun.parsed (Build.options (Build.parseCommandLineArgs argv))) w in
  let expected :=
    (if on (BuildRun.types (BuildRun.OPTIONS mode)) || Js.includes flags "--types"
     then [tsc_command] else []) ++
    (if on (BuildRun.pack (BuildRun.OPTIONS mode)) || Js.includes flags "--pack"
     then [pack_command] else []) in
  (exists rest, expected = spawned (trace_of r) ++ rest) /\
  (forall out, completion_of r = Normal out -> spawned (trace_of r) = expected).
Proof.
  cbn zeta.
  pose proof (effects_buildBundle mode
                (BuildRun.parsed (Build.options (Build.parseCommandLineArgs argv))) w) as He.
  cbn zeta in He.
  destruct (merged_switches mode argv) as (Ht & Hp & _). cbn zeta in Ht, Hp.
  rewrite <- Ht, <- Hp.
  set (m := BuildRun.spread _ _) in *.
  set (r := BuildRun.buildBundle _ _ w) in *.
  change (spawned (trace_of r)) with (effects r).1.1.
  change (completion_of r) with (effects r).2.
  rewrite He. clear He.
  rewrite effects_cleanDist.
  assert (Hleaf : forall (s e : list string) (c : completion Bun.BuildOutput) (w' : World),
            (exists rest, e = s ++ rest) ->
            (forall out, c = Normal out -> s = e) ->
            (exists rest, e = (s, w', c).1.1 ++ rest) /\
            (forall out, (s, w', c).2 = Normal out -> (s, w', c).1.1 = e))
    by (intros; split; assumption).
  assert (Hclean : forall w1 : World,
            let after :=
              match (if on (BuildRun.types m) then effects (BuildRun.buildTypes w1)
                     else ([], w1, Normal tt)) with
              | (s2, w2, Normal _) =>
                  match Bun_build w2 (BuildRun.buildConfig m) with
                  | (w3, inl e) => (s2, w3, Throw e)
                  | (w3, inr out) =>
                      if Bun.success out then
                        if on (BuildRun.pack m) then
                          match effects (void BuildRun.createPackageTarball w3) with
                          | (s4, w4, Normal _) => (s2 ++ s4, w4, Normal out)
                          | (s4, w4, Throw e) => (s2 ++ s4, w4, Throw e)
                          | (s4, w4, Exit code) => (s2 ++ s4, w4, Exit code)
                          end
                        else (s2, w3, Normal out)
                      else (s2, w3, Throw (Js.Error "Build failed"))
                  end
              | (s2, w2, Throw e) => (s2, w2, Throw e)
              | (s2, w2, Exit code) => (s2, w2, Exit code)
              end in
            (exists rest,
               (if on (BuildRun.types m) then [tsc_command] else []) ++
               (if on (BuildRun.pack m) then [pack_command] else []) = after.1.1 ++ rest) /\
            (forall out, after.2 = Normal out ->
               after.1.1 =
               (if on (BuildRun.types m) then [tsc_command] else []) ++
               (if on (BuildRun.pack m) then [pack_command] else []))).
  { intros w1. cbn zeta.
    destruct (on (BuildRun.types m)).
    - rewrite effects_buildTypes.
      destruct ((spawn w1 tsc_command).2 =? 0).
      + destruct (Bun_build _ _) as [w3 [e|out]];
          [apply Hleaf; [eexists; reflexivity | discriminate]|].
        destruct (Bun.success out);
          [|apply Hleaf; [eexists; reflexivity | discriminate]].
        destruct (on (BuildRun.pack m));
          [|apply Hleaf; [exists []; reflexivity | reflexivity]].
        destruct (effects_createPackageTarball w3) as (c & -> & _ & _).
        destruct c; apply Hleaf; try (exists []; reflexivity); reflexivity.
      + apply Hleaf; [eexists; reflexivity | discriminate].
    - destruct (Bun_build _ _) as [w3 [e|out]];
        [apply Hleaf; [eexists; reflexivity | discriminate]|].
      destruct (Bun.success out);
        [|apply Hleaf; [eexists; reflexivity | discriminate]].
      destruct (on (BuildRun.pack m));
        [|apply Hleaf; [exists []; reflexivity | reflexivity]].
      destruct (effects_createPackageTarball w3) as (c & -> & _ & _).
      destruct c; apply Hleaf; try (exists []; reflexivity); reflexivity. }
  destruct (existsSync w "dist").
  - destruct (rmSync w "dist").2.
    + apply Hleaf; [eexists; reflexivity | discriminate].
    + apply Hclean.
  - apply Hclean.
Qed.
End BuildScript.

Section BuildFailure.
Context `{Bundler}.

(** X18: a bundle that [Bun.build] reports as unsuccessful fails the
    build of [scripts/build]: the build throws, with [Build failed] unless
    an earlier step had thrown, and the package is never packed, in no mode
    and with no flag. *)
Theorem unsuccessful_bundle_is_not_packed (mode : BuildRun.BuildMode)
    (o : BuildRun.BuildOptions) (w : World) :
  let m := BuildRun.spread (BuildRun.OPTIONS mode) o in
  let r := BuildRun.buildBundle mode o w in
  (forall w', exists out,
      (Bun_build w' (BuildRun.buildConfig m)).2 = inr out /\ Bun.success out = false) ->
  ~ In pack_command (spawned (trace_of r)) /\
  exists e, completion_of r = Throw e /\
    (e = Js.Error "Build failed" \/
     (existsSync w "dist" = true /\ (rmSync w "dist").2 = Some e) \/
     exists status, status <> 0 /\ e = Js.ChildProcessError tsc_command status).
Proof.
  cbn zeta. intros Hfail.
  pose proof (effects_buildBundle mode o w) as He. cbn zeta in He.
  set (m := BuildRun.spread _ _) in *.
  set (r := BuildRun.buildBundle _ _ w) in *.
  change (spawned (trace_of r)) with (effects r).1.1.
  change (completion_of r) with (effects r).2.
  rewrite He. clear He. rewrite effects_cleanDist.
  assert (Htsc : ~ In pack_command [tsc_command])
    by (intros [Heq|[]]; discriminate Heq).
  assert (Htypes : forall w1 : World,
            let after :=
              match (if on (BuildRun.types m) then effects (BuildRun.buildTypes w1)
                     else ([], w1, Normal tt)) with
              | (s2, w2, Normal _) =>
                  match Bun_build w2 (BuildRun.buildConfig m) with
                  | (w3, inl e) => (s2, w3, Throw e)
                  | (w3, inr out) =>
                      if Bun.success out then
                        if on (BuildRun.pack m) then
                          match effects (void BuildRun.createPackageTarball w3) with
                          | (s4, w4, Normal _) => (s2 ++ s4, w4, Normal out)
                          | (s4, w4, Throw e) => (s2 ++ s4, w4, Throw e)
                          | (s4, w4, Exit code) => (s2 ++ s4, w4, Exit code)
                          end
                        else (s2, w3, Normal out)
                      else (s2, w3, Throw (Js.Error "Build failed"))
                  end
              | (s2, w2, Throw e) => (s2, w2, Throw e)
              | (s2, w2, Exit code) => (s2, w2, Exit code)
              end in
            ~ In pack_command after.1.1 /\
            exists e, after.2 = Throw e /\
              (e = Js.Error "Build failed" \/
               exists status, status <> 0 /\ e = Js.ChildProcessError tsc_command status)).
  { intros w1. cbn zeta.
    assert (Hafter : forall (s2 : list string) (w2 : World),
              ~ In pack_command s2 ->
              let after :=
                match Bun_build w2 (BuildRun.buildConfig m) with
                | (w3, inl e) => (s2, w3, Throw e)
                | (w3, inr out) =>
                    if Bun.success out then
                      if on (BuildRun.pack m) then
                        match effects (void BuildRun.createPackageTarball w3) with
                        | (s4, w4, Normal _) => (s2 ++ s4, w4, Normal out)
                        | (s4, w4, Throw e) => (s2 ++ s4, w4, Throw e)
                        | (s4, w4, Exit code) => (s2 ++ s4, w4, Exit code)
                        end
                      else (s2, w3, Normal out)
                    else (s2, w3, Throw (Js.Error "Build failed"))
                end in
              ~ In pack_command after.1.1 /\
              exists e, after.2 = Throw e /\
                (e = Js.Error "Build failed" \/
                 exists status, status <> 0 /\ e = Js.ChildProcessError tsc_command status)).
    { intros s2 w2 Hs2. cbn zeta. destruct (Hfail w2) as (out & Hout & Hsucc).
      destruct (Bun_build w2 _) as [w3 [e|out']]; cbn [snd] in Hout; [discriminate|].
      injection Hout as ->. rewrite Hsucc. cbn [fst snd].
      split; [exact Hs2 | eexists; split; [reflexivity | left; reflexivity]]. }
    destruct (on (BuildRun.types m)).
    - rewrite effects_buildTypes.
      destruct (Z.eqb_spec (spawn w1 tsc_command).2 0) as [_|Hst].
      + apply (Hafter _ _ Htsc).
      + cbn [fst snd]. split; [exact Htsc|].
        eexists; split; [reflexivity|]. right. eexists; split; [exact Hst | reflexivity].
    - apply Hafter. intros []. }
  destruct (existsSync w "dist").
  - destruct (rmSync w "dist").2 as [e|].
    + cbn [fst snd]. split; [intros []|].
      exists e. split; [reflexivity | right; left; split; reflexivity].
    + destruct (Htypes (rmSync w "dist").1) as [Hp (e & He & Hor)].
      split; [exact Hp|]. exists e. split; [exact He|].
      destruct Hor as [Hor|Hor]; [left; exact Hor | right; right; exact Hor].
  - destruct (Htypes w) as [Hp (e & He & Hor)].
    split; [exact Hp|]. exists e. split; [exact He|].
    destruct Hor as [Hor|Hor]; [left; exact Hor | right; right; exact Hor].
Qed.
End BuildFailure.

Section BuildLegacyScript.
Context `{Bundler}.

Lemma legacy_cleanDist : BuildLegacyRun.cleanDist = BuildRun.cleanDist.
Proof. reflexivity. Qed.

Lemma legacy_buildTypes : BuildLegacyRun.buildTypes = BuildRun.buildTypes.
Proof. reflexivity. Qed.

Lemma effects_legacy_createPackageTarball (w : World) :
  effects (void BuildLegacyRun.createPackageTarball w) =
  effects (void BuildRun.createPackageTarball w).
Proof.
  rewrite !effects_void.
  unfold BuildLegacyRun.createPackageTarball, BuildRun.createPackageTarball.
  rewrite !(effects_prints_only _ _ w (prints_only_log _)).
  rewrite !effects_try_catch_rethrow. reflexivity.
Qed.

Lemma effects_legacy_buildBundle (o : BuildLegacyRun.BuildOptions) (w : World) :
  effects (BuildLegacyRun.buildBundle o w) =
    match Bun_build w (BuildLegacyRun.buildConfig
                         (BuildLegacyRun.spread BuildLegacyRun.DEFAULT_OPTIONS o)) with
    | (w', inl e) => ([], w', Throw e)
    | (w', inr out) =>
        if Bun.success out then ([], w', Normal out)
        else ([], w', Throw (Js.Error "Build failed"))
    end.
Proof.
  unfold BuildLegacyRun.buildBundle. cbn zeta.
  rewrite (effects_prints_only _ _ w (prints_only_log _)).
  rewrite effects_try_catch_rethrow, effects_bind.
  set (cfg := BuildLegacyRun.buildConfig _).
  assert (Hbuild : effects (bun_build cfg w) =
            ([], (Bun_build w cfg).1,
             match (Bun_build w cfg).2 with
             | inr out => Normal out
             | inl e => Throw e
             end)).
  { unfold bun_build, effects, trace_of, world_of, completion_of.
    destruct (Bun_build w cfg) as [w3 [e|out]]; reflexivity. }
  rewrite Hbuild. clear Hbuild.
  destruct (Bun_build w cfg) as [w' [e|out]]; cbn [fst snd]; [reflexivity|].
  rewrite effects_bind.
  destruct (Bun.success out); cbn [negb when].
  - change (effects (ret tt w')) with (([] : list string), w', Normal tt : completion unit).
    cbn iota beta.
    rewrite (effects_prints_only _ _ w' (prints_only_log _)).
    rewrite (effects_prints_only (for_of _ _) _ w')
      by (apply prints_only_for_of; intros x; apply prints_only_log).
    rewrite (effects_prints_only (when _ _) _ w'); [reflexivity|].
    apply prints_only_when, prints_only_bind; [apply prints_only_log|].
    apply prints_only_for_of. intros x. apply prints_only_error.
  - rewrite (effects_prints_only _ _ w' (prints_only_error _)).
    rewrite (effects_prints_only (for_of _ _) _ w')
      by (apply prints_only_for_of; intros x; apply prints_only_error).
    reflexivity.
Qed.

(** The shared tail of [buildAll], [developmentBuild] and
    [productionBuild]: bundle, then types, then the optional tarball. *)
Lemma effects_bundle_types_pack (o : BuildLegacyRun.BuildOptions) (line : string)
    (pack : bool) (w : World) :
  effects (bind (void (BuildLegacyRun.buildBundle o))
             (fun _ => bind BuildLegacyRun.buildTypes
                (fun _ => bind (console_log line)
                   (fun _ => when pack (void BuildLegacyRun.createPackageTarball)))) w) =
    match effects (BuildLegacyRun.buildBundle o w) with
    | (_, w1, Normal _) =>
        if (spawn w1 tsc_command).2 =? 0 then
          if pack then
            match effects (void BuildRun.createPackageTarball (spawn w1 tsc_command).1) with
            | (s, w3, c) => (tsc_command :: s, w3, c)
            end
          else ([tsc_command], (spawn w1 tsc_command).1, Normal tt)
        else ([tsc_command], (spawn w1 tsc_command).1,
              Throw (Js.ChildProcessError tsc_command (spawn w1 tsc_command).2))
    | (_, w1, Throw e) => ([], w1, Throw e)
    | (_, w1, Exit code) => ([], w1, Exit code)
    end.
Proof.
  rewrite effects_bind, effects_void.
  pose proof (effects_legacy_buildBundle o w) as Hb.
  destruct (effects (BuildLegacyRun.buildBundle o w)) as [[s1 w1] c1].
  assert (s1 = []) as ->.
  { destruct (Bun_build w _) as [w' [e|out]]; [congruence|].
    destruct (Bun.success out); congruence. }
  clear Hb. destruct c1 as [out|e|code]; try reflexivity.
  rewrite effects_bind, legacy_buildTypes, effects_buildTypes.
  destruct ((spawn w1 tsc_command).2 =? 0); [|reflexivity].
  rewrite (effects_prints_only _ _ _ (prints_only_log _)).
  destruct pack; cbn [when]; [|reflexivity].
  rewrite effects_legacy_createPackageTarball.
  destruct (effects (void BuildRun.createPackageTarball _)) as [[s w3] c]. reflexivity.
Qed.
End BuildLegacyScript.

Section BuildLegacyCommands.
Context `{Bundler}.

Lemma legacy_tail_commands (o : BuildLegacyRun.BuildOptions) (line : string)
    (pack : bool) (w : World) :
  let r := bind (void (BuildLegacyRun.buildBundle o))
             (fun _ => bind BuildLegacyRun.buildTypes
                (fun _ => bind (console_log line)
                   (fun _ => when pack (void BuildLegacyRun.createPackageTarball)))) w in
  let full := [tsc_command] ++ (if pack then [pack_command] else []) in
  (exists rest, full = (effects r).1.1 ++ rest) /\
  ((effects r).2 = Normal tt -> (effects r).1.1 = full) /\
  ((forall w' cfg out, (Bun_build w' cfg).2 = inr out -> Bun.success out = false) ->
   (effects r).1.1 = [] /\ exists e, (effects r).2 = Throw e).
Proof.
  cbn zeta. rewrite effects_bundle_types_pack, effects_legacy_buildBundle.
  destruct (Bun_build w _) as [w1 [e|out]] eqn:Hb.
  { cbn [fst snd].
    split; [eexists; reflexivity|]. split; [discriminate|]. intros _. eauto. }
  destruct (Bun.success out) eqn:Hs.
  - split; [|split].
    + destruct ((spawn w1 tsc_command).2 =? 0); [|exists (if pack then [pack_command] else []); reflexivity].
      destruct pack; [|exists []; reflexivity].
      destruct (effects_createPackageTarball (spawn w1 tsc_command).1) as (c & -> & _ & _).
      exists []. reflexivity.
    + destruct ((spawn w1 tsc_command).2 =? 0); [|discriminate].
      destruct pack; [|reflexivity].
      destruct (effects_createPackageTarball (spawn w1 tsc_command).1) as (c & -> & _ & _).
      reflexivity.
    + intros Hfail.
      pose proof (Hfail w (BuildLegacyRun.buildConfig
                             (BuildLegacyRun.spread BuildLegacyRun.DEFAULT_OPTIONS o)) out)
        as Hout.
      rewrite Hb in Hout. specialize (Hout eq_refl). congruence.
  - cbn [fst snd].
    split; [eexists; reflexivity|]. split; [discriminate|]. intros _. eauto.
Qed.

Lemma effects_when_cleanDist (c : bool) (w : World) :
  exists w1 c1, effects (when c BuildLegacyRun.cleanDist w) = ([], w1, c1) /\
                forall code, c1 <> Exit code.
Proof.
  destruct c; cbn [when].
  - rewrite legacy_cleanDist, effects_cleanDist.
    destruct (existsSync w "dist"); [|do 2 eexists; split; [reflexivity | discriminate]].
    destruct (rmSync w "dist").2; do 2 eexists; (split; [reflexivity | discriminate]).
  - do 2 eexists; split; [reflexivity | discriminate].
Qed.

Lemma legacy_buildAll_commands (o : BuildLegacyRun.BuildOptions) (w : World) :
  let r := BuildLegacyRun.buildAll o w in
  let m := BuildLegacyRun.spread BuildLegacyRun.DEFAULT_OPTIONS o in
  let full := [tsc_command] ++ (if on (BuildLegacyRun.pack m) then [pack_command] else []) in
  (exists rest, full = (effects r).1.1 ++ rest) /\
  ((effects r).2 = Normal tt -> (effects r).1.1 = full) /\
  ((forall w' cfg out, (Bun_build w' cfg).2 = inr out -> Bun.success out = false) ->
   (effects r).1.1 = [] /\ exists e, (effects r).2 = Throw e).
Proof.
  cbn zeta. unfold BuildLegacyRun.buildAll. cbn zeta.
  rewrite (effects_prints_only _ _ w (prints_only_log _)).
  rewrite effects_bind.
  destruct (effects_when_cleanDist
              (on (BuildLegacyRun.clean
                     (BuildLegacyRun.spread BuildLegacyRun.DEFAULT_OPTIONS o))) w)
    as (w1 & c1 & -> & Hexit).
  destruct c1 as [[]|e|code]; [| |destruct (Hexit code eq_refl)].
  - pose proof (legacy_tail_commands
                  (BuildLegacyRun.spread BuildLegacyRun.DEFAULT_OPTIONS o)
                  (Js.nl +:+ "🎉 Build completed successfully!")
                  (on (BuildLegacyRun.pack
                         (BuildLegacyRun.spread BuildLegacyRun.DEFAULT_OPTIONS o))) w1) as Ht.
    cbn zeta in Ht.
    destruct (effects _) as [[s w2] c]. exact Ht.
  - cbn [fst snd]. split; [eexists; reflexivity|]. split; [discriminate|]. eauto.
Qed.
End BuildLegacyCommands.

Section BuildLegacyMain.
Context `{Bundler}.

Lemma legacy_pack_option (argv : list string) :
  on (BuildLegacyRun.pack (BuildLegacyRun.given (BuildLegacy.options argv))) =
    Js.includes (Js.argv_flags argv) "--pack" /\
  on (BuildLegacyRun.pack
        (BuildLegacyRun.spread BuildLegacyRun.DEFAULT_OPTIONS
           (BuildLegacyRun.given (BuildLegacy.options argv)))) =
    Js.includes (Js.argv_flags argv) "--pack".
Proof. split; reflexivity. Qed.

Lemma legacy_main_commands (argv : list string) (w : World) :
  let r := effects (BuildLegacyRun.main argv w) in
  let command := Js.argv_command argv in
  let expected := legacy_commands command (Js.argv_flags argv) in
  (exists rest, expected = r.1.1 ++ rest) /\
  (r.2 = Normal tt -> r.1.1 = expected) /\
  (legacy_full_build command = true ->
   (forall w' cfg out, (Bun_build w' cfg).2 = inr out -> Bun.success out = false) ->
   r.1.1 = [] /\ exists e, r.2 = Throw e).
Proof.
  cbn zeta. unfold BuildLegacyRun.main, legacy_commands, legacy_full_build. cbn zeta.
  set (command := Js.argv_command argv).
  set (options := BuildLegacyRun.given (BuildLegacy.options argv)).
  destruct (legacy_pack_option argv) as [Hp Hp']. fold options in Hp, Hp'.
  rewrite <- Hp.
  destruct (Js.strict_eq command "bundle") eqn:E1.
  { assert (command = Some "bundle") as ->
      by (destruct command; [apply String.eqb_eq in E1; congruence | discriminate]).
    rewrite effects_void, effects_legacy_buildBundle.
    destruct (Bun_build w _) as [w1 [e|out]];
      [|destruct (Bun.success out)]; cbn [fst snd];
      (split; [exists []; reflexivity|]; split; [reflexivity || discriminate | discriminate]). }
  destruct (Js.strict_eq command "types") eqn:E2.
  { assert (command = Some "types") as ->
      by (destruct command; [apply String.eqb_eq in E2; congruence | discriminate]).
    rewrite legacy_buildTypes, effects_buildTypes. cbn [fst snd].
    split; [exists []; reflexivity|]. split; [reflexivity | discriminate]. }
  destruct (Js.strict_eq command "clean") eqn:E3.
  { assert (command = Some "clean") as ->
      by (destruct command; [apply String.eqb_eq in E3; congruence | discriminate]).
    destruct (effects_when_cleanDist true w) as (w1 & c1 & Hc & _). cbn [when] in Hc.
    rewrite Hc. cbn [fst snd].
    split; [exists []; reflexivity|]. split; [reflexivity | discriminate]. }
  destruct (Js.strict_eq command "watch") eqn:E4.
  { assert (command = Some "watch") as ->
      by (destruct command; [apply String.eqb_eq in E4; congruence | discriminate]).
    unfold BuildLegacyRun.developmentBuild. cbn zeta iota.
    rewrite (effects_prints_only _ _ w (prints_only_log _)).
    rewrite effects_try_catch_rethrow.
    rewrite (effects_prints_only _ _ w (prints_only_log _)).
    rewrite (effects_prints_only _ _ w (prints_only_log _)).
    fold watch_command.
    assert (Hx : (effects (execSync watch_command w)).1.1 = [watch_command]).
    { unfold effects, execSync, trace_of. unfold_script.
      destruct (spawn w watch_command) as [w1 st]. cbn.
      destruct (st =? 0); reflexivity. }
    rewrite Hx.
    split; [exists []; reflexivity|]. split; [reflexivity | discriminate]. }
  destruct (Js.strict_eq command "dev") eqn:E5.
  { unfold BuildLegacyRun.developmentBuild. cbn zeta iota.
    rewrite (effects_prints_only _ _ w (prints_only_log _)).
    destruct (legacy_tail_commands
                {| BuildLegacyRun.clean := Js.Val true;
                   BuildLegacyRun.minify := Js.Val false;
                   BuildLegacyRun.sourcemap := Js.Val true;
                   BuildLegacyRun.watch := Js.Missing;
                   BuildLegacyRun.pack := Js.Missing;
                   BuildLegacyRun.target := Js.Val "bun";
                   BuildLegacyRun.format := Js.Val "esm" |}
                (Js.nl +:+ "🎉 Development build completed!")
                (on (BuildLegacyRun.pack options)) w) as (H1 & H2 & H3).
    split; [exact H1|]. split; [exact H2|]. intros _. exact H3. }
  destruct (Js.strict_eq command "prod") eqn:E6.
  { unfold BuildLegacyRun.productionBuild.
    rewrite (effects_prints_only _ _ w (prints_only_log _)).
    destruct (legacy_tail_commands
                {| BuildLegacyRun.clean := Js.Val true;
                   BuildLegacyRun.minify := Js.Val true;
                   BuildLegacyRun.sourcemap := Js.Val false;
                   BuildLegacyRun.watch := Js.Missing;
                   BuildLegacyRun.pack := Js.Missing;
                   BuildLegacyRun.target := Js.Val "bun";
                   BuildLegacyRun.format := Js.Val "esm" |}
                (Js.nl +:+ "🎉 Production build completed!")
                (on (BuildLegacyRun.pack options)) w) as (H1 & H2 & H3).
    split; [exact H1|]. split; [exact H2|]. intros _. exact H3. }
  destruct (Js.strict_eq command "all") eqn:E7.
  { destruct (legacy_buildAll_commands options w) as (H1 & H2 & H3).
    cbn zeta in H1, H2, H3. rewrite Hp' in H1, H2. rewrite Hp.
    split; [exact H1|]. split; [exact H2|]. intros _. exact H3. }
  rewrite (effects_prints_only _ _ w (prints_only_log _)).
  destruct (Js.truthy_string command); cbn [negb when orb].
  { split; [exists []; reflexivity|]. split; [reflexivity | discriminate]. }
  destruct (legacy_buildAll_commands options w) as (H1 & H2 & H3).
  cbn zeta in H1, H2, H3. rewrite Hp' in H1, H2. rewrite Hp.
  split; [exact H1|]. split; [exact H2|]. intros _. exact H3.
Qed.

(** X20: the processes [build.ts] launches, by command: [bundle] and
    [clean] launch none, [types] runs [tsc], [watch] runs the watching
    bundler, and [dev], [prod], [all] and the absent command run [tsc]
    (after the bundle) and then, with [--pack] only, [bun pm pack]; an
    unrecognized command launches nothing. A run spawns an initial part
    of this list, and all of it when it completes. *)
Theorem legacy_build_commands (argv : list string) (w : World) :
  let r := BuildLegacyRun.main argv w in
  let expected := legacy_commands (Js.argv_command argv) (Js.argv_flags argv) in
  (exists rest, expected = spawned (trace_of r) ++ rest) /\
  (completion_of r = Normal tt -> spawned (trace_of r) = expected).
Proof.
  cbn zeta. destruct (legacy_main_commands argv w) as (H1 & H2 & _).
  split; [exact H1 | exact H2].
Qed.

(** X21: in [build.ts] the bundle comes before the type
    definitions: when [Bun.build] does not report success, [dev], [prod],
    [all] and the default build throw without having launched any process. *)
Theorem legacy_unsuccessful_bundle_stops_before_types (argv : list string) (w : World) :
  let r := BuildLegacyRun.main argv w in
  legacy_full_build (Js.argv_command argv) = true ->
  (forall w' cfg out, (Bun_build w' cfg).2 = inr out -> Bun.success out = false) ->
  spawned (trace_of r) = [] /\ exists e, completion_of r = Throw e.
Proof.
  cbn zeta. intros Hc Hfail.
  destruct (legacy_main_commands argv w) as (_ & _ & H3). exact (H3 Hc Hfail).
Qed.
End BuildLegacyMain.

Section BuildLegacyFlags.
Context `{Bundler}.

(** X22: [build.ts dev], [prod] and [watch] build with a fixed
    configuration: of the flags only [--pack] is read (and by [watch] not
    even that), so [--minify], [--sourcemap], [--no-clean], [--target=] and
    [--format=] change nothing of what the script does. *)
Theorem legacy_fixed_builds_ignore_flags (argv argv' : list string) (w : World) :
  Js.argv_command argv' = Js.argv_command argv ->
  In (Js.argv_command argv) [Some "dev"; Some "prod"; Some "watch"] ->
  (Js.argv_command argv <> Some "watch" ->
   Js.includes (Js.argv_flags argv') "--pack" = Js.includes (Js.argv_flags argv) "--pack") ->
  BuildLegacyRun.main argv' w = BuildLegacyRun.main argv w.
Proof.
  intros Hc Hin Hpack. unfold BuildLegacyRun.main. cbn zeta. rewrite Hc.
  destruct (legacy_pack_option argv) as [Hp _].
  destruct (legacy_pack_option argv') as [Hp' _].
  destruct Hin as [E|[E|[E|[]]]]; rewrite <- E in *;
    cbn [Js.strict_eq String.eqb Ascii.eqb Bool.eqb].
  - unfold BuildLegacyRun.developmentBuild.
    rewrite Hp, Hp', Hpack; [reflexivity | discriminate].
  - unfold BuildLegacyRun.productionBuild.
    rewrite Hp, Hp', Hpack; [reflexivity | discriminate].
  - reflexivity.
Qed.

(** X23: [build.ts] with a command it does not know prints the help
    and nothing else; with no command, or the empty one, it prints the help
    and then builds everything as [all] does. *)
Theorem legacy_build_default (argv : list string) (w : World) :
  let command := Js.argv_command argv in
  let options := BuildLegacyRun.given (BuildLegacy.options argv) in
  (forall known, In known ["bundle"; "types"; "clean"; "watch"; "dev"; "prod"; "all"] ->
                 command <> Some known) ->
  BuildLegacyRun.main argv w =
    if Js.truthy_string command
    then ([Stdout BuildLegacyRun.helpMessage], w, Normal tt)
    else let '(t, w', c) := BuildLegacyRun.buildAll options w in
         (Stdout BuildLegacyRun.helpMessage :: t, w', c).
Proof.
  cbn zeta. intros Hknown. unfold BuildLegacyRun.main. cbn zeta.
  assert (Hneq : forall known,
            In known ["bundle"; "types"; "clean"; "watch"; "dev"; "prod"; "all"] ->
            Js.strict_eq (Js.argv_command argv) known = false).
  { intros known Hin. specialize (Hknown known Hin).
    destruct (Js.argv_command argv) as [c|]; [|reflexivity].
    cbn. apply String.eqb_neq. congruence. }
  rewrite !Hneq by (cbn; tauto).
  destruct (Js.truthy_string (Js.argv_command argv)); cbn [negb when]; [reflexivity|].
  unfold bind, console_log.
  destruct (BuildLegacyRun.buildAll _ w) as [[t w'] c]. reflexivity.
Qed.
End BuildLegacyFlags.

Section BuildConfigs.
Context `{Bundler}.

Lemma or_else_some (x : option string) (fallback : string) :
  exists t, or_else x (Some fallback) = Some t.
Proof. unfold or_else. destruct (Js.truthy_string x) eqn:E; [|eauto].
       destruct x; [eauto | discriminate]. Qed.

(** X19: the configuration [scripts/build] hands to [Bun.build], by
    mode and flags: a flag can switch minification or source maps on and
    never off, so a production bundle is always minified and drops
    [console] and [debugger]; target and format are the flag's value when
    it is not empty, else [bun] and [esm]. *)
Theorem build_config_by_mode (mode : BuildRun.BuildMode) (argv : list string) :
  let flags := Js.argv_flags argv in
  let cfg := BuildRun.buildConfig
               (BuildRun.spread (BuildRun.OPTIONS mode)
                  (BuildRun.parsed (Build.options (Build.parseCommandLineArgs argv)))) in
  let minified := on (BuildRun.minify (BuildRun.OPTIONS mode))
                  || Js.includes flags "--minify" in
  let mapped := on (BuildRun.sourcemap (BuildRun.OPTIONS mode))
                || Js.includes flags "--sourcemap" in
  Bun.minify cfg = Js.Val minified /\
  Bun.drop cfg = (if minified then ["console"; "debugger"] else []) /\
  Bun.sourcemap cfg = (if mapped then Bun.linked else Bun.none) /\
  Bun.target cfg = Js.of_option (or_else (valued_flag "--target=" flags) (Some "bun")) /\
  Bun.format cfg = Js.of_option (or_else (valued_flag "--format=" flags) (Some "esm")).
Proof.
  cbn zeta. unfold Build.parseCommandLineArgs, Build.true_or_undefined, or_else.
  cbn [Build.options BuildRun.parsed BuildRun.spread BuildRun.buildConfig
       Bun.minify Bun.drop Bun.sourcemap Bun.target Bun.format
       BuildRun.minify BuildRun.sourcemap BuildRun.target BuildRun.format
       Build.minify Build.sourcemap Build.target Build.format].
  destruct (Js.includes (Js.argv_flags argv) "--minify"),
           (Js.includes (Js.argv_flags argv) "--sourcemap"),
           (valued_flag "--target=" (Js.argv_flags argv)) as [[|c t]|],
           (valued_flag "--format=" (Js.argv_flags argv)) as [[|c' f]|];
    destruct mode; repeat split; reflexivity.
Qed.

(** X24: in [build.ts] the command line sets every key of the
    options, so [DEFAULT_OPTIONS] never applies to a build started from the
    command line: without [--minify] the bundle of [all] and [bundle] is not
    minified, although the default is [minify: true]. *)
Theorem legacy_defaults_never_apply (argv : list string) :
  let options := BuildLegacyRun.given (BuildLegacy.options argv) in
  let merged := BuildLegacyRun.spread BuildLegacyRun.DEFAULT_OPTIONS options in
  BuildLegacyRun.minify BuildLegacyRun.DEFAULT_OPTIONS = Js.Val true /\
  merged = options /\
  Bun.minify (BuildLegacyRun.buildConfig merged) =
    Js.Val (Js.includes (Js.argv_flags argv) "--minify") /\
  Bun.drop (BuildLegacyRun.buildConfig merged) =
    (if Js.includes (Js.argv_flags argv) "--minify" then ["console"; "debugger"] else []).
Proof.
  cbn zeta.
  assert (Hm : BuildLegacyRun.spread BuildLegacyRun.DEFAULT_OPTIONS
                 (BuildLegacyRun.given (BuildLegacy.options argv)) =
               BuildLegacyRun.given (BuildLegacy.options argv)).
  { unfold BuildLegacyRun.spread, BuildLegacyRun.given, BuildLegacy.options.
    cbn [BuildLegacyRun.clean BuildLegacyRun.minify BuildLegacyRun.sourcemap
         BuildLegacyRun.watch BuildLegacyRun.pack BuildLegacyRun.target
         BuildLegacyRun.format BuildLegacy.clean BuildLegacy.minify
         BuildLegacy.sourcemap BuildLegacy.watch BuildLegacy.pack
         BuildLegacy.target BuildLegacy.format Js.spread].
    destruct (or_else_some (valued_flag "--target=" (Js.argv_flags argv)) "bun") as [t ->].
    destruct (or_else_some (valued_flag "--format=" (Js.argv_flags argv)) "esm") as [f ->].
    reflexivity. }
  rewrite Hm. repeat split; reflexivity.
Qed.
End BuildConfigs.

(** ** The command line of the publish script *)

Section PublishCommandLine.
Context `{Host}.
Variable showPackageInfo : M unit.

Lemma release_spawns (type : Publish.VersionType) (o : Publish.PublishOptions)
    (publish : string) (w : World) :
  (forall w', spawned (trace_of (Publish.publishToNpm o w')) = [publish]) ->
  let expected := ["bun run build.ts prod"; version_command type; publish] in
  exists s w' c,
    effects (Publish.publishWithVersionBump type o w) = (s, w', c) /\
    (exists rest, expected = s ++ rest) /\
    (c = Normal tt -> s = expected).
Proof.
  intros Hpublish. cbn zeta. unfold Publish.publishWithVersionBump.
  rewrite (effects_prints_only _ _ w (prints_only_log _)).
  rewrite effects_bind.
  pose proof (buildForProduction_run w) as (Hbs & Hbw & Hbc). cbn zeta in Hbs, Hbw, Hbc.
  unfold effects at 1. rewrite Hbs, Hbw, Hbc. clear Hbs Hbw Hbc.
  destruct ((spawn w "bun run build.ts prod").2 =? 0);
    [|do 3 eexists; split; [reflexivity|]; split; [eexists; reflexivity | discriminate]].
  set (w1 := (spawn w "bun run build.ts prod").1).
  rewrite effects_bind.
  pose proof (validatePackage_run w1) as (Hvw & Hvs & Hvc).
  unfold effects at 1. rewrite Hvs, Hvw, Hvc. clear Hvs Hvw Hvc.
  destruct (validatePackage_error w1) as [e|];
    [do 3 eexists; split; [reflexivity|]; split; [eexists; reflexivity | discriminate]|].
  rewrite effects_bind.
  pose proof (updateVersion_run type w1) as Hu. cbn zeta in Hu.
  fold (version_command type) in Hu.
  unfold effects at 1.
  destruct Hu as [(Hus & Huw & e & Huc)|(Hus & Huw & _)]; rewrite Hus, Huw.
  { rewrite Huc.
    do 3 eexists; split; [reflexivity|]; split; [eexists; reflexivity | discriminate]. }
  destruct (completion_of (Publish.updateVersion type w1)) as [newVersion|e|code];
    [|do 3 eexists; split; [reflexivity|]; split; [eexists; reflexivity | discriminate] ..].
  set (w2 := (spawn w1 (version_command type)).1).
  rewrite effects_bind.
  unfold effects at 1. rewrite Hpublish.
  destruct (completion_of (Publish.publishToNpm o w2)) as [[]|e|code];
    [|do 3 eexists; split; [reflexivity|]; split; [exists []; reflexivity | discriminate] ..].
  rewrite effects_bind. unfold to_string.
  destruct (ToString newVersion) as [e|released];
    [do 3 eexists; split; [reflexivity|]; split; [exists []; reflexivity | discriminate]|].
  do 3 eexists; split; [reflexivity|]. split; [exists []; reflexivity | reflexivity].
Qed.
End PublishCommandLine.

Section PublishMainTheorems.
Context `{Host}.
Variable showPackageInfo : M unit.

(** X14: [bun run publish.ts patch|minor|major] launches, in this
    order, the production build, [npm version] with the bump the command
    names, and [bun publish] with the flags of the command line; a run
    launches an initial part of the three, and all of them when it
    completes. *)
Theorem release_commands_from_command_line (argv : list string)
    (type : Publish.VersionType) (w : World) :
  release_type (Js.argv_command argv) = Some type ->
  let r := PublishMain.main showPackageInfo argv w in
  let expected := ["bun run build.ts prod"; version_command type;
                   publish_command (Js.argv_flags argv)] in
  (exists rest, expected = spawned (trace_of r) ++ rest) /\
  (completion_of r = Normal tt -> spawned (trace_of r) = expected).
Proof.
  intros Htype. cbn zeta.
  assert (E : PublishMain.main showPackageInfo argv w =
              Publish.publishWithVersionBump type (Publish.options argv) w).
  { unfold PublishMain.main, release_type in *. cbn zeta.
    destruct (Js.strict_eq (Js.argv_command argv) "patch"); [congruence|].
    destruct (Js.strict_eq (Js.argv_command argv) "minor"); [congruence|].
    destruct (Js.strict_eq (Js.argv_command argv) "major"); [congruence | discriminate]. }
  rewrite E.
  destruct (release_spawns type (Publish.options argv)
              (publish_command (Js.argv_flags argv)) w
              (fun w' => publishToNpm_command argv w'))
    as (s & w' & c & He & Hpre & Heq).
  cbn zeta in Hpre, Heq.
  change (spawned (trace_of ?r)) with (effects r).1.1.
  change (completion_of ?r) with (effects r).2.
  rewrite He. split; [exact Hpre | exact Heq].
Qed.

(** X15: [publish.ts] with a command other than [patch], [minor],
    [major] and [info] prints the help and does nothing else: no build, no
    version bump and no upload. The help names no [publish] command, and
    there is none. *)
Theorem unrecognized_publish_command_releases_nothing (argv : list string) (w : World) :
  let command := Js.argv_command argv in
  Js.truthy_string command = true ->
  release_type command = None ->
  command <> Some "info" ->
  PublishMain.main showPackageInfo argv w
    = ([Stdout PublishMain.helpMessage], w, Normal tt).
Proof.
  cbn zeta. intros Htruthy Htype Hinfo. unfold PublishMain.main, release_type in *.
  cbn zeta.
  destruct (Js.strict_eq (Js.argv_command argv) "patch"); [discriminate|].
  destruct (Js.strict_eq (Js.argv_command argv) "minor"); [discriminate|].
  destruct (Js.strict_eq (Js.argv_command argv) "major"); [discriminate|].
  destruct (Js.strict_eq (Js.argv_command argv) "info") eqn:E.
  { destruct (Js.argv_command argv) as [c|]; [|discriminate].
    apply String.eqb_eq in E. congruence. }
  rewrite Htruthy. reflexivity.
Qed.
End PublishMainTheorems.

(** [bun run publish.ts minor --dry --tag=next] *)
Lemma release_commands_from_command_line_witness :
  let argv := ["bun"; "publish.ts"; "minor"; "--dry"; "--tag=next"] in
  let r := @PublishMain.main Sample.host (@ret Sample.host unit tt) argv Sample.fresh in
  completion_of r = Normal tt /\
  spawned (trace_of r)
    = ["bun run build.ts prod"; "npm version minor --no-git-tag-version";
       "bun publish --dry-run --tag next"].
Proof.
  cbv zeta.
  assert (Hc : completion_of
                 (@PublishMain.main Sample.host (@ret Sample.host unit tt)
                    ["bun"; "publish.ts"; "minor"; "--dry"; "--tag=next"] Sample.fresh)
               = Normal tt) by (vm_compute; reflexivity).
  split; [exact Hc|].
  exact (proj2 (@release_commands_from_command_line Sample.host (@ret Sample.host unit tt)
                  ["bun"; "publish.ts"; "minor"; "--dry"; "--tag=next"] Publish.minor
                  Sample.fresh eq_refl) Hc).
Defined.

(** [bun run publish.ts publish] *)
Lemma unrecognized_publish_command_releases_nothing_witness :
  @PublishMain.main Sample.host (@ret Sample.host unit tt) ["bun"; "publish.ts"; "publish"]
    Sample.fresh
  = ([Stdout PublishMain.helpMessage], Sample.fresh, Normal tt).
Proof.
  apply (@unrecognized_publish_command_releases_nothing Sample.host (@ret Sample.host unit tt)
           ["bun"; "publish.ts"; "publish"] Sample.fresh);
    [reflexivity | reflexivity | discriminate].
Defined.

(** ** Concrete runs of the scripts *)

(** [coverage --cov sum.test.ts] against [coverage sum.test.ts --cov --cov --help]. *)
Lemma options_depend_on_known_flags_witness :
  TestScript.options
    (TestScript.parseCommandLineArgs ["bun"; "index.ts"; "coverage"; "--cov"; "sum.test.ts"])
  = TestScript.options
      (TestScript.parseCommandLineArgs
         ["bun"; "index.ts"; "coverage"; "sum.test.ts"; "--cov"; "--cov"; "--help"]) /\
  TestLegacy.options ["bun"; "index.ts"; "coverage"; "--cov"; "sum.test.ts"]
  = TestLegacy.options ["bun"; "index.ts"; "coverage"; "sum.test.ts"; "--cov"; "--cov"; "--help"].
Proof.
  apply (options_depend_on_known_flags "bun" "index.ts" "coverage"
           ["--cov"; "sum.test.ts"] ["sum.test.ts"; "--cov"; "--cov"; "--help"]).
  intros flag Hflag. unfold test_flags in Hflag. simpl in Hflag.
  destruct Hflag as [<-|[<-|[<-|[<-|[<-|[<-|[]]]]]]]; simpl;
    (split; intros Hin; repeat (destruct Hin as [Hin|Hin]; try discriminate Hin); auto).
Defined.

(** [bun run scripts/test/index.ts coverage] and [bun run test.ts coverage]. *)
Lemma coverage_command_needs_flag_witness :
  let argv := ["bun"; "index.ts"; "coverage"] in
  spawned (trace_of (@TestScript.main Sample.host argv Sample.fresh)) = ["bun test"] /\
  spawned (trace_of (@TestLegacy.main Sample.host argv Sample.fresh)) = ["bun test --coverage"].
Proof.
  apply (@coverage_command_needs_flag Sample.host ["bun"; "index.ts"; "coverage"] Sample.fresh).
  reflexivity.
Defined.

(** [file sum.test.ts --verbose] *)
Lemma file_command_always_watches_witness :
  let argv := ["bun"; "index.ts"; "file"; "sum.test.ts"; "--verbose"] in
  spawned (trace_of (@TestScript.main Sample.host argv Sample.fresh))
    = ["bun test sum.test.ts --watch --verbose"] /\
  spawned (trace_of (@TestLegacy.main Sample.host argv Sample.fresh))
    = ["bun test sum.test.ts --watch --verbose"].
Proof.
  apply (@file_command_always_watches Sample.host
           ["bun"; "index.ts"; "file"; "sum.test.ts"; "--verbose"] "sum.test.ts" Sample.fresh);
    [reflexivity | reflexivity | discriminate].
Defined.

(** A real publish on a checkout whose manifest cannot be read after the
    upload: the package is published and the script throws. *)
Lemma publish_can_throw_after_publishing_witness :
  let w := {| Sample.paths := Sample.paths Sample.fresh;
              Sample.manifest := inl (Js.Error "Unexpected end of JSON input");
              Sample.failing := [] |} in
  let r := @Publish.publishToNpm Sample.host (Publish.options ["bun"; "publish.ts"; "publish"]) w in
  spawned (trace_of r) = ["bun publish"] /\
  completion_of r = Throw (Js.Error "Unexpected end of JSON input").
Proof.
  cbv zeta.
  destruct (@publish_can_throw_after_publishing Sample.host
              (Publish.options ["bun"; "publish.ts"; "publish"])
              {| Sample.paths := Sample.paths Sample.fresh;
                 Sample.manifest := inl (Js.Error "Unexpected end of JSON input");
                 Sample.failing := [] |}) as (cmd & Hs & _ & _ & Hthrow).
  split; [vm_compute; reflexivity|].
  assert (Hcmd : cmd = "bun publish") by (vm_compute in Hs; congruence).
  subst cmd. apply Hthrow; reflexivity.
Defined.

(** [npm version patch] on the sample checkout. *)
Lemma updateVersion_returns_new_version_witness :
  let r := @Publish.updateVersion Sample.host Publish.patch Sample.fresh in
  completion_of r = Normal (Js.VString "0.0.1") /\
  spawned (trace_of r) = ["npm version patch --no-git-tag-version"].
Proof.
  cbv zeta.
  assert (Hc : completion_of (@Publish.updateVersion Sample.host Publish.patch Sample.fresh)
               = Normal (Js.VString "0.0.1")) by (vm_compute; reflexivity).
  split; [exact Hc|].
  exact (proj1 (proj2 (@updateVersion_returns_new_version Sample.host Publish.patch Sample.fresh)
                  (Js.VString "0.0.1") Hc)).
Defined.

(** A release on a checkout that has no [README.md]. *)
Lemma release_aborts_on_invalid_package_witness :
  let w := {| Sample.paths := ["package.json"; "index.ts"];
              Sample.manifest := inr Sample.package_json;
              Sample.failing := [] |} in
  let r := @Publish.publishWithVersionBump Sample.host Publish.patch
             (Publish.options ["bun"; "publish.ts"; "patch"]) w in
  completion_of r = Throw (Js.Error "Missing required file: README.md") /\
  spawned (trace_of r) = ["bun run build.ts prod"] /\
  world_of r = Sample.built w.
Proof.
  apply (@release_aborts_on_invalid_package Sample.host Publish.patch
           (Publish.options ["bun"; "publish.ts"; "patch"])
           {| Sample.paths := ["package.json"; "index.ts"];
              Sample.manifest := inr Sample.package_json;
              Sample.failing := [] |}
           (Js.Error "Missing required file: README.md")).
  - reflexivity.
  - vm_compute. reflexivity.
Defined.

(** [bun run publish.ts minor --dry-run] on the sample checkout. *)
Lemma dry_run_release_still_bumps_witness :
  exists cmd,
    Js.startsWith cmd "bun publish --dry-run" = true /\
    spawned (trace_of (@Publish.publishWithVersionBump Sample.host Publish.minor
                         (Publish.options ["bun"; "publish.ts"; "minor"; "--dry-run"])
                         Sample.fresh))
      = ["bun run build.ts prod"; "npm version minor --no-git-tag-version"; cmd].
Proof.
  apply (@dry_run_release_still_bumps Sample.host Publish.minor
           (Publish.options ["bun"; "publish.ts"; "minor"; "--dry-run"]) Sample.fresh).
  - reflexivity.
  - vm_compute. reflexivity.
Defined.

(** [bun run scripts/build/index.ts prod --pack] with a working bundler. *)
Lemma build_spawns_by_mode_witness :
  let argv := ["bun"; "scripts/build/index.ts"; "prod"; "--pack"] in
  let r := @BuildRun.buildBundle Sample.host (SampleBuild.bundler true) BuildRun.production
             (BuildRun.parsed (Build.options (Build.parseCommandLineArgs argv)))
             Sample.fresh in
  (exists out, completion_of r = Normal out) /\
  spawned (trace_of r) = ["bun pm pack"].
Proof.
  cbv zeta.
  assert (Hc : exists out,
            completion_of
              (@BuildRun.buildBundle Sample.host (SampleBuild.bundler true) BuildRun.production
                 (BuildRun.parsed
                    (Build.options
                       (Build.parseCommandLineArgs
                          ["bun"; "scripts/build/index.ts"; "prod"; "--pack"])))
                 Sample.fresh) = Normal out)
    by (eexists; vm_compute; reflexivity).
  split; [exact Hc|]. destruct Hc as [out Hout].
  exact (proj2 (@build_spawns_by_mode Sample.host (SampleBuild.bundler true)
                  BuildRun.production
                  ["bun"; "scripts/build/index.ts"; "prod"; "--pack"] Sample.fresh) out Hout).
Defined.

(** [local], which packs, with a bundler that reports an error. *)
Lemma unsuccessful_bundle_is_not_packed_witness :
  let r := @BuildRun.buildBundle Sample.host (SampleBuild.bundler false) BuildRun.local
             (BuildRun.parsed (Build.options (Build.parseCommandLineArgs
                                                ["bun"; "index.ts"; "local"])))
             Sample.fresh in
  ~ In pack_command (spawned (trace_of r)) /\
  exists e, completion_of r = Throw e /\
    (e = Js.Error "Build failed" \/
     (@existsSync Sample.host Sample.fresh "dist" = true /\
      (@rmSync Sample.host (SampleBuild.bundler false) Sample.fresh "dist").2 = Some e) \/
     exists status, status <> 0 /\ e = Js.ChildProcessError tsc_command status).
Proof.
  apply (@unsuccessful_bundle_is_not_packed Sample.host (SampleBuild.bundler false)
           BuildRun.local
           (BuildRun.parsed (Build.options (Build.parseCommandLineArgs
                                              ["bun"; "index.ts"; "local"])))
           Sample.fresh).
  intros w'. eexists. split; reflexivity.
Defined.

(** [bun run build.ts all --pack] *)
Lemma legacy_build_commands_witness :
  let argv := ["bun"; "build.ts"; "all"; "--pack"] in
  let r := @BuildLegacyRun.main Sample.host (SampleBuild.bundler true) argv Sample.fresh in
  completion_of r = Normal tt /\
  spawned (trace_of r) = ["npx tsc -p tsconfig.build.json"; "bun pm pack"].
Proof.
  cbv zeta.
  assert (Hc : completion_of
                 (@BuildLegacyRun.main Sample.host (SampleBuild.bundler true)
                    ["bun"; "build.ts"; "all"; "--pack"] Sample.fresh) = Normal tt)
    by (vm_compute; reflexivity).
  split; [exact Hc|].
  exact (proj2 (@legacy_build_commands Sample.host (SampleBuild.bundler true)
                  ["bun"; "build.ts"; "all"; "--pack"] Sample.fresh) Hc).
Defined.

(** [bun run build.ts prod --pack] with a bundler that reports an error. *)
Lemma legacy_unsuccessful_bundle_stops_before_types_witness :
  let r := @BuildLegacyRun.main Sample.host (SampleBuild.bundler false)
             ["bun"; "build.ts"; "prod"; "--pack"] Sample.fresh in
  spawned (trace_of r) = [] /\ exists e, completion_of r = Throw e.
Proof.
  apply (@legacy_unsuccessful_bundle_stops_before_types Sample.host (SampleBuild.bundler false)
           ["bun"; "build.ts"; "prod"; "--pack"] Sample.fresh).
  - reflexivity.
  - intros w' cfg out Hout. injection Hout as <-. reflexivity.
Defined.

(** [prod --minify --target=node --pack] against [prod --pack]. *)
Lemma legacy_fixed_builds_ignore_flags_witness :
  @BuildLegacyRun.main Sample.host (SampleBuild.bundler true)
    ["bun"; "build.ts"; "prod"; "--sourcemap"; "--target=node"; "--no-clean"; "--pack"]
    Sample.fresh
  = @BuildLegacyRun.main Sample.host (SampleBuild.bundler true)
      ["bun"; "build.ts"; "prod"; "--pack"] Sample.fresh.
Proof.
  apply (@legacy_fixed_builds_ignore_flags Sample.host (SampleBuild.bundler true)
           ["bun"; "build.ts"; "prod"; "--pack"]
           ["bun"; "build.ts"; "prod"; "--sourcemap"; "--target=node"; "--no-clean"; "--pack"]
           Sample.fresh).
  - reflexivity.
  - simpl. auto.
  - intros _. reflexivity.
Defined.

(** [bun run build.ts lint] *)
Lemma legacy_build_default_witness :
  @BuildLegacyRun.main Sample.host (SampleBuild.bundler true) ["bun"; "build.ts"; "lint"]
    Sample.fresh
  = ([Stdout BuildLegacyRun.helpMessage], Sample.fresh, Normal tt).
Proof.
  apply (@legacy_build_default Sample.host (SampleBuild.bundler true)
           ["bun"; "build.ts"; "lint"] Sample.fresh).
  intros known Hin. simpl in Hin.
  destruct Hin as [<-|[<-|[<-|[<-|[<-|[<-|[<-|[]]]]]]]]; discriminate.
Defined.
